(** * The Solteq Tand filter compiler

    A shallow embedding of [SolteqTandDatabase._construct_sql_statement]
    (mbu_dev_shared_components/solteqtand/db_handler.py): the helper that
    turns a base query, an AND-filter mapping, a list of OR-filter mappings
    and an ORDER BY request into a parameterised SQL text and its positional
    parameter list.

    Text is held in [string] as its UTF-8 bytes (one [ascii] per ASCII
    character), Python values by [pyval], a [dict] by the list of its
    [items()] in insertion order, and the two accumulator lists of the method
    by explicit state passing. *)

From Stdlib Require Import String Ascii List Bool Arith ZArith Lia.
Import ListNotations.
Open Scope string_scope.

#[local] Set Warnings "-register-all".

(** ** Python values *)

(** The values a filter can carry. [VTuple] and [VList] keep Python's
    distinction between [tuple] and [list], on which the method dispatches. *)
Inductive pyval : Type :=
| VNone : pyval
| VBool : bool -> pyval
| VInt : Z -> pyval
| VStr : string -> pyval
| VTuple : list pyval -> pyval
| VList : list pyval -> pyval
| VDict : list (pyval * pyval) -> pyval.

(** A filter mapping whose keys are column names: the [items()] of the
    [dict], in insertion order. *)
Definition FilterMap : Type := list (string * pyval).

Module Py.

(** [isinstance(value, tuple)], [isinstance(value, list)],
    [isinstance(value, str)]. *)
Definition is_tuple (v : pyval) : bool :=
  match v with VTuple _ => true | _ => false end.

Definition is_list (v : pyval) : bool :=
  match v with VList _ => true | _ => false end.

Definition is_str (v : pyval) : bool :=
  match v with VStr _ => true | _ => false end.

(** The elements of a sequence, as [list.extend] walks them. *)
Definition elems (v : pyval) : list pyval :=
  match v with
  | VTuple l | VList l => l
  | _ => []
  end.

(** [needle in hay] on strings. *)
Fixpoint contains (needle hay : string) : bool :=
  prefix needle hay
  || match hay with
     | EmptyString => false
     | String _ hay' => contains needle hay'
     end.

(** ["%" in value], guarded by [isinstance(value, str)]. *)
Definition has_wildcard (v : pyval) : bool :=
  match v with VStr s => contains "%" s | _ => false end.

(** [str.upper] on an ASCII character: [a]..[z] go to [A]..[Z], every
    other one is kept. *)
Definition upper_ascii (c : ascii) : ascii :=
  let n := nat_of_ascii c in
  if ((97 <=? n) && (n <=? 122))%nat then ascii_of_nat (n - 32) else c.

(** The characters outside ASCII that [str.upper] changes, each with what
    it becomes (Unicode 14.0, the full upper-case mapping that CPython 3.11
    applies character by character); text is held in UTF-8. *)
Definition upper_table : list (string * string) :=
  [
    ("µ", "Μ"); ("ß", "SS"); ("à", "À"); ("á", "Á"); ("â", "Â");
    ("ã", "Ã"); ("ä", "Ä"); ("å", "Å"); ("æ", "Æ"); ("ç", "Ç");
    ("è", "È"); ("é", "É"); ("ê", "Ê"); ("ë", "Ë"); ("ì", "Ì");
    ("í", "Í"); ("î", "Î"); ("ï", "Ï"); ("ð", "Ð"); ("ñ", "Ñ");
    ("ò", "Ò"); ("ó", "Ó"); ("ô", "Ô"); ("õ", "Õ"); ("ö", "Ö");
    ("ø", "Ø"); ("ù", "Ù"); ("ú", "Ú"); ("û", "Û"); ("ü", "Ü");
    ("ý", "Ý"); ("þ", "Þ"); ("ÿ", "Ÿ"); ("ā", "Ā"); ("ă", "Ă");
    ("ą", "Ą"); ("ć", "Ć"); ("ĉ", "Ĉ"); ("ċ", "Ċ"); ("č", "Č");
    ("ď", "Ď"); ("đ", "Đ"); ("ē", "Ē"); ("ĕ", "Ĕ"); ("ė", "Ė");
    ("ę", "Ę"); ("ě", "Ě"); ("ĝ", "Ĝ"); ("ğ", "Ğ"); ("ġ", "Ġ");
    ("ģ", "Ģ"); ("ĥ", "Ĥ"); ("ħ", "Ħ"); ("ĩ", "Ĩ"); ("ī", "Ī");
    ("ĭ", "Ĭ"); ("į", "Į"); ("ı", "I"); ("ĳ", "Ĳ"); ("ĵ", "Ĵ");
    ("ķ", "Ķ"); ("ĺ", "Ĺ"); ("ļ", "Ļ"); ("ľ", "Ľ"); ("ŀ", "Ŀ");
    ("ł", "Ł"); ("ń", "Ń"); ("ņ", "Ņ"); ("ň", "Ň"); ("ŉ", "ʼN");
    ("ŋ", "Ŋ"); ("ō", "Ō"); ("ŏ", "Ŏ"); ("ő", "Ő"); ("œ", "Œ");
    ("ŕ", "Ŕ"); ("ŗ", "Ŗ"); ("ř", "Ř"); ("ś", "Ś"); ("ŝ", "Ŝ");
    ("ş", "Ş"); ("š", "Š"); ("ţ", "Ţ"); ("ť", "Ť"); ("ŧ", "Ŧ");
    ("ũ", "Ũ"); ("ū", "Ū"); ("ŭ", "Ŭ"); ("ů", "Ů"); ("ű", "Ű");
    ("ų", "Ų"); ("ŵ", "Ŵ"); ("ŷ", "Ŷ"); ("ź", "Ź"); ("ż", "Ż");
    ("ž", "Ž"); ("ſ", "S"); ("ƀ", "Ƀ"); ("ƃ", "Ƃ"); ("ƅ", "Ƅ");
    ("ƈ", "Ƈ"); ("ƌ", "Ƌ"); ("ƒ", "Ƒ"); ("ƕ", "Ƕ"); ("ƙ", "Ƙ");
    ("ƚ", "Ƚ"); ("ƞ", "Ƞ"); ("ơ", "Ơ"); ("ƣ", "Ƣ"); ("ƥ", "Ƥ");
    ("ƨ", "Ƨ"); ("ƭ", "Ƭ"); ("ư", "Ư"); ("ƴ", "Ƴ"); ("ƶ", "Ƶ");
    ("ƹ", "Ƹ"); ("ƽ", "Ƽ"); ("ƿ", "Ƿ"); ("ǅ", "Ǆ"); ("ǆ", "Ǆ");
    ("ǈ", "Ǉ"); ("ǉ", "Ǉ"); ("ǋ", "Ǌ"); ("ǌ", "Ǌ"); ("ǎ", "Ǎ");
    ("ǐ", "Ǐ"); ("ǒ", "Ǒ"); ("ǔ", "Ǔ"); ("ǖ", "Ǖ"); ("ǘ", "Ǘ");
    ("ǚ", "Ǚ"); ("ǜ", "Ǜ"); ("ǝ", "Ǝ"); ("ǟ", "Ǟ"); ("ǡ", "Ǡ");
    ("ǣ", "Ǣ"); ("ǥ", "Ǥ"); ("ǧ", "Ǧ"); ("ǩ", "Ǩ"); ("ǫ", "Ǫ");
    ("ǭ", "Ǭ"); ("ǯ", "Ǯ"); ("ǰ", "J̌"); ("ǲ", "Ǳ"); ("ǳ", "Ǳ");
    ("ǵ", "Ǵ"); ("ǹ", "Ǹ"); ("ǻ", "Ǻ"); ("ǽ", "Ǽ"); ("ǿ", "Ǿ");
    ("ȁ", "Ȁ"); ("ȃ", "Ȃ"); ("ȅ", "Ȅ"); ("ȇ", "Ȇ"); ("ȉ", "Ȉ");
    ("ȋ", "Ȋ"); ("ȍ", "Ȍ"); ("ȏ", "Ȏ"); ("ȑ", "Ȑ"); ("ȓ", "Ȓ");
    ("ȕ", "Ȕ"); ("ȗ", "Ȗ"); ("ș", "Ș"); ("ț", "Ț"); ("ȝ", "Ȝ");
    ("ȟ", "Ȟ"); ("ȣ", "Ȣ"); ("ȥ", "Ȥ"); ("ȧ", "Ȧ"); ("ȩ", "Ȩ");
    ("ȫ", "Ȫ"); ("ȭ", "Ȭ"); ("ȯ", "Ȯ"); ("ȱ", "Ȱ"); ("ȳ", "Ȳ");
    ("ȼ", "Ȼ"); ("ȿ", "Ȿ"); ("ɀ", "Ɀ"); ("ɂ", "Ɂ"); ("ɇ", "Ɇ");
    ("ɉ", "Ɉ"); ("ɋ", "Ɋ"); ("ɍ", "Ɍ"); ("ɏ", "Ɏ"); ("ɐ", "Ɐ");
    ("ɑ", "Ɑ"); ("ɒ", "Ɒ"); ("ɓ", "Ɓ"); ("ɔ", "Ɔ"); ("ɖ", "Ɖ");
    ("ɗ", "Ɗ"); ("ə", "Ə"); ("ɛ", "Ɛ"); ("ɜ", "Ɜ"); ("ɠ", "Ɠ");
    ("ɡ", "Ɡ"); ("ɣ", "Ɣ"); ("ɥ", "Ɥ"); ("ɦ", "Ɦ"); ("ɨ", "Ɨ");
    ("ɩ", "Ɩ"); ("ɪ", "Ɪ"); ("ɫ", "Ɫ"); ("ɬ", "Ɬ"); ("ɯ", "Ɯ");
    ("ɱ", "Ɱ"); ("ɲ", "Ɲ"); ("ɵ", "Ɵ"); ("ɽ", "Ɽ"); ("ʀ", "Ʀ");
    ("ʂ", "Ʂ"); ("ʃ", "Ʃ"); ("ʇ", "Ʇ"); ("ʈ", "Ʈ"); ("ʉ", "Ʉ");
    ("ʊ", "Ʊ"); ("ʋ", "Ʋ"); ("ʌ", "Ʌ"); ("ʒ", "Ʒ"); ("ʝ", "Ʝ");
    ("ʞ", "Ʞ"); ("ͅ", "Ι"); ("ͱ", "Ͱ"); ("ͳ", "Ͳ"); ("ͷ", "Ͷ");
    ("ͻ", "Ͻ"); ("ͼ", "Ͼ"); ("ͽ", "Ͽ"); ("ΐ", "Ϊ́"); ("ά", "Ά");
    ("έ", "Έ"); ("ή", "Ή"); ("ί", "Ί"); ("ΰ", "Ϋ́"); ("α", "Α");
    ("β", "Β"); ("γ", "Γ"); ("δ", "Δ"); ("ε", "Ε"); ("ζ", "Ζ");
    ("η", "Η"); ("θ", "Θ"); ("ι", "Ι"); ("κ", "Κ"); ("λ", "Λ");
    ("μ", "Μ"); ("ν", "Ν"); ("ξ", "Ξ"); ("ο", "Ο"); ("π", "Π");
    ("ρ", "Ρ"); ("ς", "Σ"); ("σ", "Σ"); ("τ", "Τ"); ("υ", "Υ");
    ("φ", "Φ"); ("χ", "Χ"); ("ψ", "Ψ"); ("ω", "Ω"); ("ϊ", "Ϊ");
    ("ϋ", "Ϋ"); ("ό", "Ό"); ("ύ", "Ύ"); ("ώ", "Ώ"); ("ϐ", "Β");
    ("ϑ", "Θ"); ("ϕ", "Φ"); ("ϖ", "Π"); ("ϗ", "Ϗ"); ("ϙ", "Ϙ");
    ("ϛ", "Ϛ"); ("ϝ", "Ϝ"); ("ϟ", "Ϟ"); ("ϡ", "Ϡ"); ("ϣ", "Ϣ");
    ("ϥ", "Ϥ"); ("ϧ", "Ϧ"); ("ϩ", "Ϩ"); ("ϫ", "Ϫ"); ("ϭ", "Ϭ");
    ("ϯ", "Ϯ"); ("ϰ", "Κ"); ("ϱ", "Ρ"); ("ϲ", "Ϲ"); ("ϳ", "Ϳ");
    ("ϵ", "Ε"); ("ϸ", "Ϸ"); ("ϻ", "Ϻ"); ("а", "А"); ("б", "Б");
    ("в", "В"); ("г", "Г"); ("д", "Д"); ("е", "Е"); ("ж", "Ж");
    ("з", "З"); ("и", "И"); ("й", "Й"); ("к", "К"); ("л", "Л");
    ("м", "М"); ("н", "Н"); ("о", "О"); ("п", "П"); ("р", "Р");
    ("с", "С"); ("т", "Т"); ("у", "У"); ("ф", "Ф"); ("х", "Х");
    ("ц", "Ц"); ("ч", "Ч"); ("ш", "Ш"); ("щ", "Щ"); ("ъ", "Ъ");
    ("ы", "Ы"); ("ь", "Ь"); ("э", "Э"); ("ю", "Ю"); ("я", "Я");
    ("ѐ", "Ѐ"); ("ё", "Ё"); ("ђ", "Ђ"); ("ѓ", "Ѓ"); ("є", "Є");
    ("ѕ", "Ѕ"); ("і", "І"); ("ї", "Ї"); ("ј", "Ј"); ("љ", "Љ");
    ("њ", "Њ"); ("ћ", "Ћ"); ("ќ", "Ќ"); ("ѝ", "Ѝ"); ("ў", "Ў");
    ("џ", "Џ"); ("ѡ", "Ѡ"); ("ѣ", "Ѣ"); ("ѥ", "Ѥ"); ("ѧ", "Ѧ");
    ("ѩ", "Ѩ"); ("ѫ", "Ѫ"); ("ѭ", "Ѭ"); ("ѯ", "Ѯ"); ("ѱ", "Ѱ");
    ("ѳ", "Ѳ"); ("ѵ", "Ѵ"); ("ѷ", "Ѷ"); ("ѹ", "Ѹ"); ("ѻ", "Ѻ");
    ("ѽ", "Ѽ"); ("ѿ", "Ѿ"); ("ҁ", "Ҁ"); ("ҋ", "Ҋ"); ("ҍ", "Ҍ");
    ("ҏ", "Ҏ"); ("ґ", "Ґ"); ("ғ", "Ғ"); ("ҕ", "Ҕ"); ("җ", "Җ");
    ("ҙ", "Ҙ"); ("қ", "Қ"); ("ҝ", "Ҝ"); ("ҟ", "Ҟ"); ("ҡ", "Ҡ");
    ("ң", "Ң"); ("ҥ", "Ҥ"); ("ҧ", "Ҧ"); ("ҩ", "Ҩ"); ("ҫ", "Ҫ");
    ("ҭ", "Ҭ"); ("ү", "Ү"); ("ұ", "Ұ"); ("ҳ", "Ҳ"); ("ҵ", "Ҵ");
    ("ҷ", "Ҷ"); ("ҹ", "Ҹ"); ("һ", "Һ"); ("ҽ", "Ҽ"); ("ҿ", "Ҿ");
    ("ӂ", "Ӂ"); ("ӄ", "Ӄ"); ("ӆ", "Ӆ"); ("ӈ", "Ӈ"); ("ӊ", "Ӊ");
    ("ӌ", "Ӌ"); ("ӎ", "Ӎ"); ("ӏ", "Ӏ"); ("ӑ", "Ӑ"); ("ӓ", "Ӓ");
    ("ӕ", "Ӕ"); ("ӗ", "Ӗ"); ("ә", "Ә"); ("ӛ", "Ӛ"); ("ӝ", "Ӝ");
    ("ӟ", "Ӟ"); ("ӡ", "Ӡ"); ("ӣ", "Ӣ"); ("ӥ", "Ӥ"); ("ӧ", "Ӧ");
    ("ө", "Ө"); ("ӫ", "Ӫ"); ("ӭ", "Ӭ"); ("ӯ", "Ӯ"); ("ӱ", "Ӱ");
    ("ӳ", "Ӳ"); ("ӵ", "Ӵ"); ("ӷ", "Ӷ"); ("ӹ", "Ӹ"); ("ӻ", "Ӻ");
    ("ӽ", "Ӽ"); ("ӿ", "Ӿ"); ("ԁ", "Ԁ"); ("ԃ", "Ԃ"); ("ԅ", "Ԅ");
    ("ԇ", "Ԇ"); ("ԉ", "Ԉ"); ("ԋ", "Ԋ"); ("ԍ", "Ԍ"); ("ԏ", "Ԏ");
    ("ԑ", "Ԑ"); ("ԓ", "Ԓ"); ("ԕ", "Ԕ"); ("ԗ", "Ԗ"); ("ԙ", "Ԙ");
    ("ԛ", "Ԛ"); ("ԝ", "Ԝ"); ("ԟ", "Ԟ"); ("ԡ", "Ԡ"); ("ԣ", "Ԣ");
    ("ԥ", "Ԥ"); ("ԧ", "Ԧ"); ("ԩ", "Ԩ"); ("ԫ", "Ԫ"); ("ԭ", "Ԭ");
    ("ԯ", "Ԯ"); ("ա", "Ա"); ("բ", "Բ"); ("գ", "Գ"); ("դ", "Դ");
    ("ե", "Ե"); ("զ", "Զ"); ("է", "Է"); ("ը", "Ը"); ("թ", "Թ");
    ("ժ", "Ժ"); ("ի", "Ի"); ("լ", "Լ"); ("խ", "Խ"); ("ծ", "Ծ");
    ("կ", "Կ"); ("հ", "Հ"); ("ձ", "Ձ"); ("ղ", "Ղ"); ("ճ", "Ճ");
    ("մ", "Մ"); ("յ", "Յ"); ("ն", "Ն"); ("շ", "Շ"); ("ո", "Ո");
    ("չ", "Չ"); ("պ", "Պ"); ("ջ", "Ջ"); ("ռ", "Ռ"); ("ս", "Ս");
    ("վ", "Վ"); ("տ", "Տ"); ("ր", "Ր"); ("ց", "Ց"); ("ւ", "Ւ");
    ("փ", "Փ"); ("ք", "Ք"); ("օ", "Օ"); ("ֆ", "Ֆ"); ("և", "ԵՒ");
    ("ა", "Ა"); ("ბ", "Ბ"); ("გ", "Გ"); ("დ", "Დ");
    ("ე", "Ე"); ("ვ", "Ვ"); ("ზ", "Ზ"); ("თ", "Თ");
    ("ი", "Ი"); ("კ", "Კ"); ("ლ", "Ლ"); ("მ", "Მ");
    ("ნ", "Ნ"); ("ო", "Ო"); ("პ", "Პ"); ("ჟ", "Ჟ");
    ("რ", "Რ"); ("ს", "Ს"); ("ტ", "Ტ"); ("უ", "Უ");
    ("ფ", "Ფ"); ("ქ", "Ქ"); ("ღ", "Ღ"); ("ყ", "Ყ");
    ("შ", "Შ"); ("ჩ", "Ჩ"); ("ც", "Ც"); ("ძ", "Ძ");
    ("წ", "Წ"); ("ჭ", "Ჭ"); ("ხ", "Ხ"); ("ჯ", "Ჯ");
    ("ჰ", "Ჰ"); ("ჱ", "Ჱ"); ("ჲ", "Ჲ"); ("ჳ", "Ჳ");
    ("ჴ", "Ჴ"); ("ჵ", "Ჵ"); ("ჶ", "Ჶ"); ("ჷ", "Ჷ");
    ("ჸ", "Ჸ"); ("ჹ", "Ჹ"); ("ჺ", "Ჺ"); ("ჽ", "Ჽ");
    ("ჾ", "Ჾ"); ("ჿ", "Ჿ"); ("ᏸ", "Ᏸ"); ("ᏹ", "Ᏹ");
    ("ᏺ", "Ᏺ"); ("ᏻ", "Ᏻ"); ("ᏼ", "Ᏼ"); ("ᏽ", "Ᏽ");
    ("ᲀ", "В"); ("ᲁ", "Д"); ("ᲂ", "О"); ("ᲃ", "С");
    ("ᲄ", "Т"); ("ᲅ", "Т"); ("ᲆ", "Ъ"); ("ᲇ", "Ѣ");
    ("ᲈ", "Ꙋ"); ("ᵹ", "Ᵹ"); ("ᵽ", "Ᵽ"); ("ᶎ", "Ᶎ");
    ("ḁ", "Ḁ"); ("ḃ", "Ḃ"); ("ḅ", "Ḅ"); ("ḇ", "Ḇ");
    ("ḉ", "Ḉ"); ("ḋ", "Ḋ"); ("ḍ", "Ḍ"); ("ḏ", "Ḏ");
    ("ḑ", "Ḑ"); ("ḓ", "Ḓ"); ("ḕ", "Ḕ"); ("ḗ", "Ḗ");
    ("ḙ", "Ḙ"); ("ḛ", "Ḛ"); ("ḝ", "Ḝ"); ("ḟ", "Ḟ");
    ("ḡ", "Ḡ"); ("ḣ", "Ḣ"); ("ḥ", "Ḥ"); ("ḧ", "Ḧ");
    ("ḩ", "Ḩ"); ("ḫ", "Ḫ"); ("ḭ", "Ḭ"); ("ḯ", "Ḯ");
    ("ḱ", "Ḱ"); ("ḳ", "Ḳ"); ("ḵ", "Ḵ"); ("ḷ", "Ḷ");
    ("ḹ", "Ḹ"); ("ḻ", "Ḻ"); ("ḽ", "Ḽ"); ("ḿ", "Ḿ");
    ("ṁ", "Ṁ"); ("ṃ", "Ṃ"); ("ṅ", "Ṅ"); ("ṇ", "Ṇ");
    ("ṉ", "Ṉ"); ("ṋ", "Ṋ"); ("ṍ", "Ṍ"); ("ṏ", "Ṏ");
    ("ṑ", "Ṑ"); ("ṓ", "Ṓ"); ("ṕ", "Ṕ"); ("ṗ", "Ṗ");
    ("ṙ", "Ṙ"); ("ṛ", "Ṛ"); ("ṝ", "Ṝ"); ("ṟ", "Ṟ");
    ("ṡ", "Ṡ"); ("ṣ", "Ṣ"); ("ṥ", "Ṥ"); ("ṧ", "Ṧ");
    ("ṩ", "Ṩ"); ("ṫ", "Ṫ"); ("ṭ", "Ṭ"); ("ṯ", "Ṯ");
    ("ṱ", "Ṱ"); ("ṳ", "Ṳ"); ("ṵ", "Ṵ"); ("ṷ", "Ṷ");
    ("ṹ", "Ṹ"); ("ṻ", "Ṻ"); ("ṽ", "Ṽ"); ("ṿ", "Ṿ");
    ("ẁ", "Ẁ"); ("ẃ", "Ẃ"); ("ẅ", "Ẅ"); ("ẇ", "Ẇ");
    ("ẉ", "Ẉ"); ("ẋ", "Ẋ"); ("ẍ", "Ẍ"); ("ẏ", "Ẏ");
    ("ẑ", "Ẑ"); ("ẓ", "Ẓ"); ("ẕ", "Ẕ"); ("ẖ", "H̱");
    ("ẗ", "T̈"); ("ẘ", "W̊"); ("ẙ", "Y̊"); ("ẚ", "Aʾ");
    ("ẛ", "Ṡ"); ("ạ", "Ạ"); ("ả", "Ả"); ("ấ", "Ấ");
    ("ầ", "Ầ"); ("ẩ", "Ẩ"); ("ẫ", "Ẫ"); ("ậ", "Ậ");
    ("ắ", "Ắ"); ("ằ", "Ằ"); ("ẳ", "Ẳ"); ("ẵ", "Ẵ");
    ("ặ", "Ặ"); ("ẹ", "Ẹ"); ("ẻ", "Ẻ"); ("ẽ", "Ẽ");
    ("ế", "Ế"); ("ề", "Ề"); ("ể", "Ể"); ("ễ", "Ễ");
    ("ệ", "Ệ"); ("ỉ", "Ỉ"); ("ị", "Ị"); ("ọ", "Ọ");
    ("ỏ", "Ỏ"); ("ố", "Ố"); ("ồ", "Ồ"); ("ổ", "Ổ");
    ("ỗ", "Ỗ"); ("ộ", "Ộ"); ("ớ", "Ớ"); ("ờ", "Ờ");
    ("ở", "Ở"); ("ỡ", "Ỡ"); ("ợ", "Ợ"); ("ụ", "Ụ");
    ("ủ", "Ủ"); ("ứ", "Ứ"); ("ừ", "Ừ"); ("ử", "Ử");
    ("ữ", "Ữ"); ("ự", "Ự"); ("ỳ", "Ỳ"); ("ỵ", "Ỵ");
    ("ỷ", "Ỷ"); ("ỹ", "Ỹ"); ("ỻ", "Ỻ"); ("ỽ", "Ỽ");
    ("ỿ", "Ỿ"); ("ἀ", "Ἀ"); ("ἁ", "Ἁ"); ("ἂ", "Ἂ");
    ("ἃ", "Ἃ"); ("ἄ", "Ἄ"); ("ἅ", "Ἅ"); ("ἆ", "Ἆ");
    ("ἇ", "Ἇ"); ("ἐ", "Ἐ"); ("ἑ", "Ἑ"); ("ἒ", "Ἒ");
    ("ἓ", "Ἓ"); ("ἔ", "Ἔ"); ("ἕ", "Ἕ"); ("ἠ", "Ἠ");
    ("ἡ", "Ἡ"); ("ἢ", "Ἢ"); ("ἣ", "Ἣ"); ("ἤ", "Ἤ");
    ("ἥ", "Ἥ"); ("ἦ", "Ἦ"); ("ἧ", "Ἧ"); ("ἰ", "Ἰ");
    ("ἱ", "Ἱ"); ("ἲ", "Ἲ"); ("ἳ", "Ἳ"); ("ἴ", "Ἴ");
    ("ἵ", "Ἵ"); ("ἶ", "Ἶ"); ("ἷ", "Ἷ"); ("ὀ", "Ὀ");
    ("ὁ", "Ὁ"); ("ὂ", "Ὂ"); ("ὃ", "Ὃ"); ("ὄ", "Ὄ");
    ("ὅ", "Ὅ"); ("ὐ", "Υ̓"); ("ὑ", "Ὑ"); ("ὒ", "Υ̓̀");
    ("ὓ", "Ὓ"); ("ὔ", "Υ̓́"); ("ὕ", "Ὕ"); ("ὖ", "Υ̓͂");
    ("ὗ", "Ὗ"); ("ὠ", "Ὠ"); ("ὡ", "Ὡ"); ("ὢ", "Ὢ");
    ("ὣ", "Ὣ"); ("ὤ", "Ὤ"); ("ὥ", "Ὥ"); ("ὦ", "Ὦ");
    ("ὧ", "Ὧ"); ("ὰ", "Ὰ"); ("ά", "Ά"); ("ὲ", "Ὲ");
    ("έ", "Έ"); ("ὴ", "Ὴ"); ("ή", "Ή"); ("ὶ", "Ὶ");
    ("ί", "Ί"); ("ὸ", "Ὸ"); ("ό", "Ό"); ("ὺ", "Ὺ");
    ("ύ", "Ύ"); ("ὼ", "Ὼ"); ("ώ", "Ώ"); ("ᾀ", "ἈΙ");
    ("ᾁ", "ἉΙ"); ("ᾂ", "ἊΙ"); ("ᾃ", "ἋΙ"); ("ᾄ", "ἌΙ");
    ("ᾅ", "ἍΙ"); ("ᾆ", "ἎΙ"); ("ᾇ", "ἏΙ"); ("ᾈ", "ἈΙ");
    ("ᾉ", "ἉΙ"); ("ᾊ", "ἊΙ"); ("ᾋ", "ἋΙ"); ("ᾌ", "ἌΙ");
    ("ᾍ", "ἍΙ"); ("ᾎ", "ἎΙ"); ("ᾏ", "ἏΙ"); ("ᾐ", "ἨΙ");
    ("ᾑ", "ἩΙ"); ("ᾒ", "ἪΙ"); ("ᾓ", "ἫΙ"); ("ᾔ", "ἬΙ");
    ("ᾕ", "ἭΙ"); ("ᾖ", "ἮΙ"); ("ᾗ", "ἯΙ"); ("ᾘ", "ἨΙ");
    ("ᾙ", "ἩΙ"); ("ᾚ", "ἪΙ"); ("ᾛ", "ἫΙ"); ("ᾜ", "ἬΙ");
    ("ᾝ", "ἭΙ"); ("ᾞ", "ἮΙ"); ("ᾟ", "ἯΙ"); ("ᾠ", "ὨΙ");
    ("ᾡ", "ὩΙ"); ("ᾢ", "ὪΙ"); ("ᾣ", "ὫΙ"); ("ᾤ", "ὬΙ");
    ("ᾥ", "ὭΙ"); ("ᾦ", "ὮΙ"); ("ᾧ", "ὯΙ"); ("ᾨ", "ὨΙ");
    ("ᾩ", "ὩΙ"); ("ᾪ", "ὪΙ"); ("ᾫ", "ὫΙ"); ("ᾬ", "ὬΙ");
    ("ᾭ", "ὭΙ"); ("ᾮ", "ὮΙ"); ("ᾯ", "ὯΙ"); ("ᾰ", "Ᾰ");
    ("ᾱ", "Ᾱ"); ("ᾲ", "ᾺΙ"); ("ᾳ", "ΑΙ"); ("ᾴ", "ΆΙ");
    ("ᾶ", "Α͂"); ("ᾷ", "Α͂Ι"); ("ᾼ", "ΑΙ"); ("ι", "Ι");
    ("ῂ", "ῊΙ"); ("ῃ", "ΗΙ"); ("ῄ", "ΉΙ"); ("ῆ", "Η͂");
    ("ῇ", "Η͂Ι"); ("ῌ", "ΗΙ"); ("ῐ", "Ῐ"); ("ῑ", "Ῑ");
    ("ῒ", "Ϊ̀"); ("ΐ", "Ϊ́"); ("ῖ", "Ι͂"); ("ῗ", "Ϊ͂");
    ("ῠ", "Ῠ"); ("ῡ", "Ῡ"); ("ῢ", "Ϋ̀"); ("ΰ", "Ϋ́");
    ("ῤ", "Ρ̓"); ("ῥ", "Ῥ"); ("ῦ", "Υ͂"); ("ῧ", "Ϋ͂");
    ("ῲ", "ῺΙ"); ("ῳ", "ΩΙ"); ("ῴ", "ΏΙ"); ("ῶ", "Ω͂");
    ("ῷ", "Ω͂Ι"); ("ῼ", "ΩΙ"); ("ⅎ", "Ⅎ"); ("ⅰ", "Ⅰ");
    ("ⅱ", "Ⅱ"); ("ⅲ", "Ⅲ"); ("ⅳ", "Ⅳ"); ("ⅴ", "Ⅴ");
    ("ⅵ", "Ⅵ"); ("ⅶ", "Ⅶ"); ("ⅷ", "Ⅷ"); ("ⅸ", "Ⅸ");
    ("ⅹ", "Ⅹ"); ("ⅺ", "Ⅺ"); ("ⅻ", "Ⅻ"); ("ⅼ", "Ⅼ");
    ("ⅽ", "Ⅽ"); ("ⅾ", "Ⅾ"); ("ⅿ", "Ⅿ"); ("ↄ", "Ↄ");
    ("ⓐ", "Ⓐ"); ("ⓑ", "Ⓑ"); ("ⓒ", "Ⓒ"); ("ⓓ", "Ⓓ");
    ("ⓔ", "Ⓔ"); ("ⓕ", "Ⓕ"); ("ⓖ", "Ⓖ"); ("ⓗ", "Ⓗ");
    ("ⓘ", "Ⓘ"); ("ⓙ", "Ⓙ"); ("ⓚ", "Ⓚ"); ("ⓛ", "Ⓛ");
    ("ⓜ", "Ⓜ"); ("ⓝ", "Ⓝ"); ("ⓞ", "Ⓞ"); ("ⓟ", "Ⓟ");
    ("ⓠ", "Ⓠ"); ("ⓡ", "Ⓡ"); ("ⓢ", "Ⓢ"); ("ⓣ", "Ⓣ");
    ("ⓤ", "Ⓤ"); ("ⓥ", "Ⓥ"); ("ⓦ", "Ⓦ"); ("ⓧ", "Ⓧ");
    ("ⓨ", "Ⓨ"); ("ⓩ", "Ⓩ"); ("ⰰ", "Ⰰ"); ("ⰱ", "Ⰱ");
    ("ⰲ", "Ⰲ"); ("ⰳ", "Ⰳ"); ("ⰴ", "Ⰴ"); ("ⰵ", "Ⰵ");
    ("ⰶ", "Ⰶ"); ("ⰷ", "Ⰷ"); ("ⰸ", "Ⰸ"); ("ⰹ", "Ⰹ");
    ("ⰺ", "Ⰺ"); ("ⰻ", "Ⰻ"); ("ⰼ", "Ⰼ"); ("ⰽ", "Ⰽ");
    ("ⰾ", "Ⰾ"); ("ⰿ", "Ⰿ"); ("ⱀ", "Ⱀ"); ("ⱁ", "Ⱁ");
    ("ⱂ", "Ⱂ"); ("ⱃ", "Ⱃ"); ("ⱄ", "Ⱄ"); ("ⱅ", "Ⱅ");
    ("ⱆ", "Ⱆ"); ("ⱇ", "Ⱇ"); ("ⱈ", "Ⱈ"); ("ⱉ", "Ⱉ");
    ("ⱊ", "Ⱊ"); ("ⱋ", "Ⱋ"); ("ⱌ", "Ⱌ"); ("ⱍ", "Ⱍ");
    ("ⱎ", "Ⱎ"); ("ⱏ", "Ⱏ"); ("ⱐ", "Ⱐ"); ("ⱑ", "Ⱑ");
    ("ⱒ", "Ⱒ"); ("ⱓ", "Ⱓ"); ("ⱔ", "Ⱔ"); ("ⱕ", "Ⱕ");
    ("ⱖ", "Ⱖ"); ("ⱗ", "Ⱗ"); ("ⱘ", "Ⱘ"); ("ⱙ", "Ⱙ");
    ("ⱚ", "Ⱚ"); ("ⱛ", "Ⱛ"); ("ⱜ", "Ⱜ"); ("ⱝ", "Ⱝ");
    ("ⱞ", "Ⱞ"); ("ⱟ", "Ⱟ"); ("ⱡ", "Ⱡ"); ("ⱥ", "Ⱥ");
    ("ⱦ", "Ⱦ"); ("ⱨ", "Ⱨ"); ("ⱪ", "Ⱪ"); ("ⱬ", "Ⱬ");
    ("ⱳ", "Ⱳ"); ("ⱶ", "Ⱶ"); ("ⲁ", "Ⲁ"); ("ⲃ", "Ⲃ");
    ("ⲅ", "Ⲅ"); ("ⲇ", "Ⲇ"); ("ⲉ", "Ⲉ"); ("ⲋ", "Ⲋ");
    ("ⲍ", "Ⲍ"); ("ⲏ", "Ⲏ"); ("ⲑ", "Ⲑ"); ("ⲓ", "Ⲓ");
    ("ⲕ", "Ⲕ"); ("ⲗ", "Ⲗ"); ("ⲙ", "Ⲙ"); ("ⲛ", "Ⲛ");
    ("ⲝ", "Ⲝ"); ("ⲟ", "Ⲟ"); ("ⲡ", "Ⲡ"); ("ⲣ", "Ⲣ");
    ("ⲥ", "Ⲥ"); ("ⲧ", "Ⲧ"); ("ⲩ", "Ⲩ"); ("ⲫ", "Ⲫ");
    ("ⲭ", "Ⲭ"); ("ⲯ", "Ⲯ"); ("ⲱ", "Ⲱ"); ("ⲳ", "Ⲳ");
    ("ⲵ", "Ⲵ"); ("ⲷ", "Ⲷ"); ("ⲹ", "Ⲹ"); ("ⲻ", "Ⲻ");
    ("ⲽ", "Ⲽ"); ("ⲿ", "Ⲿ"); ("ⳁ", "Ⳁ"); ("ⳃ", "Ⳃ");
    ("ⳅ", "Ⳅ"); ("ⳇ", "Ⳇ"); ("ⳉ", "Ⳉ"); ("ⳋ", "Ⳋ");
    ("ⳍ", "Ⳍ"); ("ⳏ", "Ⳏ"); ("ⳑ", "Ⳑ"); ("ⳓ", "Ⳓ");
    ("ⳕ", "Ⳕ"); ("ⳗ", "Ⳗ"); ("ⳙ", "Ⳙ"); ("ⳛ", "Ⳛ");
    ("ⳝ", "Ⳝ"); ("ⳟ", "Ⳟ"); ("ⳡ", "Ⳡ"); ("ⳣ", "Ⳣ");
    ("ⳬ", "Ⳬ"); ("ⳮ", "Ⳮ"); ("ⳳ", "Ⳳ"); ("ⴀ", "Ⴀ");
    ("ⴁ", "Ⴁ"); ("ⴂ", "Ⴂ"); ("ⴃ", "Ⴃ"); ("ⴄ", "Ⴄ");
    ("ⴅ", "Ⴅ"); ("ⴆ", "Ⴆ"); ("ⴇ", "Ⴇ"); ("ⴈ", "Ⴈ");
    ("ⴉ", "Ⴉ"); ("ⴊ", "Ⴊ"); ("ⴋ", "Ⴋ"); ("ⴌ", "Ⴌ");
    ("ⴍ", "Ⴍ"); ("ⴎ", "Ⴎ"); ("ⴏ", "Ⴏ"); ("ⴐ", "Ⴐ");
    ("ⴑ", "Ⴑ"); ("ⴒ", "Ⴒ"); ("ⴓ", "Ⴓ"); ("ⴔ", "Ⴔ");
    ("ⴕ", "Ⴕ"); ("ⴖ", "Ⴖ"); ("ⴗ", "Ⴗ"); ("ⴘ", "Ⴘ");
    ("ⴙ", "Ⴙ"); ("ⴚ", "Ⴚ"); ("ⴛ", "Ⴛ"); ("ⴜ", "Ⴜ");
    ("ⴝ", "Ⴝ"); ("ⴞ", "Ⴞ"); ("ⴟ", "Ⴟ"); ("ⴠ", "Ⴠ");
    ("ⴡ", "Ⴡ"); ("ⴢ", "Ⴢ"); ("ⴣ", "Ⴣ"); ("ⴤ", "Ⴤ");
    ("ⴥ", "Ⴥ"); ("ⴧ", "Ⴧ"); ("ⴭ", "Ⴭ"); ("ꙁ", "Ꙁ");
    ("ꙃ", "Ꙃ"); ("ꙅ", "Ꙅ"); ("ꙇ", "Ꙇ"); ("ꙉ", "Ꙉ");
    ("ꙋ", "Ꙋ"); ("ꙍ", "Ꙍ"); ("ꙏ", "Ꙏ"); ("ꙑ", "Ꙑ");
    ("ꙓ", "Ꙓ"); ("ꙕ", "Ꙕ"); ("ꙗ", "Ꙗ"); ("ꙙ", "Ꙙ");
    ("ꙛ", "Ꙛ"); ("ꙝ", "Ꙝ"); ("ꙟ", "Ꙟ"); ("ꙡ", "Ꙡ");
    ("ꙣ", "Ꙣ"); ("ꙥ", "Ꙥ"); ("ꙧ", "Ꙧ"); ("ꙩ", "Ꙩ");
    ("ꙫ", "Ꙫ"); ("ꙭ", "Ꙭ"); ("ꚁ", "Ꚁ"); ("ꚃ", "Ꚃ");
    ("ꚅ", "Ꚅ"); ("ꚇ", "Ꚇ"); ("ꚉ", "Ꚉ"); ("ꚋ", "Ꚋ");
    ("ꚍ", "Ꚍ"); ("ꚏ", "Ꚏ"); ("ꚑ", "Ꚑ"); ("ꚓ", "Ꚓ");
    ("ꚕ", "Ꚕ"); ("ꚗ", "Ꚗ"); ("ꚙ", "Ꚙ"); ("ꚛ", "Ꚛ");
    ("ꜣ", "Ꜣ"); ("ꜥ", "Ꜥ"); ("ꜧ", "Ꜧ"); ("ꜩ", "Ꜩ");
    ("ꜫ", "Ꜫ"); ("ꜭ", "Ꜭ"); ("ꜯ", "Ꜯ"); ("ꜳ", "Ꜳ");
    ("ꜵ", "Ꜵ"); ("ꜷ", "Ꜷ"); ("ꜹ", "Ꜹ"); ("ꜻ", "Ꜻ");
    ("ꜽ", "Ꜽ"); ("ꜿ", "Ꜿ"); ("ꝁ", "Ꝁ"); ("ꝃ", "Ꝃ");
    ("ꝅ", "Ꝅ"); ("ꝇ", "Ꝇ"); ("ꝉ", "Ꝉ"); ("ꝋ", "Ꝋ");
    ("ꝍ", "Ꝍ"); ("ꝏ", "Ꝏ"); ("ꝑ", "Ꝑ"); ("ꝓ", "Ꝓ");
    ("ꝕ", "Ꝕ"); ("ꝗ", "Ꝗ"); ("ꝙ", "Ꝙ"); ("ꝛ", "Ꝛ");
    ("ꝝ", "Ꝝ"); ("ꝟ", "Ꝟ"); ("ꝡ", "Ꝡ"); ("ꝣ", "Ꝣ");
    ("ꝥ", "Ꝥ"); ("ꝧ", "Ꝧ"); ("ꝩ", "Ꝩ"); ("ꝫ", "Ꝫ");
    ("ꝭ", "Ꝭ"); ("ꝯ", "Ꝯ"); ("ꝺ", "Ꝺ"); ("ꝼ", "Ꝼ");
    ("ꝿ", "Ꝿ"); ("ꞁ", "Ꞁ"); ("ꞃ", "Ꞃ"); ("ꞅ", "Ꞅ");
    ("ꞇ", "Ꞇ"); ("ꞌ", "Ꞌ"); ("ꞑ", "Ꞑ"); ("ꞓ", "Ꞓ");
    ("ꞔ", "Ꞔ"); ("ꞗ", "Ꞗ"); ("ꞙ", "Ꞙ"); ("ꞛ", "Ꞛ");
    ("ꞝ", "Ꞝ"); ("ꞟ", "Ꞟ"); ("ꞡ", "Ꞡ"); ("ꞣ", "Ꞣ");
    ("ꞥ", "Ꞥ"); ("ꞧ", "Ꞧ"); ("ꞩ", "Ꞩ"); ("ꞵ", "Ꞵ");
    ("ꞷ", "Ꞷ"); ("ꞹ", "Ꞹ"); ("ꞻ", "Ꞻ"); ("ꞽ", "Ꞽ");
    ("ꞿ", "Ꞿ"); ("ꟁ", "Ꟁ"); ("ꟃ", "Ꟃ"); ("ꟈ", "Ꟈ");
    ("ꟊ", "Ꟊ"); ("ꟑ", "Ꟑ"); ("ꟗ", "Ꟗ"); ("ꟙ", "Ꟙ");
    ("ꟶ", "Ꟶ"); ("ꭓ", "Ꭓ"); ("ꭰ", "Ꭰ"); ("ꭱ", "Ꭱ");
    ("ꭲ", "Ꭲ"); ("ꭳ", "Ꭳ"); ("ꭴ", "Ꭴ"); ("ꭵ", "Ꭵ");
    ("ꭶ", "Ꭶ"); ("ꭷ", "Ꭷ"); ("ꭸ", "Ꭸ"); ("ꭹ", "Ꭹ");
    ("ꭺ", "Ꭺ"); ("ꭻ", "Ꭻ"); ("ꭼ", "Ꭼ"); ("ꭽ", "Ꭽ");
    ("ꭾ", "Ꭾ"); ("ꭿ", "Ꭿ"); ("ꮀ", "Ꮀ"); ("ꮁ", "Ꮁ");
    ("ꮂ", "Ꮂ"); ("ꮃ", "Ꮃ"); ("ꮄ", "Ꮄ"); ("ꮅ", "Ꮅ");
    ("ꮆ", "Ꮆ"); ("ꮇ", "Ꮇ"); ("ꮈ", "Ꮈ"); ("ꮉ", "Ꮉ");
    ("ꮊ", "Ꮊ"); ("ꮋ", "Ꮋ"); ("ꮌ", "Ꮌ"); ("ꮍ", "Ꮍ");
    ("ꮎ", "Ꮎ"); ("ꮏ", "Ꮏ"); ("ꮐ", "Ꮐ"); ("ꮑ", "Ꮑ");
    ("ꮒ", "Ꮒ"); ("ꮓ", "Ꮓ"); ("ꮔ", "Ꮔ"); ("ꮕ", "Ꮕ");
    ("ꮖ", "Ꮖ"); ("ꮗ", "Ꮗ"); ("ꮘ", "Ꮘ"); ("ꮙ", "Ꮙ");
    ("ꮚ", "Ꮚ"); ("ꮛ", "Ꮛ"); ("ꮜ", "Ꮜ"); ("ꮝ", "Ꮝ");
    ("ꮞ", "Ꮞ"); ("ꮟ", "Ꮟ"); ("ꮠ", "Ꮠ"); ("ꮡ", "Ꮡ");
    ("ꮢ", "Ꮢ"); ("ꮣ", "Ꮣ"); ("ꮤ", "Ꮤ"); ("ꮥ", "Ꮥ");
    ("ꮦ", "Ꮦ"); ("ꮧ", "Ꮧ"); ("ꮨ", "Ꮨ"); ("ꮩ", "Ꮩ");
    ("ꮪ", "Ꮪ"); ("ꮫ", "Ꮫ"); ("ꮬ", "Ꮬ"); ("ꮭ", "Ꮭ");
    ("ꮮ", "Ꮮ"); ("ꮯ", "Ꮯ"); ("ꮰ", "Ꮰ"); ("ꮱ", "Ꮱ");
    ("ꮲ", "Ꮲ"); ("ꮳ", "Ꮳ"); ("ꮴ", "Ꮴ"); ("ꮵ", "Ꮵ");
    ("ꮶ", "Ꮶ"); ("ꮷ", "Ꮷ"); ("ꮸ", "Ꮸ"); ("ꮹ", "Ꮹ");
    ("ꮺ", "Ꮺ"); ("ꮻ", "Ꮻ"); ("ꮼ", "Ꮼ"); ("ꮽ", "Ꮽ");
    ("ꮾ", "Ꮾ"); ("ꮿ", "Ꮿ"); ("ﬀ", "FF"); ("ﬁ", "FI");
    ("ﬂ", "FL"); ("ﬃ", "FFI"); ("ﬄ", "FFL"); ("ﬅ", "ST");
    ("ﬆ", "ST"); ("ﬓ", "ՄՆ"); ("ﬔ", "ՄԵ"); ("ﬕ", "ՄԻ");
    ("ﬖ", "ՎՆ"); ("ﬗ", "ՄԽ"); ("ａ", "Ａ"); ("ｂ", "Ｂ");
    ("ｃ", "Ｃ"); ("ｄ", "Ｄ"); ("ｅ", "Ｅ"); ("ｆ", "Ｆ");
    ("ｇ", "Ｇ"); ("ｈ", "Ｈ"); ("ｉ", "Ｉ"); ("ｊ", "Ｊ");
    ("ｋ", "Ｋ"); ("ｌ", "Ｌ"); ("ｍ", "Ｍ"); ("ｎ", "Ｎ");
    ("ｏ", "Ｏ"); ("ｐ", "Ｐ"); ("ｑ", "Ｑ"); ("ｒ", "Ｒ");
    ("ｓ", "Ｓ"); ("ｔ", "Ｔ"); ("ｕ", "Ｕ"); ("ｖ", "Ｖ");
    ("ｗ", "Ｗ"); ("ｘ", "Ｘ"); ("ｙ", "Ｙ"); ("ｚ", "Ｚ");
    ("𐐨", "𐐀"); ("𐐩", "𐐁"); ("𐐪", "𐐂"); ("𐐫", "𐐃");
    ("𐐬", "𐐄"); ("𐐭", "𐐅"); ("𐐮", "𐐆"); ("𐐯", "𐐇");
    ("𐐰", "𐐈"); ("𐐱", "𐐉"); ("𐐲", "𐐊"); ("𐐳", "𐐋");
    ("𐐴", "𐐌"); ("𐐵", "𐐍"); ("𐐶", "𐐎"); ("𐐷", "𐐏");
    ("𐐸", "𐐐"); ("𐐹", "𐐑"); ("𐐺", "𐐒"); ("𐐻", "𐐓");
    ("𐐼", "𐐔"); ("𐐽", "𐐕"); ("𐐾", "𐐖"); ("𐐿", "𐐗");
    ("𐑀", "𐐘"); ("𐑁", "𐐙"); ("𐑂", "𐐚"); ("𐑃", "𐐛");
    ("𐑄", "𐐜"); ("𐑅", "𐐝"); ("𐑆", "𐐞"); ("𐑇", "𐐟");
    ("𐑈", "𐐠"); ("𐑉", "𐐡"); ("𐑊", "𐐢"); ("𐑋", "𐐣");
    ("𐑌", "𐐤"); ("𐑍", "𐐥"); ("𐑎", "𐐦"); ("𐑏", "𐐧");
    ("𐓘", "𐒰"); ("𐓙", "𐒱"); ("𐓚", "𐒲"); ("𐓛", "𐒳");
    ("𐓜", "𐒴"); ("𐓝", "𐒵"); ("𐓞", "𐒶"); ("𐓟", "𐒷");
    ("𐓠", "𐒸"); ("𐓡", "𐒹"); ("𐓢", "𐒺"); ("𐓣", "𐒻");
    ("𐓤", "𐒼"); ("𐓥", "𐒽"); ("𐓦", "𐒾"); ("𐓧", "𐒿");
    ("𐓨", "𐓀"); ("𐓩", "𐓁"); ("𐓪", "𐓂"); ("𐓫", "𐓃");
    ("𐓬", "𐓄"); ("𐓭", "𐓅"); ("𐓮", "𐓆"); ("𐓯", "𐓇");
    ("𐓰", "𐓈"); ("𐓱", "𐓉"); ("𐓲", "𐓊"); ("𐓳", "𐓋");
    ("𐓴", "𐓌"); ("𐓵", "𐓍"); ("𐓶", "𐓎"); ("𐓷", "𐓏");
    ("𐓸", "𐓐"); ("𐓹", "𐓑"); ("𐓺", "𐓒"); ("𐓻", "𐓓");
    ("𐖗", "𐕰"); ("𐖘", "𐕱"); ("𐖙", "𐕲"); ("𐖚", "𐕳");
    ("𐖛", "𐕴"); ("𐖜", "𐕵"); ("𐖝", "𐕶"); ("𐖞", "𐕷");
    ("𐖟", "𐕸"); ("𐖠", "𐕹"); ("𐖡", "𐕺"); ("𐖣", "𐕼");
    ("𐖤", "𐕽"); ("𐖥", "𐕾"); ("𐖦", "𐕿"); ("𐖧", "𐖀");
    ("𐖨", "𐖁"); ("𐖩", "𐖂"); ("𐖪", "𐖃"); ("𐖫", "𐖄");
    ("𐖬", "𐖅"); ("𐖭", "𐖆"); ("𐖮", "𐖇"); ("𐖯", "𐖈");
    ("𐖰", "𐖉"); ("𐖱", "𐖊"); ("𐖳", "𐖌"); ("𐖴", "𐖍");
    ("𐖵", "𐖎"); ("𐖶", "𐖏"); ("𐖷", "𐖐"); ("𐖸", "𐖑");
    ("𐖹", "𐖒"); ("𐖻", "𐖔"); ("𐖼", "𐖕"); ("𐳀", "𐲀");
    ("𐳁", "𐲁"); ("𐳂", "𐲂"); ("𐳃", "𐲃"); ("𐳄", "𐲄");
    ("𐳅", "𐲅"); ("𐳆", "𐲆"); ("𐳇", "𐲇"); ("𐳈", "𐲈");
    ("𐳉", "𐲉"); ("𐳊", "𐲊"); ("𐳋", "𐲋"); ("𐳌", "𐲌");
    ("𐳍", "𐲍"); ("𐳎", "𐲎"); ("𐳏", "𐲏"); ("𐳐", "𐲐");
    ("𐳑", "𐲑"); ("𐳒", "𐲒"); ("𐳓", "𐲓"); ("𐳔", "𐲔");
    ("𐳕", "𐲕"); ("𐳖", "𐲖"); ("𐳗", "𐲗"); ("𐳘", "𐲘");
    ("𐳙", "𐲙"); ("𐳚", "𐲚"); ("𐳛", "𐲛"); ("𐳜", "𐲜");
    ("𐳝", "𐲝"); ("𐳞", "𐲞"); ("𐳟", "𐲟"); ("𐳠", "𐲠");
    ("𐳡", "𐲡"); ("𐳢", "𐲢"); ("𐳣", "𐲣"); ("𐳤", "𐲤");
    ("𐳥", "𐲥"); ("𐳦", "𐲦"); ("𐳧", "𐲧"); ("𐳨", "𐲨");
    ("𐳩", "𐲩"); ("𐳪", "𐲪"); ("𐳫", "𐲫"); ("𐳬", "𐲬");
    ("𐳭", "𐲭"); ("𐳮", "𐲮"); ("𐳯", "𐲯"); ("𐳰", "𐲰");
    ("𐳱", "𐲱"); ("𐳲", "𐲲"); ("𑣀", "𑢠"); ("𑣁", "𑢡");
    ("𑣂", "𑢢"); ("𑣃", "𑢣"); ("𑣄", "𑢤"); ("𑣅", "𑢥");
    ("𑣆", "𑢦"); ("𑣇", "𑢧"); ("𑣈", "𑢨"); ("𑣉", "𑢩");
    ("𑣊", "𑢪"); ("𑣋", "𑢫"); ("𑣌", "𑢬"); ("𑣍", "𑢭");
    ("𑣎", "𑢮"); ("𑣏", "𑢯"); ("𑣐", "𑢰"); ("𑣑", "𑢱");
    ("𑣒", "𑢲"); ("𑣓", "𑢳"); ("𑣔", "𑢴"); ("𑣕", "𑢵");
    ("𑣖", "𑢶"); ("𑣗", "𑢷"); ("𑣘", "𑢸"); ("𑣙", "𑢹");
    ("𑣚", "𑢺"); ("𑣛", "𑢻"); ("𑣜", "𑢼"); ("𑣝", "𑢽");
    ("𑣞", "𑢾"); ("𑣟", "𑢿"); ("𖹠", "𖹀"); ("𖹡", "𖹁");
    ("𖹢", "𖹂"); ("𖹣", "𖹃"); ("𖹤", "𖹄"); ("𖹥", "𖹅");
    ("𖹦", "𖹆"); ("𖹧", "𖹇"); ("𖹨", "𖹈"); ("𖹩", "𖹉");
    ("𖹪", "𖹊"); ("𖹫", "𖹋"); ("𖹬", "𖹌"); ("𖹭", "𖹍");
    ("𖹮", "𖹎"); ("𖹯", "𖹏"); ("𖹰", "𖹐"); ("𖹱", "𖹑");
    ("𖹲", "𖹒"); ("𖹳", "𖹓"); ("𖹴", "𖹔"); ("𖹵", "𖹕");
    ("𖹶", "𖹖"); ("𖹷", "𖹗"); ("𖹸", "𖹘"); ("𖹹", "𖹙");
    ("𖹺", "𖹚"); ("𖹻", "𖹛"); ("𖹼", "𖹜"); ("𖹽", "𖹝");
    ("𖹾", "𖹞"); ("𖹿", "𖹟"); ("𞤢", "𞤀"); ("𞤣", "𞤁");
    ("𞤤", "𞤂"); ("𞤥", "𞤃"); ("𞤦", "𞤄"); ("𞤧", "𞤅");
    ("𞤨", "𞤆"); ("𞤩", "𞤇"); ("𞤪", "𞤈"); ("𞤫", "𞤉");
    ("𞤬", "𞤊"); ("𞤭", "𞤋"); ("𞤮", "𞤌"); ("𞤯", "𞤍");
    ("𞤰", "𞤎"); ("𞤱", "𞤏"); ("𞤲", "𞤐"); ("𞤳", "𞤑");
    ("𞤴", "𞤒"); ("𞤵", "𞤓"); ("𞤶", "𞤔"); ("𞤷", "𞤕");
    ("𞤸", "𞤖"); ("𞤹", "𞤗"); ("𞤺", "𞤘"); ("𞤻", "𞤙");
    ("𞤼", "𞤚"); ("𞤽", "𞤛"); ("𞤾", "𞤜"); ("𞤿", "𞤝");
    ("𞥀", "𞤞"); ("𞥁", "𞤟"); ("𞥂", "𞤠"); ("𞥃", "𞤡")
  ].

(** The number of bytes of the character that a byte starts. *)
Definition utf8_width (c : ascii) : nat :=
  let n := nat_of_ascii c in
  if (n <? 192)%nat then 1
  else if (n <? 224)%nat then 2
  else if (n <? 240)%nat then 3
  else 4.

(** [str.upper] on one character outside ASCII. *)
Definition upper_char (u : string) : string :=
  match find (fun p => String.eqb (fst p) u) upper_table with
  | Some p => snd p
  | None => u
  end.

(** [str.upper]: character by character, the ASCII ones by [upper_ascii],
    the others by the table; a character can become several. *)
Fixpoint upper (s : string) : string :=
  match s with
  | EmptyString => EmptyString
  | String c1 s1 =>
      match utf8_width c1, s1 with
      | 1, _ => String (upper_ascii c1) (upper s1)
      | 2, String c2 s2 =>
          upper_char (String c1 (String c2 EmptyString)) ++ upper s2
      | 3, String c2 (String c3 s3) =>
          upper_char (String c1 (String c2 (String c3 EmptyString)))
          ++ upper s3
      | S (S (S (S _))), String c2 (String c3 (String c4 s4)) =>
          upper_char
            (String c1 (String c2 (String c3 (String c4 EmptyString))))
          ++ upper s4
      | _, _ => s
      end
  end.

(** [sep.join(parts)]. *)
Definition join (sep : string) (parts : list string) : string :=
  String.concat sep parts.

(** Truth value of a list, of an optional mapping ([None] or an empty
    [dict] is false) and of an optional string. *)
Definition nonempty {A : Type} (l : list A) : bool :=
  match l with [] => false | _ :: _ => true end.

Definition truthy_seq {A : Type} (o : option (list A)) : bool :=
  match o with Some (_ :: _) => true | _ => false end.

Definition truthy_str (o : option string) : bool :=
  match o with
  | Some (String _ _) => true
  | _ => false
  end.

(** [l.append(x)] and [l.extend(xs)], returning the updated list. *)
Definition append {A : Type} (l : list A) (x : A) : list A := app l [x].

Definition extend {A : Type} (l xs : list A) : list A := app l xs.

(** [x in [a; b]] for strings. *)
Definition str_in (x : string) (l : list string) : bool :=
  existsb (String.eqb x) l.

End Py.

(** ** The method, as written *)

(** The state of either loop: the clause texts and the parameters gathered
    so far. *)
Definition acc : Type := (list string * list pyval)%type.

(** One [?] per element: [", ".join("?" for _ in value)]. *)
Definition placeholders (value : pyval) : string :=
  Py.join ", " (map (fun _ => "?") (Py.elems value)).

(** Body of the loop over [filters.items()] (lines 58-71). *)
Definition and_step (st : acc) (kv : string * pyval) : acc :=
  let '(where_clauses, params) := st in
  let '(key, value) := kv in
  if Py.is_tuple value && (List.length (Py.elems value) =? 2)%nat then
    (Py.append where_clauses (key ++ " BETWEEN ? AND ?"),
     Py.extend params (Py.elems value))
  else if Py.is_list value then
    (Py.append where_clauses (key ++ " IN (" ++ placeholders value ++ ")"),
     Py.extend params (Py.elems value))
  else if Py.is_str value && Py.has_wildcard value then
    (Py.append where_clauses (key ++ " LIKE ?"), Py.append params value)
  else
    (Py.append where_clauses (key ++ " = ?"), Py.append params value).

(** Body of the loop over [or_filter.items()] (lines 79-89). *)
Definition sub_step (st : acc) (kv : string * pyval) : acc :=
  let '(sub_clauses, sub_params) := st in
  let '(key, value) := kv in
  if Py.is_list value then
    (Py.append sub_clauses (key ++ " IN (" ++ placeholders value ++ ")"),
     Py.extend sub_params (Py.elems value))
  else if Py.is_str value && Py.has_wildcard value then
    (Py.append sub_clauses (key ++ " LIKE ?"), Py.append sub_params value)
  else
    (Py.append sub_clauses (key ++ " = ?"), Py.append sub_params value).

(** Body of the loop over [or_filters] (lines 76-93); the state is
    [or_clauses] and the method's [params]. *)
Definition or_step (st : acc) (or_filter : FilterMap) : acc :=
  let '(or_clauses, params) := st in
  let '(sub_clauses, sub_params) := fold_left sub_step or_filter ([], []) in
  if Py.nonempty sub_clauses then
    (Py.append or_clauses ("(" ++ Py.join " OR " sub_clauses ++ ")"),
     Py.extend params sub_params)
  else
    (or_clauses, params).

(** The direction that reaches the query (line 105). *)
Definition normalise_direction (order_direction : string) : string :=
  if negb (Py.str_in (Py.upper order_direction) ["ASC"; "DESC"])
  then "ASC" else Py.upper order_direction.

Definition _construct_sql_statement
    (base_query : string)
    (filters : option FilterMap)
    (or_filters : option (list FilterMap))
    (order_by : option string)
    (order_direction : string) : string * list pyval :=
  (* Handling AND filters *)
  let '(where_clauses, params) :=
    match filters with
    | Some items =>
        if Py.truthy_seq filters then fold_left and_step items ([], [])
        else ([], [])
    | None => ([], [])
    end in
  (* Handling OR filters *)
  let '(or_clauses, params) :=
    match or_filters with
    | Some groups =>
        if Py.truthy_seq or_filters then fold_left or_step groups ([], params)
        else ([], params)
    | None => ([], params)
    end in
  (* Adding AND filters *)
  let base_query :=
    if Py.nonempty where_clauses
    then base_query ++ " AND " ++ Py.join " AND " where_clauses
    else base_query in
  (* Adding OR filters *)
  let base_query :=
    if Py.nonempty or_clauses
    then base_query ++ " AND (" ++ Py.join " OR " or_clauses ++ ")"
    else base_query in
  (* Adding ORDER BY clause *)
  let base_query :=
    match order_by with
    | Some col =>
        if Py.truthy_str order_by then
          let order_direction := normalise_direction order_direction in
          base_query ++ " ORDER BY " ++ col ++ " " ++ order_direction
        else base_query
    | None => base_query
    end in
  (base_query, params).

(** ** The operators the value shapes stand for *)

(** The four filter shapes of the data model, as a tagged union. *)
Inductive operator : Type :=
| EQ (v : pyval)
| LIKE (pattern : pyval)
| IN (values : list pyval)
| BETWEEN (lo hi : pyval).

(** Shape of an AND-filter value: a 2-element tuple is a range, a list is a
    membership test, a string with a [%] is a pattern, anything else is an
    equality. *)
Definition classify (value : pyval) : operator :=
  match value with
  | VTuple [lo; hi] => BETWEEN lo hi
  | VList l => IN l
  | VStr s => if Py.contains "%" s then LIKE value else EQ value
  | _ => EQ value
  end.

(** Shape of a value inside an OR-filter element: no range there. *)
Definition classify_or (value : pyval) : operator :=
  match value with
  | VList l => IN l
  | VStr s => if Py.contains "%" s then LIKE value else EQ value
  | _ => EQ value
  end.

(** The predicate text of an operator on a column. *)
Definition predicate (key : string) (op : operator) : string :=
  match op with
  | EQ _ => key ++ " = ?"
  | LIKE _ => key ++ " LIKE ?"
  | IN l => key ++ " IN (" ++ Py.join ", " (map (fun _ => "?") l) ++ ")"
  | BETWEEN _ _ => key ++ " BETWEEN ? AND ?"
  end.

(** The parameters an operator binds, left to right. *)
Definition op_params (op : operator) : list pyval :=
  match op with
  | EQ v | LIKE v => [v]
  | IN l => l
  | BETWEEN lo hi => [lo; hi]
  end.

(** How many placeholders an operator contributes. *)
Definition arity (op : operator) : nat :=
  match op with
  | EQ _ | LIKE _ => 1
  | IN l => List.length l
  | BETWEEN _ _ => 2
  end.

Definition and_clause (kv : string * pyval) : string :=
  predicate (fst kv) (classify (snd kv)).

Definition and_params (kv : string * pyval) : list pyval :=
  op_params (classify (snd kv)).

Definition sub_clause (kv : string * pyval) : string :=
  predicate (fst kv) (classify_or (snd kv)).

Definition sub_params (kv : string * pyval) : list pyval :=
  op_params (classify_or (snd kv)).

(** The items of an optional mapping, the elements of an optional list. *)
Definition items_of {A : Type} (o : option (list A)) : list A :=
  match o with Some l => l | None => [] end.

(** The parenthesised text of one OR-filter element. *)
Definition or_clause (or_filter : FilterMap) : string :=
  "(" ++ Py.join " OR " (map sub_clause or_filter) ++ ")".

(** The elements of an OR-filter list that have at least one entry. *)
Definition live_groups (groups : list FilterMap) : list FilterMap :=
  filter Py.nonempty groups.

(** The three pieces the method appends to the base query. *)
Definition and_text (filters : option FilterMap) : string :=
  match items_of filters with
  | [] => ""
  | l => " AND " ++ Py.join " AND " (map and_clause l)
  end.

Definition or_text (or_filters : option (list FilterMap)) : string :=
  match live_groups (items_of or_filters) with
  | [] => ""
  | l => " AND (" ++ Py.join " OR " (map or_clause l) ++ ")"
  end.

Definition order_text (order_by : option string) (order_direction : string)
  : string :=
  match order_by with
  | Some (String c s) =>
      " ORDER BY " ++ String c s ++ " " ++ normalise_direction order_direction
  | _ => ""
  end.

(** The parameters of the AND filters, then those of the OR filters. *)
Definition and_param_list (filters : option FilterMap) : list pyval :=
  flat_map and_params (items_of filters).

Definition or_param_list (or_filters : option (list FilterMap)) : list pyval :=
  flat_map (flat_map sub_params) (items_of or_filters).

(** ** Text measures used in the statements *)

Module Str.

(** Occurrences of a character. *)
Fixpoint count (c : ascii) (s : string) : nat :=
  match s with
  | EmptyString => 0
  | String d s' => (if Ascii.eqb d c then 1 else 0) + count c s'
  end.

(** [s] ends with [suffix]. *)
Fixpoint ends_with (suffix s : string) : bool :=
  String.eqb s suffix
  || match s with
     | EmptyString => false
     | String _ s' => ends_with suffix s'
     end.

End Str.

(** Plain concatenation of a list of strings. *)
Definition cat (l : list string) : string := fold_right append "" l.

(** ** What the statements compare the method with *)

(** The parameter list the order-preservation property describes: the
    parameters of each AND-filter entry, entry after entry, then for each
    element of the OR-filter list, in list order, the parameters of each of
    its entries, entry after entry. *)
Definition expected_params
    (filters : option FilterMap) (or_filters : option (list FilterMap))
  : list pyval :=
  (concat (map (fun kv => op_params (classify (snd kv))) (items_of filters))
   ++ concat (map (fun g =>
                     concat (map (fun kv => op_params (classify_or (snd kv))) g))
                (items_of or_filters)))%list.

(** The text of an OR-filter list when the predicates of one element are
    joined by [inner], each element is put in parentheses, the elements are
    joined by [outer], and the whole is put in parentheses behind [ AND ]. *)
Definition group_text (inner outer : string)
    (or_filters : option (list FilterMap)) : string :=
  match live_groups (items_of or_filters) with
  | [] => ""
  | l =>
      " AND ("
      ++ Py.join outer
           (map (fun g => "(" ++ Py.join inner (map sub_clause g) ++ ")") l)
      ++ ")"
  end.

(** The other case of a letter; any other character is kept. *)
Definition swap_case (c : ascii) : ascii :=
  let n := nat_of_ascii c in
  if ((97 <=? n) && (n <=? 122))%nat then ascii_of_nat (n - 32)
  else if ((65 <=? n) && (n <=? 90))%nat then ascii_of_nat (n + 32)
  else c.

(** Every way of writing a word in upper and lower case letters. *)
Fixpoint casings (s : string) : list string :=
  match s with
  | EmptyString => [EmptyString]
  | String c s' =>
      let rest := casings s' in
      if Ascii.eqb (swap_case c) c then map (String c) rest
      else (map (String c) rest ++ map (String (swap_case c)) rest)%list
  end.

(** The direction is ["asc"] or ["desc"] in some letter case. *)
Definition asc_or_desc (order_direction : string) : bool :=
  Py.str_in order_direction (casings "asc" ++ casings "desc")%list.

(** The text has ASCII characters only. *)
Fixpoint is_ascii (s : string) : bool :=
  match s with
  | EmptyString => true
  | String c s' => (nat_of_ascii c <? 128)%nat && is_ascii s'
  end.

(** [upper_ascii] on every character. *)
Fixpoint upper_ascii_text (s : string) : string :=
  match s with
  | EmptyString => EmptyString
  | String c s' => String (Py.upper_ascii c) (upper_ascii_text s')
  end.

(** The [?] characters of a text. *)
Definition marks (s : string) : nat := Str.count "?" s.

(** The [?] characters the caller brings in through column names. *)
Definition key_marks (items : FilterMap) : nat :=
  list_sum (map (fun kv => marks (fst kv)) items).

Definition caller_marks
    (filters : option FilterMap) (or_filters : option (list FilterMap))
    (order_by : option string) : nat :=
  key_marks (items_of filters)
  + list_sum (map key_marks (items_of or_filters))
  + match order_by with Some col => marks col | None => 0 end.

(** The placeholders the entries stand for: 2 for a range, one per element
    for a membership test, 1 for an equality or a pattern. *)
Definition total_arity
    (filters : option FilterMap) (or_filters : option (list FilterMap)) : nat :=
  list_sum (map (fun kv => arity (classify (snd kv))) (items_of filters))
  + list_sum
      (map (fun g => list_sum (map (fun kv => arity (classify_or (snd kv))) g))
         (items_of or_filters)).

(** What the executor does with the pair the method returns: each [?] of
    the text, from left to right, takes the next parameter, written by
    [show]. The result is the bound text and the parameters left over, or
    [None] when a [?] finds no parameter. *)
Fixpoint bind (show : pyval -> string) (q : string) (ps : list pyval)
  : option (string * list pyval) :=
  match q with
  | EmptyString => Some (EmptyString, ps)
  | String c q' =>
      if Ascii.eqb c "?" then
        match ps with
        | p :: ps' =>
            match bind show q' ps' with
            | Some (r, rest) => Some (show p ++ r, rest)
            | None => None
            end
        | [] => None
        end
      else
        match bind show q' ps with
        | Some (r, rest) => Some (String c r, rest)
        | None => None
        end
  end.

(** The predicate of an operator with its values written in place. *)
Definition predicate_inline (show : pyval -> string) (key : string)
    (op : operator) : string :=
  match op with
  | EQ v => key ++ " = " ++ show v
  | LIKE v => key ++ " LIKE " ++ show v
  | IN l => key ++ " IN (" ++ Py.join ", " (map show l) ++ ")"
  | BETWEEN lo hi => key ++ " BETWEEN " ++ show lo ++ " AND " ++ show hi
  end.

(** The query the filters describe, every value written in its own
    predicate. *)
Definition inline_query (show : pyval -> string)
    (base_query : string) (filters : option FilterMap)
    (or_filters : option (list FilterMap))
    (order_by : option string) (order_direction : string) : string :=
  base_query
  ++ match items_of filters with
     | [] => ""
     | l =>
         " AND "
         ++ Py.join " AND "
              (map (fun kv => predicate_inline show (fst kv) (classify (snd kv)))
                 l)
     end
  ++ match live_groups (items_of or_filters) with
     | [] => ""
     | l =>
         " AND ("
         ++ Py.join " OR "
              (map (fun g =>
                      "("
                      ++ Py.join " OR "
                           (map (fun kv =>
                                   predicate_inline show (fst kv)
                                     (classify_or (snd kv))) g)
                      ++ ")") l)
         ++ ")"
     end
  ++ order_text order_by order_direction.

(** [q] has exactly the placeholders that [ps] fills, in that order, giving
    [q']. *)
Definition fills (show : pyval -> string) (q : string) (ps : list pyval)
    (q' : string) : Prop :=
  forall rest, bind show q (ps ++ rest)%list = Some (q', rest).

(** ** The method on untyped arguments *)

(** Python checks nothing at the call: the four filter arguments can be any
    value, and an operation applied to a value of the wrong type raises.
    [Dyn.construct] is the method read that way, every operation that can
    raise returning a [result]. *)

Inductive pyexc : Type := AttributeError | TypeError.

Inductive result (A : Type) : Type :=
| Ok (a : A)
| Raise (e : pyexc).

Arguments Ok {A} a.
Arguments Raise {A} e.

Definition result_bind {A B : Type} (c : result A) (k : A -> result B)
  : result B :=
  match c with
  | Ok a => k a
  | Raise e => Raise e
  end.

Notation "x <- c ;; k" := (result_bind c (fun x => k))
  (at level 61, c at next level, right associativity).
Notation "' pat <- c ;; k" := (result_bind c (fun x => let 'pat := x in k))
  (at level 61, pat pattern, c at next level, right associativity).

Module Dyn.

(** [bool(v)], as [if v:] takes it. *)
Definition truthy (v : pyval) : bool :=
  match v with
  | VNone => false
  | VBool b => b
  | VInt z => negb (Z.eqb z 0)
  | VStr s => negb (String.eqb s "")
  | VTuple l | VList l => Py.nonempty l
  | VDict d => Py.nonempty d
  end.

(** [v.items()]: only a [dict] has it. *)
Definition items (v : pyval) : result (list (pyval * pyval)) :=
  match v with
  | VDict d => Ok d
  | _ => Raise AttributeError
  end.

(** The characters of a string, each as a string. *)
Fixpoint chars (s : string) : list pyval :=
  match s with
  | EmptyString => []
  | String c1 s1 =>
      match Py.utf8_width c1, s1 with
      | 1, _ => VStr (String c1 EmptyString) :: chars s1
      | 2, String c2 s2 =>
          VStr (String c1 (String c2 EmptyString)) :: chars s2
      | 3, String c2 (String c3 s3) =>
          VStr (String c1 (String c2 (String c3 EmptyString))) :: chars s3
      | S (S (S (S _))), String c2 (String c3 (String c4 s4)) =>
          VStr (String c1 (String c2 (String c3 (String c4 EmptyString))))
          :: chars s4
      | _, _ => [VStr s]
      end
  end.

(** [for x in v]: the elements of a sequence, the keys of a [dict], the
    characters of a string; nothing else is iterable. *)
Definition iterate (v : pyval) : result (list pyval) :=
  match v with
  | VTuple l | VList l => Ok l
  | VDict d => Ok (map fst d)
  | VStr s => Ok (chars s)
  | VNone | VBool _ | VInt _ => Raise TypeError
  end.

(** [v.upper()]: only a [str] has it. *)
Definition upper (v : pyval) : result string :=
  match v with
  | VStr s => Ok (Py.upper s)
  | _ => Raise AttributeError
  end.

Section Method.

(** The text an f-string writes for a value; for a [str] it is the
    string itself. *)
Variable format : pyval -> string.

(** The two inner loop bodies: the key goes through the f-string. *)
Definition and_body (st : acc) (kv : pyval * pyval) : acc :=
  and_step st (format (fst kv), snd kv).

Definition sub_body (st : acc) (kv : pyval * pyval) : acc :=
  sub_step st (format (fst kv), snd kv).

(** The loop over [or_filters]: [or_filter.items()] can raise at each
    element. *)
Fixpoint or_loop (groups : list pyval) (st : acc) : result acc :=
  match groups with
  | [] => Ok st
  | or_filter :: groups' =>
      entries <- items or_filter ;;
      let '(or_clauses, params) := st in
      let '(sub_clauses, sub_params) :=
        fold_left sub_body entries ([], []) in
      or_loop groups'
        (if Py.nonempty sub_clauses then
           (Py.append or_clauses
              ("(" ++ Py.join " OR " sub_clauses ++ ")"),
            Py.extend params sub_params)
         else (or_clauses, params))
  end.

Definition construct (base_query : string)
    (filters or_filters order_by order_direction : pyval)
  : result (string * list pyval) :=
  '(where_clauses, params) <-
    (if truthy filters then
       entries <- items filters ;;
       Ok (fold_left and_body entries ([], []))
     else Ok ([], [])) ;;
  '(or_clauses, params) <-
    (if truthy or_filters then
       groups <- iterate or_filters ;;
       or_loop groups ([], params)
     else Ok ([], params)) ;;
  let base_query :=
    if Py.nonempty where_clauses
    then base_query ++ " AND " ++ Py.join " AND " where_clauses
    else base_query in
  let base_query :=
    if Py.nonempty or_clauses
    then base_query ++ " AND (" ++ Py.join " OR " or_clauses ++ ")"
    else base_query in
  base_query <-
    (if truthy order_by then
       upper1 <- upper order_direction ;;
       order_direction <-
         (if negb (Py.str_in upper1 ["ASC"; "DESC"]) then Ok "ASC"
          else upper order_direction) ;;
       Ok (base_query ++ " ORDER BY " ++ format order_by ++ " "
             ++ order_direction)
     else Ok base_query) ;;
  Ok (base_query, params).

End Method.

(** The arguments the contract allows, as Python values. *)
Definition of_map (m : FilterMap) : pyval :=
  VDict (map (fun kv => (VStr (fst kv), snd kv)) m).

Definition of_filters (filters : option FilterMap) : pyval :=
  match filters with
  | Some m => of_map m
  | None => VNone
  end.

Definition of_or_filters (or_filters : option (list FilterMap)) : pyval :=
  match or_filters with
  | Some groups => VList (map of_map groups)
  | None => VNone
  end.

Definition of_order_by (order_by : option string) : pyval :=
  match order_by with
  | Some col => VStr col
  | None => VNone
  end.

End Dyn.



(** ** The executor and the entity queries *)

(** A [dict] with string keys, as its items in insertion order. *)
Definition pydict : Type := list (string * pyval).

Module Dict.

(** [d.get(k)]. *)
Fixpoint get (d : pydict) (k : string) : option pyval :=
  match d with
  | [] => None
  | (k', v) :: d' => if String.eqb k' k then Some v else get d' k
  end.

(** [d[k] = v]: a key already there keeps its place and takes the new
    value, a new key goes to the end. *)
Fixpoint set (d : pydict) (k : string) (v : pyval) : pydict :=
  match d with
  | [] => [(k, v)]
  | (k', v') :: d' =>
      if String.eqb k' k then (k', v) :: d' else (k', v') :: set d' k v
  end.

(** [dict(pairs)]: the pairs are inserted one after the other. *)
Definition of_pairs (pairs : list (string * pyval)) : pydict :=
  fold_left (fun d kv => set d (fst kv) (snd kv)) pairs [].

(** [list(d.keys())]. *)
Definition keys (d : pydict) : list string := map fst d.

End Dict.

(** [zip(xs, ys)], as long as the shorter of the two. *)
Definition zip {A B : Type} (xs : list A) (ys : list B) : list (A * B) :=
  combine xs ys.

(** The first occurrence of every string, in order. *)
Fixpoint dedup (l : list string) : list string :=
  match l with
  | [] => []
  | x :: l' => x :: filter (fun y => negb (String.eqb x y)) (dedup l')
  end.

(** The value paired with the last occurrence of a key. *)
Definition last_value (pairs : list (string * pyval)) (k : string)
  : option pyval :=
  Dict.get (rev pairs) k.

(** An entry of [cursor.description]: the column name, then the six other
    fields of the tuple; [column[0]] is the name. *)
Record column : Type := {
  column_name : string;
  column_info : list pyval
}.

(** The object: it holds the connection string. *)
Record SolteqTandDatabase : Type := {
  connection_string : string
}.

Definition __init__ (conn_str : string) : SolteqTandDatabase :=
  {| connection_string := conn_str |}.

Definition nl : string := String "010" EmptyString.

Definition tab : string := String "009" EmptyString.

(** A text given line by line. *)
Definition text (lines : list string) : string := Py.join nl lines.

(** [base_query] of [get_list_of_documents]. *)
Definition base_query_documents : string :=
  text
    [ "";
      "            WITH LatestActiveDocuments AS (";
      "                SELECT";
      "                    ds.DocumentId,";
      "                    ds.entityId,";
      "                    ds.OriginalFilename,";
      "                    ds.UniqueFilename,";
      "                    ds.DocumentType,";
      "                    ds.DocumentDescription,";
      "                    ds.Priviledged,";
      "                    ds.ContentType,";
      "                    dss.Document_HistoryId,";
      "                    dss.DocumentStoreStatusId,";
      "                    dss.SentToNemSMS,";
      "                    dss.Documented AS [DocumentCreatedDate],";
      "                    dss.Decided AS [DocumentLastEditedDate],";
      "                    ROW_NUMBER() OVER (";
      "                        PARTITION BY ds.DocumentId";
      "                        ORDER BY dss.Document_HistoryId DESC";
      "                    ) AS rn";
      "                FROM [tmtdata_prod].[dbo].[DocumentStore] ds";
      "                JOIN DocumentStoreStatus dss ON ds.DocumentId = dss.DocumentId";
      "            )";
      "            SELECT";
      "                ds.DocumentId,";
      "                ds.entityId,";
      "                ds.OriginalFilename,";
      "                ds.UniqueFilename,";
      "                ds.DocumentType,";
      "                ds.DocumentDescription,";
      "                ds.DocumentCreatedDate,";
      "                ds.DocumentLastEditedDate,";
      "                ds.SentToNemSMS,";
      "                p.cpr";
      "            FROM [tmtdata_prod].[dbo].[PATIENT] p";
      "            JOIN LatestActiveDocuments ds ON ds.entityId = p.patientId";
      "            WHERE 1=1";
      "        " ].

(** [base_query] of [get_list_of_extern_dentist]. *)
Definition base_query_extern_dentist : string :=
  text
    [ "";
      "            SELECT" ++ tab ++ "p.[patientId]";
      "                    ,p.[cpr]";
      "                    ,p.[privateClinicId]";
      "                    ,c.[contractorId]";
      "                    ,c.[isPrimary]";
      "                    ,c.[name]";
      "                    ,c.[streetAddress]";
      "                    ,c.[zip]";
      "                    ,c.[phoneNumber]";
      "            FROM" ++ tab ++ "[tmtdata_prod].[dbo].[PATIENT] p";
      "            JOIN" ++ tab ++ "[CLINIC] c on c.clinicId = p.privateClinicId";
      "            WHERE" ++ tab ++ "1=1";
      "        " ].

(** [base_query] of [get_list_of_bookings]. *)
Definition base_query_bookings : string :=
  text
    [ "";
      "            SELECT  b.StartTime,";
      "                    b.EndTime,";
      "                    b.PatientNotified,";
      "                    b.PatientNotifiedVia,";
      "                    b.BookingText,";
      "                    b.Warnings,";
      "                    b.CreatedDateTime,";
      "                    b.LastModifiedDateTime,";
      "                    bt.Description,";
      "                    bt.PrinterFriendlyText";
      "            FROM [tmtdata_prod].[dbo].[BOOKING] b";
      "            JOIN PATIENT p on p.patientId = b.patientId";
      "            JOIN BOOKINGTYPE bt on bt.BookingTypeID = b.BookingTypeID";
      "            WHERE" ++ tab ++ "1=1";
      "        " ].

(** [base_query] of [get_list_of_events]. *)
Definition base_query_events : string :=
  text
    [ "";
      "            SELECT  e.[eventId],";
      "                    e.[type],";
      "                    e.[currentStateText],";
      "                    e.[currentStateDate],";
      "                    e.[timestamp],";
      "                    e.[clinicId],";
      "                    c.name,";
      "                    e.[entityId],";
      "                    e.[eventTriggerDate],";
      "                    p.cpr,";
      "                    e.archived";
      "            FROM [EVENT] e";
      "            JOIN [PATIENT] p ON p.patientId = e.entityId";
      "            JOIN [CLINIC] c ON c.clinicId = e.clinicId";
      "            WHERE" ++ tab ++ "1=1";
      "        " ].

(** [base_query] of [get_list_of_primary_dental_clinics]. *)
Definition base_query_primary_dental_clinics : string :=
  text
    [ "";
      "            SELECT  p.cpr,";
      "                    p.patientId,";
      "                    p.firstName,";
      "                    p.lastName,";
      "                    p.preferredDentalClinicId,";
      "                    p.isPreferredDentalClinicLocked,";
      "                    c.name AS preferredDentalClinicName";
      "            FROM [tmtdata_prod].[dbo].[PATIENT] p";
      "            JOIN [CLINIC] c ON c.clinicId = p.preferredDentalClinicId";
      "            WHERE" ++ tab ++ "1=1";
      "        " ].

(** [base_query] of [get_list_of_journal_notes]. *)
Definition base_query_journal_notes : string :=
  text
    [ "";
      "            SELECT";
      "                dn.Beskrivelse,";
      "                ds.Dokumenteret,";
      "                ds.Besluttet,";
      "                ds.Art,";
      "                ds.EjerArt";
      "            FROM";
      "                [tmtdata_prod].[dbo].[Forloeb] f";
      "            JOIN";
      "                ForloebSymbolisering fs ON fs.ForloebID = f.ForloebID";
      "            JOIN";
      "                DiagnoseStatus ds ON ds.GEpjID = fs.DiagnoseID";
      "            JOIN";
      "                DiagnostikNotat dn ON dn.KontekstID = ds.KontekstID";
      "            JOIN";
      "                PATIENT p ON p.patientId = f.patientId";
      "            WHERE" ++ tab ++ "1=1";
      "        " ].

Section Database.

(** The database driver, outside the module: connecting with a connection
    string, executing a query with its parameters and fetching all rows
    either raises or gives the description of the columns and the rows. *)
Variable DbError : Type.
Variable pyodbc_run :
  string -> string -> list pyval -> DbError + (list column * list (list pyval)).

Definition _execute_query (self : SolteqTandDatabase)
    (query : string) (params : list pyval) : DbError + list pydict :=
  match pyodbc_run (connection_string self) query params with
  | inl e => inl e
  | inr (description, rows) =>
      let columns := map column_name description in
      let result := map (fun row => Dict.of_pairs (zip columns row)) rows in
      inr result
  end.

Definition get_list_of_documents (self : SolteqTandDatabase)
    (filters : option FilterMap) (or_filters : option (list FilterMap))
  : DbError + list pydict :=
  let '(final_query, params) :=
    _construct_sql_statement base_query_documents filters or_filters None "ASC" in
  _execute_query self final_query params.

Definition get_list_of_extern_dentist (self : SolteqTandDatabase)
    (filters : option FilterMap) (or_filters : option (list FilterMap))
  : DbError + list pydict :=
  let '(final_query, params) :=
    _construct_sql_statement base_query_extern_dentist filters or_filters None "ASC" in
  _execute_query self final_query params.

Definition get_list_of_bookings (self : SolteqTandDatabase)
    (filters : option FilterMap) (or_filters : option (list FilterMap))
  : DbError + list pydict :=
  let '(final_query, params) :=
    _construct_sql_statement base_query_bookings filters or_filters None "ASC" in
  _execute_query self final_query params.

Definition get_list_of_events (self : SolteqTandDatabase)
    (filters : option FilterMap) (or_filters : option (list FilterMap))
  : DbError + list pydict :=
  let '(final_query, params) :=
    _construct_sql_statement base_query_events filters or_filters None "ASC" in
  _execute_query self final_query params.

Definition get_list_of_primary_dental_clinics (self : SolteqTandDatabase)
    (filters : option FilterMap) (or_filters : option (list FilterMap))
  : DbError + list pydict :=
  let '(final_query, params) :=
    _construct_sql_statement base_query_primary_dental_clinics filters or_filters None "ASC" in
  _execute_query self final_query params.

Definition get_list_of_journal_notes (self : SolteqTandDatabase)
    (filters : option FilterMap) (or_filters : option (list FilterMap))
  : DbError + list pydict :=
  let '(final_query, params) :=
    _construct_sql_statement base_query_journal_notes filters or_filters None "ASC" in
  _execute_query self final_query params.

(** The six entity queries with their base queries. *)
Definition entity_queries :
  list ((SolteqTandDatabase -> option FilterMap -> option (list FilterMap)
         -> DbError + list pydict) * string) :=
  [ (get_list_of_documents, base_query_documents);
    (get_list_of_extern_dentist, base_query_extern_dentist);
    (get_list_of_bookings, base_query_bookings);
    (get_list_of_events, base_query_events);
    (get_list_of_primary_dental_clinics, base_query_primary_dental_clinics);
    (get_list_of_journal_notes, base_query_journal_notes) ].

End Database.

(** ** Shapes *)

(** An operator without its values: what the text of a predicate shows of
    it. *)
Inductive shape : Type :=
| SEq
| SLike
| SIn (n : nat)
| SBetween.

Definition shape_of (op : operator) : shape :=
  match op with
  | EQ _ => SEq
  | LIKE _ => SLike
  | IN l => SIn (List.length l)
  | BETWEEN _ _ => SBetween
  end.

(** Two entries with the same key and values of the same shape. *)
Definition same_shape (cls : pyval -> operator) (kv kv' : string * pyval)
  : Prop :=
  fst kv = fst kv' /\ shape_of (cls (snd kv)) = shape_of (cls (snd kv')).

(** * Proofs *)

(** ** Evaluation on the scenarios *)

Example ex_between :
  _construct_sql_statement "Q" (Some [("age", VTuple [VInt 18; VInt 65])])
    None None "ASC"
  = ("Q AND age BETWEEN ? AND ?", [VInt 18; VInt 65]).
Proof. reflexivity. Qed.

Example ex_or :
  _construct_sql_statement "Q" None
    (Some [[("type", VStr "X")]; [("type", VList [VStr "Y"; VStr "Z"])]])
    (Some "id") "desc"
  = ("Q AND ((type = ?) OR (type IN (?, ?))) ORDER BY id DESC",
     [VStr "X"; VStr "Y"; VStr "Z"]).
Proof. reflexivity. Qed.

Example ex_in :
  _construct_sql_statement "Q"
    (Some [("status", VList [VStr "A"; VStr "B"; VStr "C"])]) None None "ASC"
  = ("Q AND status IN (?, ?, ?)", [VStr "A"; VStr "B"; VStr "C"]).
Proof. reflexivity. Qed.

Example ex_like :
  _construct_sql_statement "Q" (Some [("name", VStr "%John%")]) None None "ASC"
  = ("Q AND name LIKE ?", [VStr "%John%"]).
Proof. reflexivity. Qed.

Example ex_pair_in_or_filter :
  _construct_sql_statement "Q" None
    (Some [[("age", VTuple [VInt 18; VInt 65])]]) None "ASC"
  = ("Q AND ((age = ?))", [VTuple [VInt 18; VInt 65]]).
Proof. reflexivity. Qed.

Example ex_empty_order_by :
  _construct_sql_statement "Q" None None (Some "") "DESC" = ("Q", []).
Proof. reflexivity. Qed.

(** ** Strings *)

Module StrFacts.

Lemma app_nil_r (s : string) : s ++ "" = s.
Proof. induction s as [|c s IH]; simpl; [reflexivity | now rewrite IH]. Qed.

Lemma app_assoc (s t u : string) : (s ++ t) ++ u = s ++ t ++ u.
Proof. induction s as [|c s IH]; simpl; [reflexivity | now rewrite IH]. Qed.

Lemma count_app c s t : Str.count c (s ++ t) = Str.count c s + Str.count c t.
Proof. induction s as [|d s IH]; simpl; [reflexivity | rewrite IH; lia]. Qed.

Lemma ends_with_app (p suffix : string) : Str.ends_with suffix (p ++ suffix) = true.
Proof.
  induction p as [|c p IH]; simpl.
  - destruct suffix; simpl; [reflexivity|].
    rewrite Ascii.eqb_refl, String.eqb_refl. reflexivity.
  - rewrite IH. apply orb_true_r.
Qed.

Lemma ends_with_inv (suffix s : string) :
  Str.ends_with suffix s = true -> exists p, s = p ++ suffix.
Proof.
  induction s as [|c s IH]; cbn [Str.ends_with]; intros H.
  - destruct suffix; [exists ""; reflexivity | discriminate].
  - apply orb_true_iff in H. destruct H as [H|H].
    + exists "". apply String.eqb_eq in H. exact H.
    + destruct (IH H) as [p ->]. exists (String c p). reflexivity.
Qed.

Lemma prefix_app (s t : string) : prefix s (s ++ t) = true.
Proof.
  induction s as [|c s IH]; simpl.
  - destruct t; reflexivity.
  - destruct (ascii_dec c c) as [_|n]; [exact IH | now elim n].
Qed.

Lemma prefix_inv (s t : string) :
  prefix s t = true -> exists q, t = s ++ q.
Proof.
  revert s. induction t as [|d t IH]; intros [|c s]; simpl; intros H.
  - exists "". reflexivity.
  - discriminate.
  - exists (String d t). reflexivity.
  - destruct (ascii_dec c d) as [->|_]; [|discriminate].
    destruct (IH _ H) as [q ->]. exists q. reflexivity.
Qed.

Lemma contains_app (p needle q : string) :
  Py.contains needle (p ++ needle ++ q) = true.
Proof.
  induction p as [|c p IH].
  - change ("" ++ needle ++ q) with (needle ++ q).
    pose proof (prefix_app needle q) as H.
    destruct (needle ++ q); cbn [Py.contains]; rewrite H; reflexivity.
  - change (String c p ++ needle ++ q) with (String c (p ++ needle ++ q)).
    simpl. rewrite IH. apply orb_true_r.
Qed.

Lemma contains_inv (needle s : string) :
  Py.contains needle s = true -> exists p q, s = p ++ needle ++ q.
Proof.
  induction s as [|c s IH]; simpl; intros H.
  - rewrite orb_false_r in H. destruct needle; [|discriminate].
    exists "", "". reflexivity.
  - apply orb_true_iff in H. destruct H as [H|H].
    + apply (prefix_inv needle (String c s)) in H. destruct H as [q ->].
      exists "", q. reflexivity.
    + destruct (IH H) as (p & q & ->). exists (String c p), q. reflexivity.
Qed.

End StrFacts.

(** ** The loops in closed form *)

Section Loops.

Lemma and_step_spec (w : list string) (p : list pyval) (kv : string * pyval) :
  and_step (w, p) kv = (w ++ [and_clause kv], p ++ and_params kv)%list.
Proof.
  destruct kv as [key value]. unfold and_clause, and_params. simpl.
  destruct value as [| b | z | s | l | l | d]; try reflexivity.
  - simpl. destruct (Py.contains "%" s); reflexivity.
  - destruct l as [|x [|y [|z l]]]; reflexivity.
Qed.

Lemma sub_step_spec (w : list string) (p : list pyval) (kv : string * pyval) :
  sub_step (w, p) kv = (w ++ [sub_clause kv], p ++ sub_params kv)%list.
Proof.
  destruct kv as [key value]. unfold sub_clause, sub_params. simpl.
  destruct value as [| b | z | s | l | l | d]; try reflexivity.
  simpl. destruct (Py.contains "%" s); reflexivity.
Qed.

Lemma and_loop_spec (items : FilterMap) (w : list string) (p : list pyval) :
  fold_left and_step items (w, p)
  = (w ++ map and_clause items, p ++ flat_map and_params items)%list.
Proof.
  revert w p.
  induction items as [|kv items IH]; intros w p; cbn [fold_left flat_map map].
  - now rewrite !List.app_nil_r.
  - rewrite and_step_spec, IH, <- !List.app_assoc. reflexivity.
Qed.

Lemma sub_loop_spec (items : FilterMap) (w : list string) (p : list pyval) :
  fold_left sub_step items (w, p)
  = (w ++ map sub_clause items, p ++ flat_map sub_params items)%list.
Proof.
  revert w p.
  induction items as [|kv items IH]; intros w p; cbn [fold_left flat_map map].
  - now rewrite !List.app_nil_r.
  - rewrite sub_step_spec, IH, <- !List.app_assoc. reflexivity.
Qed.

Lemma or_step_spec (oc : list string) (p : list pyval) (g : FilterMap) :
  or_step (oc, p) g
  = (oc ++ map or_clause (live_groups [g]), p ++ flat_map sub_params g)%list.
Proof.
  unfold or_step. rewrite sub_loop_spec. destruct g as [|kv g]; simpl.
  - now rewrite !List.app_nil_r.
  - reflexivity.
Qed.

Lemma live_groups_cons (g : FilterMap) (gs : list FilterMap) :
  live_groups (g :: gs) = (live_groups [g] ++ live_groups gs)%list.
Proof. unfold live_groups. simpl. destruct (Py.nonempty g); reflexivity. Qed.

Lemma live_groups_app (gs hs : list FilterMap) :
  live_groups (gs ++ hs) = (live_groups gs ++ live_groups hs)%list.
Proof. apply List.filter_app. Qed.

Lemma or_loop_spec (groups : list FilterMap) (oc : list string) (p : list pyval) :
  fold_left or_step groups (oc, p)
  = (oc ++ map or_clause (live_groups groups),
     p ++ flat_map (flat_map sub_params) groups)%list.
Proof.
  revert oc p. induction groups as [|g gs IH]; intros oc p.
  - simpl. now rewrite !List.app_nil_r.
  - cbn [fold_left flat_map]. rewrite (live_groups_cons g gs).
    rewrite or_step_spec, IH, List.map_app, <- !List.app_assoc.
    reflexivity.
Qed.

(** The method returns the base query followed by the AND text, the OR
    text and the ORDER BY text, and the AND parameters followed by the OR
    parameters. *)
Lemma construct_closed_form
    (base_query : string) (filters : option FilterMap)
    (or_filters : option (list FilterMap))
    (order_by : option string) (order_direction : string) :
  _construct_sql_statement base_query filters or_filters order_by
    order_direction
  = (base_query ++ and_text filters ++ or_text or_filters
       ++ order_text order_by order_direction,
     (and_param_list filters ++ or_param_list or_filters)%list).
Proof.
  unfold _construct_sql_statement, and_text, or_text, and_param_list,
    or_param_list.
  assert (Hand :
    match filters with
    | Some items =>
        if Py.truthy_seq filters then fold_left and_step items ([], [])
        else ([], [])
    | None => ([], [])
    end
    = (map and_clause (items_of filters),
       flat_map and_params (items_of filters))).
  { destruct filters as [[|kv l]|]; try reflexivity.
    cbn [Py.truthy_seq items_of]. now rewrite and_loop_spec. }
  rewrite Hand. clear Hand.
  set (w := map and_clause (items_of filters)).
  set (p := flat_map and_params (items_of filters)).
  assert (Hor :
    match or_filters with
    | Some groups =>
        if Py.truthy_seq or_filters then fold_left or_step groups ([], p)
        else ([], p)
    | None => ([], p)
    end
    = (map or_clause (live_groups (items_of or_filters)),
       (p ++ flat_map (flat_map sub_params) (items_of or_filters))%list)).
  { destruct or_filters as [[|g gs]|]; cbn [Py.truthy_seq items_of];
      rewrite ?or_loop_spec; simpl; rewrite ?List.app_nil_r; reflexivity. }
  rewrite Hor. clear Hor. f_equal.
  assert (Hw : (if Py.nonempty w
                then base_query ++ " AND " ++ Py.join " AND " w
                else base_query)
               = base_query ++ match items_of filters with
                               | [] => ""
                               | _ :: _ => " AND " ++ Py.join " AND " w
                               end).
  { subst w. destruct (items_of filters); simpl;
      [now rewrite StrFacts.app_nil_r | reflexivity]. }
  rewrite Hw. clear Hw.
  set (q := base_query ++ _).
  set (oc := map or_clause (live_groups (items_of or_filters))).
  assert (Ho : (if Py.nonempty oc
                then q ++ " AND (" ++ Py.join " OR " oc ++ ")"
                else q)
               = q ++ match live_groups (items_of or_filters) with
                      | [] => ""
                      | _ :: _ => " AND (" ++ Py.join " OR " oc ++ ")"
                      end).
  { subst oc. destruct (live_groups (items_of or_filters)); simpl;
      [now rewrite StrFacts.app_nil_r | reflexivity]. }
  rewrite Ho. clear Ho. subst q.
  rewrite !StrFacts.app_assoc. subst oc w. clear p.
  destruct (items_of filters), (live_groups (items_of or_filters)),
    order_by as [[|c s]|]; cbn [Py.truthy_str order_text];
    rewrite ?StrFacts.app_nil_r, ?StrFacts.app_assoc; reflexivity.
Qed.

End Loops.

(** ** Joined text *)

Section Joining.

Lemma cat_app (l1 l2 : list string) : cat (l1 ++ l2) = cat l1 ++ cat l2.
Proof.
  induction l1 as [|x l1 IH]; simpl; [reflexivity|].
  now rewrite IH, StrFacts.app_assoc.
Qed.

(** [sep.join(x :: l)] is [x] followed by every other part, each behind
    its separator. *)
Lemma join_cons (sep x : string) (l : list string) :
  Py.join sep (x :: l) = x ++ cat (map (append sep) l).
Proof.
  revert x. induction l as [|y l IH]; intros x.
  - simpl. now rewrite StrFacts.app_nil_r.
  - change (Py.join sep (x :: y :: l)) with (x ++ sep ++ Py.join sep (y :: l)).
    rewrite IH. simpl. now rewrite StrFacts.app_assoc.
Qed.

(** A part of a joined text occurs in it, between what was joined before
    and after. *)
Lemma join_middle (sep x : string) (l1 l2 : list string) :
  exists p q, Py.join sep (l1 ++ x :: l2) = p ++ x ++ q.
Proof.
  destruct l1 as [|y l1].
  - exists "", (cat (map (append sep) l2)). simpl app. now rewrite join_cons.
  - exists (y ++ cat (map (append sep) l1) ++ sep),
      (cat (map (append sep) l2)).
    simpl app. rewrite join_cons, List.map_app, cat_app. simpl.
    now rewrite !StrFacts.app_assoc.
Qed.

(** The predicate of any AND-filter entry occurs in the compiled query. *)
Lemma and_clause_in_query
    (base_query : string) (before after : FilterMap) (kv : string * pyval)
    (or_filters : option (list FilterMap))
    (order_by : option string) (order_direction : string) :
  Py.contains (and_clause kv)
    (fst (_construct_sql_statement base_query
            (Some (before ++ kv :: after)%list) or_filters order_by
            order_direction)) = true.
Proof.
  rewrite construct_closed_form. cbn [fst]. unfold and_text. cbn [items_of].
  destruct (join_middle " AND " (and_clause kv) (map and_clause before)
              (map and_clause after)) as (p & q & E).
  replace (map and_clause (before ++ kv :: after))
    with (map and_clause before ++ and_clause kv :: map and_clause after)%list
    in * by now rewrite List.map_app.
  destruct (before ++ kv :: after)%list eqn:El.
  - now destruct before.
  - rewrite <- El, List.map_app. cbn [map]. rewrite E.
    rewrite <- !StrFacts.app_assoc.
    rewrite (StrFacts.app_assoc (base_query ++ " AND ") p).
    rewrite !StrFacts.app_assoc.
    replace (base_query ++ " AND " ++ p ++ and_clause kv ++ q
               ++ or_text or_filters ++ order_text order_by order_direction)
      with ((base_query ++ " AND " ++ p) ++ and_clause kv
              ++ (q ++ or_text or_filters
                    ++ order_text order_by order_direction))
      by now rewrite !StrFacts.app_assoc.
    apply StrFacts.contains_app.
Qed.

Lemma and_param_list_app (l1 l2 : FilterMap) :
  and_param_list (Some (l1 ++ l2)%list)
  = (and_param_list (Some l1) ++ and_param_list (Some l2))%list.
Proof. unfold and_param_list. cbn [items_of]. apply List.flat_map_app. Qed.

Lemma dead_groups_no_params (groups : list FilterMap) :
  live_groups groups = [] -> flat_map (flat_map sub_params) groups = [].
Proof.
  induction groups as [|g gs IH]; [reflexivity|].
  rewrite live_groups_cons. destruct g as [|kv g]; [|discriminate].
  simpl. exact IH.
Qed.

End Joining.

(** ** Ranges, empty lists and absent filters *)

(** C4. An AND-filter entry whose value is a 2-element tuple makes the loop
    append [<key> BETWEEN ? AND ?] and the two elements, first then second,
    whatever they are (nothing compares them); in the compiled query the
    predicate occurs in the text and the two bounds sit in the parameter list
    between the parameters of the earlier and of the later entries. With
    [filters = {"age": (18, 65)}] the text is the base query followed by
    [ AND age BETWEEN ? AND ?] and the parameters are [[18; 65]]; with the
    bounds swapped the parameters are [[65; 18]]. *)
Theorem between_entry :
  (forall (where_clauses : list string) (params : list pyval)
          (key : string) (lo hi : pyval),
      and_step (where_clauses, params) (key, VTuple [lo; hi])
      = ((where_clauses ++ [(key ++ " BETWEEN ? AND ?")%string])%list,
         (params ++ [lo; hi])%list))
  /\ (forall (base_query : string) (before after : FilterMap)
             (key : string) (lo hi : pyval)
             (or_filters : option (list FilterMap))
             (order_by : option string) (order_direction : string),
        let r := _construct_sql_statement base_query
                   (Some (before ++ (key, VTuple [lo; hi]) :: after)%list)
                   or_filters order_by order_direction in
        Py.contains (key ++ " BETWEEN ? AND ?") (fst r) = true
        /\ snd r = (and_param_list (Some before) ++ [lo; hi]
                    ++ and_param_list (Some after)
                    ++ or_param_list or_filters)%list)
  /\ (forall base_query : string,
        let r := _construct_sql_statement base_query
                   (Some [("age", VTuple [VInt 18; VInt 65])]) None None "ASC" in
        r = (base_query ++ " AND age BETWEEN ? AND ?", [VInt 18; VInt 65])
        /\ Py.contains "age BETWEEN ? AND ?" (fst r) = true)
  /\ (forall base_query : string,
        _construct_sql_statement base_query
          (Some [("age", VTuple [VInt 65; VInt 18])]) None None "ASC"
        = (base_query ++ " AND age BETWEEN ? AND ?", [VInt 65; VInt 18])).
Proof.
  split; [reflexivity | split; [| split; [| reflexivity]]].
  - intros. subst r. split.
    + apply (and_clause_in_query base_query before after
               (key, VTuple [lo; hi])).
    + rewrite construct_closed_form. cbn [snd].
      rewrite and_param_list_app, <- !List.app_assoc. reflexivity.
  - intros. subst r. split; [reflexivity|].
    exact (and_clause_in_query base_query [] []
             ("age", VTuple [VInt 18; VInt 65]) None None "ASC").
Qed.

(** C8. An AND-filter entry whose value is the empty list makes the loop
    append [<key> IN ()] and no parameter; the compiled query carries that
    text, and its parameters are those of the other entries only. *)
Theorem empty_list_entry :
  (forall (where_clauses : list string) (params : list pyval) (key : string),
      and_step (where_clauses, params) (key, VList [])
      = ((where_clauses ++ [(key ++ " IN ()")%string])%list, params))
  /\ (forall (base_query : string) (before after : FilterMap) (key : string)
             (or_filters : option (list FilterMap))
             (order_by : option string) (order_direction : string),
        let r := _construct_sql_statement base_query
                   (Some (before ++ (key, VList []) :: after)%list)
                   or_filters order_by order_direction in
        Py.contains (key ++ " IN ()") (fst r) = true
        /\ snd r = (and_param_list (Some before) ++ and_param_list (Some after)
                    ++ or_param_list or_filters)%list)
  /\ (forall (base_query key : string),
        _construct_sql_statement base_query (Some [(key, VList [])])
          None None "ASC"
        = (base_query ++ " AND " ++ key ++ " IN ()", [])).
Proof.
  split; [| split; [| reflexivity]].
  - intros. simpl. unfold Py.extend. now rewrite List.app_nil_r.
  - intros. subst r. split.
    + apply (and_clause_in_query base_query before after (key, VList [])).
    + rewrite construct_closed_form. cbn [snd].
      rewrite and_param_list_app, <- !List.app_assoc. reflexivity.
Qed.

(** C6. When the AND-filter mapping is absent or empty, the OR-filter list
    is absent, empty or made of empty mappings only, and [order_by] is
    [None], the method returns the base query as it was and no parameter. *)
Theorem nothing_to_add
    (base_query : string) (filters : option FilterMap)
    (or_filters : option (list FilterMap)) (order_direction : string) :
  filters = None \/ filters = Some [] ->
  or_filters = None \/ (exists groups, or_filters = Some groups
                                       /\ Forall (fun g => g = []) groups) ->
  _construct_sql_statement base_query filters or_filters None order_direction
  = (base_query, []).
Proof.
  intros Hf Ho. rewrite construct_closed_form.
  assert (Ef : items_of filters = []) by (destruct Hf; subst; reflexivity).
  assert (Eo : live_groups (items_of or_filters) = []).
  { destruct Ho as [->|(groups & -> & Hall)]; [reflexivity|].
    cbn [items_of]. induction Hall as [|g gs -> _ IH]; [reflexivity|].
    rewrite live_groups_cons. exact IH. }
  unfold and_text, or_text, and_param_list, or_param_list.
  rewrite Ef, Eo, (dead_groups_no_params _ Eo). simpl.
  now rewrite StrFacts.app_nil_r.
Qed.

Lemma nothing_to_add_witness :
  _construct_sql_statement "SELECT * FROM PATIENT WHERE 1=1" (Some [])
    (Some [[]; []]) None "ASC"
  = ("SELECT * FROM PATIENT WHERE 1=1", []).
Proof.
  apply (nothing_to_add "SELECT * FROM PATIENT WHERE 1=1" (Some [])
           (Some [[]; []]) "ASC").
  - right. reflexivity.
  - right. exists [[]; []]. split; [reflexivity|].
    repeat constructor.
Defined.

(** C10. An empty mapping inside the OR-filter list leaves the loop state
    untouched, so the result is the one obtained without that element; and a
    list made of empty mappings only gives the result obtained with no
    OR-filter list at all: nothing is appended for it. *)
Theorem empty_group_skipped :
  (forall (or_clauses : list string) (params : list pyval),
      or_step (or_clauses, params) [] = (or_clauses, params))
  /\ (forall (base_query : string) (filters : option FilterMap)
             (before after : list FilterMap)
             (order_by : option string) (order_direction : string),
        _construct_sql_statement base_query filters
          (Some (before ++ [] :: after)%list) order_by order_direction
        = _construct_sql_statement base_query filters
            (Some (before ++ after)%list) order_by order_direction)
  /\ (forall (base_query : string) (filters : option FilterMap) (n : nat)
             (order_by : option string) (order_direction : string),
        _construct_sql_statement base_query filters
          (Some (repeat [] n)) order_by order_direction
        = _construct_sql_statement base_query filters
            None order_by order_direction).
Proof.
  split; [reflexivity | split].
  - intros. rewrite !construct_closed_form. unfold or_text, or_param_list.
    cbn [items_of]. rewrite !live_groups_app, !List.flat_map_app.
    reflexivity.
  - intros. rewrite !construct_closed_form. unfold or_text, or_param_list.
    cbn [items_of].
    assert (E : live_groups (repeat [] n) = [])
      by (induction n; [reflexivity | exact IHn]).
    rewrite E, (dead_groups_no_params _ E). reflexivity.
Qed.

(** ** Order of the parameters *)

(** C7. The returned parameter list holds the AND-filter parameters first,
    in the iteration order of the mapping, then the parameters of the
    OR-filter elements in list order, each element's parameters in the
    iteration order of that element. *)
Theorem params_in_supplied_order
    (base_query : string) (filters : option FilterMap)
    (or_filters : option (list FilterMap))
    (order_by : option string) (order_direction : string) :
  snd (_construct_sql_statement base_query filters or_filters order_by
         order_direction)
  = expected_params filters or_filters.
Proof.
  rewrite construct_closed_form. cbn [snd].
  unfold expected_params, and_param_list, or_param_list, and_params, sub_params.
  rewrite !List.flat_map_concat_map. f_equal. f_equal.
  apply List.map_ext. intros g. apply List.flat_map_concat_map.
Qed.

(** ** ORDER BY *)

Section Direction.

Lemma str_in_In (x : string) (l : list string) :
  Py.str_in x l = true <-> In x l.
Proof.
  unfold Py.str_in. rewrite existsb_exists. split.
  - intros (y & Hy & E). apply String.eqb_eq in E. now subst.
  - intros H. exists x. split; [exact H | apply String.eqb_refl].
Qed.

Lemma upper_ascii_inv (c : ascii) :
  c = Py.upper_ascii c \/ c = swap_case (Py.upper_ascii c).
Proof.
  destruct c as [[] [] [] [] [] [] [] []];
    first [left; reflexivity | right; reflexivity].
Qed.

Lemma upper_ascii_is (c u : ascii) :
  Py.upper_ascii c = u -> c = u \/ c = swap_case u.
Proof. intros <-. apply upper_ascii_inv. Qed.

(** On ASCII text [str.upper] is [upper_ascii] on every character. *)
Lemma upper_of_ascii (d : string) :
  is_ascii d = true -> Py.upper d = upper_ascii_text d.
Proof.
  induction d as [|c d IH]; [reflexivity|].
  cbn [is_ascii]. intros H. apply andb_true_iff in H. destruct H as [Hc Hd].
  cbn [Py.upper upper_ascii_text]. unfold Py.utf8_width.
  apply Nat.ltb_lt in Hc.
  assert (H192 : (nat_of_ascii c <? 192)%nat = true) by (apply Nat.ltb_lt; lia).
  rewrite H192, (IH Hd). reflexivity.
Qed.

Lemma ascii_text_asc (d : string) :
  upper_ascii_text d = "ASC" -> Py.str_in d (casings "asc") = true.
Proof.
  destruct d as [|c1 [|c2 [|c3 [|c4 d]]]]; simpl; try discriminate.
  intros H. injection H as H1 H2 H3.
  apply upper_ascii_is in H1, H2, H3.
  destruct H1 as [-> | ->], H2 as [-> | ->], H3 as [-> | ->];
    reflexivity.
Qed.

Lemma ascii_text_desc (d : string) :
  upper_ascii_text d = "DESC" -> Py.str_in d (casings "desc") = true.
Proof.
  destruct d as [|c1 [|c2 [|c3 [|c4 [|c5 d]]]]]; simpl; try discriminate.
  intros H. injection H as H1 H2 H3 H4.
  apply upper_ascii_is in H1, H2, H3, H4.
  destruct H1 as [-> | ->], H2 as [-> | ->], H3 as [-> | ->],
    H4 as [-> | ->]; reflexivity.
Qed.

(** The letter-case variants of [asc] and of [desc] upper-case to [ASC] and
    to [DESC]. *)
Lemma upper_asc (d : string) :
  Py.str_in d (casings "asc") = true -> Py.upper d = "ASC".
Proof.
  rewrite str_in_In. intros H. simpl in H.
  repeat (destruct H as [<- | H]; [reflexivity|]). contradiction.
Qed.

Lemma upper_desc (d : string) :
  Py.str_in d (casings "desc") = true -> Py.upper d = "DESC".
Proof.
  rewrite str_in_In. intros H. simpl in H.
  repeat (destruct H as [<- | H]; [reflexivity|]). contradiction.
Qed.

(** Among ASCII texts they are the only ones. *)
Lemma ascii_outside_casings (d : string) :
  is_ascii d = true -> asc_or_desc d = false ->
  Py.str_in (Py.upper d) ["ASC"; "DESC"] = false.
Proof.
  intros Ha Hd. unfold asc_or_desc, Py.str_in in Hd.
  rewrite List.existsb_app in Hd. apply orb_false_iff in Hd.
  destruct Hd as [Hasc Hdesc]. rewrite (upper_of_ascii d Ha).
  cbn [Py.str_in existsb]. rewrite orb_false_r.
  destruct (String.eqb_spec (upper_ascii_text d) "ASC") as [E|_].
  - apply ascii_text_asc in E. unfold Py.str_in in E. congruence.
  - destruct (String.eqb_spec (upper_ascii_text d) "DESC") as [E|_];
      [| reflexivity].
    apply ascii_text_desc in E. unfold Py.str_in in E. congruence.
Qed.

(** The direction written into the query, by the test of line 105. *)
Lemma normalise_direction_test (d : string) :
  normalise_direction d
  = if Py.str_in (Py.upper d) ["ASC"; "DESC"] then Py.upper d else "ASC".
Proof.
  unfold normalise_direction.
  now destruct (Py.str_in (Py.upper d) ["ASC"; "DESC"]).
Qed.

Lemma str_in_asc_desc (u : string) :
  Py.str_in u ["ASC"; "DESC"] = true -> u = "ASC" \/ u = "DESC".
Proof.
  rewrite str_in_In. simpl. intros [H | [H | []]]; auto.
Qed.

Lemma normalise_direction_range (d : string) :
  normalise_direction d = "ASC" \/ normalise_direction d = "DESC".
Proof.
  rewrite normalise_direction_test.
  destruct (Py.str_in (Py.upper d) ["ASC"; "DESC"]) eqn:E;
    [now apply str_in_asc_desc | now left].
Qed.

Lemma asc_or_desc_split (d : string) :
  asc_or_desc d
  = Py.str_in d (casings "asc") || Py.str_in d (casings "desc").
Proof. unfold asc_or_desc, Py.str_in. apply existsb_app. Qed.

(** With a column to order by, the query is the one compiled without it
    followed by the ORDER BY text, and the parameters are the same. *)
Lemma order_by_appended
    (base_query : string) (filters : option FilterMap)
    (or_filters : option (list FilterMap)) (col d : string) :
  Py.truthy_str (Some col) = true ->
  _construct_sql_statement base_query filters or_filters (Some col) d
  = (fst (_construct_sql_statement base_query filters or_filters None d)
       ++ " ORDER BY " ++ col ++ " " ++ normalise_direction d,
     snd (_construct_sql_statement base_query filters or_filters None d)).
Proof.
  intros Hcol. rewrite !construct_closed_form. cbn [fst snd order_text].
  destruct col as [|c col]; [discriminate|].
  now rewrite StrFacts.app_nil_r, !StrFacts.app_assoc.
Qed.

End Direction.

(** C5, as the specification words it, fails on a direction outside
    ASCII: ["deſc"] is none of the ways of writing ["asc"] or ["desc"] in
    upper and lower case letters, but its long s upper-cases to [S], so the
    method writes [DESC], not [ASC]. *)
Lemma long_s_direction_refuted :
  asc_or_desc "deſc" = false
  /\ fst (_construct_sql_statement "SELECT * FROM B WHERE 1=1" None None
            (Some "bookingDate") "deſc")
     = "SELECT * FROM B WHERE 1=1 ORDER BY bookingDate DESC"
  /\ Str.ends_with " ORDER BY bookingDate ASC"
       (fst (_construct_sql_statement "SELECT * FROM B WHERE 1=1" None None
               (Some "bookingDate") "deſc")) = false
  /\ ~ (forall (base_query : string) (filters : option FilterMap)
               (or_filters : option (list FilterMap)) (col d : string),
           Py.truthy_str (Some col) = true ->
           asc_or_desc d = false ->
           Str.ends_with (" ORDER BY " ++ col ++ " ASC")
             (fst (_construct_sql_statement base_query filters or_filters
                     (Some col) d)) = true).
Proof.
  split; [reflexivity | split; [reflexivity | split; [reflexivity|]]].
  intros H.
  specialize (H "SELECT * FROM B WHERE 1=1" None None "bookingDate" "deſc"
                eq_refl eq_refl).
  vm_compute in H. discriminate.
Qed.

(** C5, amended. When a column to order by is given (a non-empty string),
    the compiled query is the query compiled without ordering followed by
    the ORDER BY clause. For a direction whose upper-casing is neither [ASC]
    nor [DESC] the query ends with [ORDER BY <col> ASC]; every ASCII
    direction that is neither ["asc"] nor ["desc"] in any letter case is
    one. For a direction whose upper-casing is [ASC] or [DESC] the query
    ends with the column and that upper-casing; ["asc"] and ["desc"] in any
    letter case are such directions, and give [ASC] and [DESC]. *)
Theorem order_by_direction
    (base_query : string) (filters : option FilterMap)
    (or_filters : option (list FilterMap)) (col d : string) :
  Py.truthy_str (Some col) = true ->
  let r := _construct_sql_statement base_query filters or_filters (Some col) d in
  let r0 := _construct_sql_statement base_query filters or_filters None d in
  snd r = snd r0
  /\ (Py.str_in (Py.upper d) ["ASC"; "DESC"] = false ->
      fst r = fst r0 ++ " ORDER BY " ++ col ++ " ASC"
      /\ Str.ends_with (" ORDER BY " ++ col ++ " ASC") (fst r) = true)
  /\ (is_ascii d = true -> asc_or_desc d = false ->
      fst r = fst r0 ++ " ORDER BY " ++ col ++ " ASC"
      /\ Str.ends_with (" ORDER BY " ++ col ++ " ASC") (fst r) = true)
  /\ (Py.str_in (Py.upper d) ["ASC"; "DESC"] = true ->
      fst r = fst r0 ++ " ORDER BY " ++ col ++ " " ++ Py.upper d
      /\ Str.ends_with (" ORDER BY " ++ col ++ " " ++ Py.upper d) (fst r)
         = true)
  /\ (Py.str_in d (casings "asc") = true ->
      Py.upper d = "ASC"
      /\ fst r = fst r0 ++ " ORDER BY " ++ col ++ " " ++ Py.upper d
      /\ Str.ends_with (" ORDER BY " ++ col ++ " ASC") (fst r) = true)
  /\ (Py.str_in d (casings "desc") = true ->
      Py.upper d = "DESC"
      /\ fst r = fst r0 ++ " ORDER BY " ++ col ++ " " ++ Py.upper d
      /\ Str.ends_with (" ORDER BY " ++ col ++ " DESC") (fst r) = true).
Proof.
  intros Hcol r r0. subst r r0.
  rewrite (order_by_appended _ _ _ _ _ Hcol). cbn [fst snd].
  rewrite normalise_direction_test.
  assert (Hout : Py.str_in (Py.upper d) ["ASC"; "DESC"] = false ->
            fst (_construct_sql_statement base_query filters or_filters
                   None d)
            ++ " ORDER BY " ++ col ++ " "
            ++ (if Py.str_in (Py.upper d) ["ASC"; "DESC"] then Py.upper d
                else "ASC")
            = fst (_construct_sql_statement base_query filters or_filters
                     None d)
              ++ " ORDER BY " ++ col ++ " ASC"
            /\ Str.ends_with (" ORDER BY " ++ col ++ " ASC")
                 (fst (_construct_sql_statement base_query filters
                         or_filters None d)
                  ++ " ORDER BY " ++ col ++ " "
                  ++ (if Py.str_in (Py.upper d) ["ASC"; "DESC"] then Py.upper d
                      else "ASC")) = true).
  { intros ->. split; [reflexivity | apply StrFacts.ends_with_app]. }
  assert (Hin : forall u, Py.upper d = u ->
            Py.str_in u ["ASC"; "DESC"] = true ->
            fst (_construct_sql_statement base_query filters or_filters
                   None d)
            ++ " ORDER BY " ++ col ++ " "
            ++ (if Py.str_in (Py.upper d) ["ASC"; "DESC"] then Py.upper d
                else "ASC")
            = fst (_construct_sql_statement base_query filters or_filters
                     None d)
              ++ " ORDER BY " ++ col ++ " " ++ u
            /\ Str.ends_with (" ORDER BY " ++ col ++ " " ++ u)
                 (fst (_construct_sql_statement base_query filters
                         or_filters None d)
                  ++ " ORDER BY " ++ col ++ " "
                  ++ (if Py.str_in (Py.upper d) ["ASC"; "DESC"] then Py.upper d
                      else "ASC")) = true).
  { intros u -> ->. split; [reflexivity | apply StrFacts.ends_with_app]. }
  split; [reflexivity | split; [exact Hout | split; [| split; [| split]]]].
  - intros Ha Hd. apply Hout. now apply ascii_outside_casings.
  - intros Hu. now apply Hin.
  - intros Ha. pose proof (upper_asc d Ha) as Hu. split; [exact Hu|].
    destruct (Hin "ASC" Hu eq_refl) as [H1 H2].
    rewrite Hu in H1, H2 |- *. split; assumption.
  - intros Hd. pose proof (upper_desc d Hd) as Hu. split; [exact Hu|].
    destruct (Hin "DESC" Hu eq_refl) as [H1 H2].
    rewrite Hu in H1, H2 |- *. split; assumption.
Qed.

Lemma order_by_direction_witness :
  Str.ends_with " ORDER BY bookingDate ASC"
    (fst (_construct_sql_statement "SELECT * FROM B WHERE 1=1" None None
            (Some "bookingDate") "sideways")) = true
  /\ Str.ends_with " ORDER BY bookingDate ASC"
       (fst (_construct_sql_statement "SELECT * FROM B WHERE 1=1" None None
               (Some "bookingDate") "aSc")) = true
  /\ Str.ends_with " ORDER BY bookingDate DESC"
       (fst (_construct_sql_statement "SELECT * FROM B WHERE 1=1" None None
               (Some "bookingDate") "Desc")) = true
  /\ Str.ends_with " ORDER BY bookingDate DESC"
       (fst (_construct_sql_statement "SELECT * FROM B WHERE 1=1" None None
               (Some "bookingDate") "deſc")) = true
  /\ Str.ends_with " ORDER BY bookingDate ASC"
       (fst (_construct_sql_statement "SELECT * FROM B WHERE 1=1" None None
               (Some "bookingDate") "déſc")) = true.
Proof.
  split; [| split; [| split; [| split]]].
  - destruct (order_by_direction "SELECT * FROM B WHERE 1=1" None None
                "bookingDate" "sideways" eq_refl) as (_ & _ & H & _).
    exact (proj2 (H eq_refl eq_refl)).
  - destruct (order_by_direction "SELECT * FROM B WHERE 1=1" None None
                "bookingDate" "aSc" eq_refl) as (_ & _ & _ & _ & H & _).
    exact (proj2 (proj2 (H eq_refl))).
  - destruct (order_by_direction "SELECT * FROM B WHERE 1=1" None None
                "bookingDate" "Desc" eq_refl) as (_ & _ & _ & _ & _ & H).
    exact (proj2 (proj2 (H eq_refl))).
  - destruct (order_by_direction "SELECT * FROM B WHERE 1=1" None None
                "bookingDate" "deſc" eq_refl) as (_ & _ & _ & H & _).
    exact (proj2 (H eq_refl)).
  - destruct (order_by_direction "SELECT * FROM B WHERE 1=1" None None
                "bookingDate" "déſc" eq_refl) as (_ & H & _).
    exact (proj2 (H eq_refl)).
Defined.

(** ** OR-filter groups *)

(** C3. For [or_filters = [{"type": "X"}, {"type": ["Y", "Z"]}]] and no AND
    filters the compiled query is the base query followed by
    [ AND ((type = ?) OR (type IN (?, ?)))] and the parameters are
    [["X"; "Y"; "Z"]]. In general the inner loop turns the entries of an
    element into their IN, LIKE or equality predicates; an element with at
    least one entry contributes those predicates joined by [ OR ] inside
    parentheses; and the contributions of the elements, joined by [ OR ]
    inside one more pair of parentheses, follow [ AND ] behind the base
    query and the AND filters. *)
Theorem or_group_layout :
  (forall base_query : string,
      let r := _construct_sql_statement base_query None
                 (Some [[("type", VStr "X")];
                        [("type", VList [VStr "Y"; VStr "Z"])]])
                 None "ASC" in
      r = (base_query ++ " AND ((type = ?) OR (type IN (?, ?)))",
           [VStr "X"; VStr "Y"; VStr "Z"])
      /\ Py.contains "AND ((type = ?) OR (type IN (?, ?)))" (fst r) = true)
  /\ (forall or_filter : FilterMap,
        fold_left sub_step or_filter ([], [])
        = (map (fun kv => predicate (fst kv) (classify_or (snd kv))) or_filter,
           flat_map (fun kv => op_params (classify_or (snd kv))) or_filter))
  /\ (forall (or_clauses : list string) (params : list pyval)
             (kv : string * pyval) (or_filter : FilterMap),
        or_step (or_clauses, params) (kv :: or_filter)
        = ((or_clauses
            ++ [("(" ++ Py.join " OR " (map sub_clause (kv :: or_filter))
                 ++ ")")%string])%list,
           (params ++ flat_map sub_params (kv :: or_filter))%list))
  /\ (forall (base_query : string) (filters : option FilterMap)
             (before after : list FilterMap)
             (kv : string * pyval) (or_filter : FilterMap)
             (order_direction : string),
        fst (_construct_sql_statement base_query filters
               (Some (before ++ (kv :: or_filter) :: after)%list)
               None order_direction)
        = fst (_construct_sql_statement base_query filters None None
                 order_direction)
          ++ " AND ("
          ++ Py.join " OR "
               (map or_clause
                  (live_groups before ++ (kv :: or_filter)
                     :: live_groups after)%list)
          ++ ")").
Proof.
  split; [| split; [| split]].
  - intros. subst r. split; [reflexivity|].
    change (fst (_construct_sql_statement base_query None
                   (Some [[("type", VStr "X")];
                          [("type", VList [VStr "Y"; VStr "Z"])]])
                   None "ASC"))
      with (base_query ++ " AND ((type = ?) OR (type IN (?, ?)))").
    replace (base_query ++ " AND ((type = ?) OR (type IN (?, ?)))")
      with ((base_query ++ " ")
              ++ "AND ((type = ?) OR (type IN (?, ?)))" ++ "")
      by (rewrite StrFacts.app_assoc; reflexivity).
    apply StrFacts.contains_app.
  - intros. apply (sub_loop_spec or_filter [] []).
  - intros. rewrite or_step_spec. reflexivity.
  - intros. rewrite !construct_closed_form. cbn [fst order_text].
    change (or_text None) with "".
    rewrite !StrFacts.app_nil_r, StrFacts.app_assoc. do 2 f_equal.
    unfold or_text. cbn [items_of].
    rewrite live_groups_app, live_groups_cons.
    change (live_groups [kv :: or_filter]) with [kv :: or_filter].
    cbn [app]. destruct (live_groups before); reflexivity.
Qed.

(** C2, as the specification words it, read on the text: the predicates of
    one element joined by [ AND ]. The method does not do that. *)
Lemma and_inside_element_refuted :
  fst (_construct_sql_statement "SELECT * FROM T WHERE 1=1" None
         (Some [[("a", VInt 1); ("b", VInt 2)]]) None "ASC")
  = "SELECT * FROM T WHERE 1=1 AND ((a = ? OR b = ?))"
  /\ fst (_construct_sql_statement "SELECT * FROM T WHERE 1=1" None
            (Some [[("a", VInt 1); ("b", VInt 2)]]) None "ASC")
     <> "SELECT * FROM T WHERE 1=1"
        ++ group_text " AND " " OR " (Some [[("a", VInt 1); ("b", VInt 2)]])
  /\ ~ (forall (base_query : string) (filters : option FilterMap)
               (or_filters : option (list FilterMap))
               (order_by : option string) (order_direction : string),
           fst (_construct_sql_statement base_query filters or_filters
                  order_by order_direction)
           = base_query ++ and_text filters
             ++ group_text " AND " " OR " or_filters
             ++ order_text order_by order_direction).
Proof.
  split; [reflexivity | split].
  - vm_compute. discriminate.
  - intros H.
    specialize (H "" None (Some [[("a", VInt 1); ("b", VInt 2)]]) None "ASC").
    vm_compute in H. discriminate.
Qed.

(** C2, amended. The predicates of one element of the OR-filter list are
    joined by [ OR ]; the element is put in parentheses and joined to its
    siblings by [ OR ]; the whole, in parentheses, follows [ AND ] behind the
    base query and the AND filters, before the ORDER BY clause. *)
Theorem or_inside_element
    (base_query : string) (filters : option FilterMap)
    (or_filters : option (list FilterMap))
    (order_by : option string) (order_direction : string) :
  fst (_construct_sql_statement base_query filters or_filters order_by
         order_direction)
  = base_query ++ and_text filters
    ++ group_text " OR " " OR " or_filters
    ++ order_text order_by order_direction.
Proof. rewrite construct_closed_form. reflexivity. Qed.

(** ** Placeholders and parameters *)

Section Counting.

Lemma marks_app (s t : string) : marks (s ++ t) = marks s + marks t.
Proof. apply StrFacts.count_app. Qed.

Lemma marks_cat (l : list string) : marks (cat l) = list_sum (map marks l).
Proof.
  induction l as [|x l IH]; [reflexivity|].
  simpl. now rewrite marks_app, IH.
Qed.

(** A separator without [?] adds none to a joined text. *)
Lemma marks_join (sep : string) (l : list string) :
  marks sep = 0 -> marks (Py.join sep l) = list_sum (map marks l).
Proof.
  intros Hsep. destruct l as [|x l]; [reflexivity|].
  rewrite join_cons, marks_app, marks_cat, List.map_map. simpl. f_equal.
  f_equal. apply List.map_ext. intros y. now rewrite marks_app, Hsep.
Qed.

Lemma marks_placeholders (l : list pyval) :
  marks (Py.join ", " (map (fun _ => "?") l)) = List.length l.
Proof.
  rewrite marks_join by reflexivity. rewrite List.map_map.
  induction l as [|v l IH]; [reflexivity|]. simpl. now rewrite IH.
Qed.

Lemma marks_predicate (key : string) (op : operator) :
  marks (predicate key op) = marks key + arity op.
Proof.
  destruct op; cbn [predicate arity]; rewrite !marks_app;
    rewrite ?marks_placeholders; cbn; lia.
Qed.

Lemma length_op_params (op : operator) :
  List.length (op_params op) = arity op.
Proof. destruct op; reflexivity. Qed.

Lemma list_sum_add {A : Type} (f g : A -> nat) (l : list A) :
  list_sum (map (fun a => f a + g a) l)
  = list_sum (map f l) + list_sum (map g l).
Proof. induction l as [|a l IH]; simpl; [reflexivity | rewrite IH; lia]. Qed.

Lemma length_flat_map {A B : Type} (f : A -> list B) (l : list A) :
  List.length (flat_map f l)
  = list_sum (map (fun a => List.length (f a)) l).
Proof.
  induction l as [|a l IH]; simpl; [reflexivity|].
  now rewrite List.length_app, IH.
Qed.

Lemma marks_clauses (cls : pyval -> operator) (items : FilterMap) :
  list_sum (map (fun kv => marks (predicate (fst kv) (cls (snd kv)))) items)
  = key_marks items + list_sum (map (fun kv => arity (cls (snd kv))) items).
Proof.
  unfold key_marks. rewrite <- list_sum_add. f_equal.
  apply List.map_ext. intros kv. apply marks_predicate.
Qed.

Lemma marks_and_text (filters : option FilterMap) :
  marks (and_text filters)
  = key_marks (items_of filters)
    + list_sum (map (fun kv => arity (classify (snd kv))) (items_of filters)).
Proof.
  unfold and_text. destruct (items_of filters) as [|kv l] eqn:E;
    [reflexivity|].
  rewrite marks_app, marks_join by reflexivity. rewrite List.map_map.
  change (marks " AND ") with 0. cbn [plus].
  apply (marks_clauses (fun v => classify v)).
Qed.

Lemma marks_or_clause (g : FilterMap) :
  marks (or_clause g)
  = key_marks g + list_sum (map (fun kv => arity (classify_or (snd kv))) g).
Proof.
  unfold or_clause.
  rewrite !marks_app, marks_join by reflexivity. rewrite List.map_map.
  change (marks "(") with 0. change (marks ")") with 0.
  rewrite Nat.add_0_r. cbn [plus].
  apply (marks_clauses (fun v => classify_or v)).
Qed.

Lemma marks_live (f : FilterMap -> nat) (groups : list FilterMap) :
  f [] = 0 ->
  list_sum (map f (live_groups groups)) = list_sum (map f groups).
Proof.
  intros H0. induction groups as [|g gs IH]; [reflexivity|].
  rewrite live_groups_cons, List.map_app, List.list_sum_app, IH.
  destruct g; simpl; lia.
Qed.

Lemma marks_or_text (or_filters : option (list FilterMap)) :
  marks (or_text or_filters)
  = list_sum (map key_marks (items_of or_filters))
    + list_sum
        (map (fun g =>
                list_sum (map (fun kv => arity (classify_or (snd kv))) g))
           (items_of or_filters)).
Proof.
  rewrite <- list_sum_add.
  rewrite <- (marks_live _ (items_of or_filters)) by reflexivity.
  unfold or_text.
  destruct (live_groups (items_of or_filters)) as [|g l] eqn:E;
    [reflexivity|].
  rewrite !marks_app, marks_join by reflexivity. rewrite List.map_map.
  change (marks " AND (") with 0. change (marks ")") with 0.
  rewrite Nat.add_0_r. cbn [plus]. f_equal.
  apply List.map_ext. intros h. apply (marks_or_clause h).
Qed.

End Counting.

(** ** Binding the parameters by position *)

Section Binding.

Variable show : pyval -> string.

Lemma bind_app (s t : string) (ps : list pyval) :
  bind show (s ++ t) ps
  = match bind show s ps with
    | Some (r1, ps1) =>
        match bind show t ps1 with
        | Some (r2, ps2) => Some (r1 ++ r2, ps2)
        | None => None
        end
    | None => None
    end.
Proof.
  revert ps. induction s as [|c s IH]; intros ps.
  - cbn [append bind]. destruct (bind show t ps) as [[r2 ps2]|]; reflexivity.
  - cbn [append bind]. destruct (Ascii.eqb c "?").
    + destruct ps as [|p ps]; [reflexivity|]. rewrite IH.
      destruct (bind show s ps) as [[r1 ps1]|]; [|reflexivity].
      destruct (bind show t ps1) as [[r2 ps2]|]; [|reflexivity].
      now rewrite StrFacts.app_assoc.
    + rewrite IH.
      destruct (bind show s ps) as [[r1 ps1]|]; [|reflexivity].
      destruct (bind show t ps1) as [[r2 ps2]|]; reflexivity.
Qed.

Lemma fills_plain (s : string) : marks s = 0 -> fills show s [] s.
Proof.
  unfold fills, marks. induction s as [|c s IH]; intros H rest.
  - reflexivity.
  - cbn [bind]. cbn [Str.count] in H. destruct (Ascii.eqb c "?").
    + discriminate.
    + cbn [app] in *. rewrite (IH H rest). reflexivity.
Qed.

Lemma fills_app (q1 q2 q1' q2' : string) (ps1 ps2 : list pyval) :
  fills show q1 ps1 q1' -> fills show q2 ps2 q2' ->
  fills show (q1 ++ q2) (ps1 ++ ps2) (q1' ++ q2').
Proof.
  intros H1 H2 rest. rewrite bind_app, <- List.app_assoc, H1, H2.
  reflexivity.
Qed.

Lemma fills_mark (v : pyval) : fills show "?" [v] (show v).
Proof. intros rest. cbn. now rewrite StrFacts.app_nil_r. Qed.

Lemma fills_before (s q q' : string) (ps : list pyval) :
  marks s = 0 -> fills show q ps q' -> fills show (s ++ q) ps (s ++ q').
Proof. intros Hs Hq. apply (fills_app s q s q' [] ps (fills_plain s Hs) Hq). Qed.

Lemma fills_after (s q q' : string) (ps : list pyval) :
  marks s = 0 -> fills show q ps q' -> fills show (q ++ s) ps (q' ++ s).
Proof.
  intros Hs Hq. rewrite <- (List.app_nil_r ps).
  apply (fills_app q s q' s ps [] Hq (fills_plain s Hs)).
Qed.

Lemma fills_cat {A : Type} (sep : string)
    (tq : A -> string) (tp : A -> list pyval) (ti : A -> string)
    (l : list A) :
  marks sep = 0 ->
  (forall a, In a l -> fills show (tq a) (tp a) (ti a)) ->
  fills show (cat (map (append sep) (map tq l))) (flat_map tp l)
    (cat (map (append sep) (map ti l))).
Proof.
  intros Hsep. induction l as [|a l IH]; intros H.
  - apply (fills_plain ""). reflexivity.
  - cbn [map cat fold_right flat_map]. rewrite !StrFacts.app_assoc.
    apply fills_before; [exact Hsep|]. apply fills_app.
    + apply H. now left.
    + apply IH. intros b Hb. apply H. now right.
Qed.

(** Joining texts that are each filled by their own parameters gives a
    text filled by all the parameters, in the order of the texts. *)
Lemma fills_join {A : Type} (sep : string)
    (tq : A -> string) (tp : A -> list pyval) (ti : A -> string)
    (l : list A) :
  marks sep = 0 ->
  (forall a, In a l -> fills show (tq a) (tp a) (ti a)) ->
  fills show (Py.join sep (map tq l)) (flat_map tp l)
    (Py.join sep (map ti l)).
Proof.
  intros Hsep H. destruct l as [|a l].
  - apply (fills_plain ""). reflexivity.
  - cbn [map flat_map]. rewrite !join_cons. apply fills_app.
    + apply H. now left.
    + apply fills_cat; [exact Hsep|]. intros b Hb. apply H. now right.
Qed.

Lemma flat_map_singleton {A : Type} (l : list A) :
  flat_map (fun a => [a]) l = l.
Proof. induction l as [|a l IH]; simpl; [reflexivity | now rewrite IH]. Qed.

Lemma fills_placeholders (l : list pyval) :
  fills show (Py.join ", " (map (fun _ => "?") l)) l
    (Py.join ", " (map show l)).
Proof.
  rewrite <- (flat_map_singleton l) at 2.
  apply (fills_join ", " (fun _ => "?") (fun v => [v]) show l);
    [reflexivity|].
  intros v _. apply fills_mark.
Qed.

Lemma fills_predicate (key : string) (op : operator) :
  marks key = 0 ->
  fills show (predicate key op) (op_params op) (predicate_inline show key op).
Proof.
  intros Hk. destruct op as [v | v | l | lo hi];
    cbn [predicate op_params predicate_inline]; apply fills_before;
    try exact Hk.
  - apply (fills_before " = " "?" (show v) [v]); [reflexivity|].
    apply fills_mark.
  - apply (fills_before " LIKE " "?" (show v) [v]); [reflexivity|].
    apply fills_mark.
  - apply (fills_before " IN (" _ _ l); [reflexivity|].
    apply fills_after; [reflexivity|]. apply fills_placeholders.
  - apply (fills_before " BETWEEN " ("?" ++ " AND " ++ "?")
             (show lo ++ " AND " ++ show hi) [lo; hi]); [reflexivity|].
    apply (fills_app "?" (" AND " ++ "?") (show lo) (" AND " ++ show hi)
             [lo] [hi]); [apply fills_mark|].
    apply (fills_before " AND " "?" (show hi) [hi]); [reflexivity|].
    apply fills_mark.
Qed.

End Binding.

Section Alignment.

Variable show : pyval -> string.

Lemma list_sum_zero {A : Type} (f : A -> nat) (l : list A) :
  list_sum (map f l) = 0 -> forall a, In a l -> f a = 0.
Proof.
  induction l as [|b l IH]; simpl; intros H a Ha; [contradiction|].
  destruct Ha as [<- | Ha]; [lia | apply IH; [lia | exact Ha]].
Qed.

Lemma params_live (groups : list FilterMap) :
  flat_map (flat_map sub_params) (live_groups groups)
  = flat_map (flat_map sub_params) groups.
Proof.
  induction groups as [|g gs IH]; [reflexivity|].
  rewrite live_groups_cons, List.flat_map_app.
  change (flat_map (flat_map sub_params) (g :: gs))
    with (flat_map sub_params g ++ flat_map (flat_map sub_params) gs)%list.
  f_equal; [| exact IH].
  destruct g; simpl; now rewrite ?List.app_nil_r.
Qed.

Lemma marks_order_text (order_by : option string) (d : string) :
  marks (order_text order_by d)
  = match order_by with Some col => marks col | None => 0 end.
Proof.
  destruct order_by as [[|c col]|]; try reflexivity.
  cbn [order_text]. rewrite !marks_app.
  destruct (normalise_direction_range d) as [-> | ->];
    change (marks " ORDER BY ") with 0; change (marks " ") with 0;
    cbn; lia.
Qed.

Lemma fills_clauses (sep : string) (cls : pyval -> operator)
    (items : FilterMap) :
  marks sep = 0 -> key_marks items = 0 ->
  fills show
    (Py.join sep (map (fun kv => predicate (fst kv) (cls (snd kv))) items))
    (flat_map (fun kv => op_params (cls (snd kv))) items)
    (Py.join sep
       (map (fun kv => predicate_inline show (fst kv) (cls (snd kv))) items)).
Proof.
  intros Hsep Hk.
  apply (fills_join show sep
           (fun kv => predicate (fst kv) (cls (snd kv)))
           (fun kv => op_params (cls (snd kv)))
           (fun kv => predicate_inline show (fst kv) (cls (snd kv))));
    [exact Hsep|].
  intros kv Hin. apply fills_predicate.
  apply (list_sum_zero (fun kv => marks (fst kv)) items Hk kv Hin).
Qed.

Lemma fills_and_text (filters : option FilterMap) :
  key_marks (items_of filters) = 0 ->
  fills show (and_text filters) (and_param_list filters)
    match items_of filters with
    | [] => ""
    | l =>
        " AND "
        ++ Py.join " AND "
             (map (fun kv =>
                     predicate_inline show (fst kv) (classify (snd kv))) l)
    end.
Proof.
  intros Hk. unfold and_text, and_param_list.
  destruct (items_of filters) as [|kv l] eqn:E.
  - apply (fills_plain show ""). reflexivity.
  - apply fills_before; [reflexivity|].
    apply (fills_clauses " AND " classify (kv :: l)); [reflexivity | exact Hk].
Qed.

Lemma fills_or_text (or_filters : option (list FilterMap)) :
  list_sum (map key_marks (items_of or_filters)) = 0 ->
  fills show (or_text or_filters) (or_param_list or_filters)
    match live_groups (items_of or_filters) with
    | [] => ""
    | l =>
        " AND ("
        ++ Py.join " OR "
             (map (fun g =>
                     "("
                     ++ Py.join " OR "
                          (map (fun kv =>
                                  predicate_inline show (fst kv)
                                    (classify_or (snd kv))) g)
                     ++ ")") l)
        ++ ")"
    end.
Proof.
  intros Hk. unfold or_text, or_param_list.
  rewrite <- params_live.
  assert (Hlive : forall g, In g (live_groups (items_of or_filters)) ->
                            key_marks g = 0).
  { intros g Hg. apply (list_sum_zero key_marks _ Hk).
    unfold live_groups in Hg. now apply List.filter_In in Hg. }
  destruct (live_groups (items_of or_filters)) as [|g l] eqn:E.
  - apply (fills_plain show ""). reflexivity.
  - apply fills_before; [reflexivity|]. apply fills_after; [reflexivity|].
    apply (fills_join show " OR " or_clause (flat_map sub_params)
             (fun g =>
                "("
                ++ Py.join " OR "
                     (map (fun kv =>
                             predicate_inline show (fst kv)
                               (classify_or (snd kv))) g)
                ++ ")")); [reflexivity|].
    intros h Hh. unfold or_clause.
    apply fills_before; [reflexivity|]. apply fills_after; [reflexivity|].
    apply (fills_clauses " OR " classify_or h); [reflexivity|].
    apply Hlive, Hh.
Qed.

End Alignment.

(** C1, as the specification words it, fails when a column name carries a
    [?]: with [filters = {"a?": 1, "b": 2}] the method adds three [?] to the
    query and returns two parameters, and binding by position runs out of
    parameters. *)
Lemma question_mark_in_key_refuted :
  _construct_sql_statement "Q" (Some [("a?", VInt 1); ("b", VInt 2)]) None
    None "ASC"
  = ("Q" ++ " AND a? = ? AND b = ?", [VInt 1; VInt 2])
  /\ marks " AND a? = ? AND b = ?" = 3
  /\ (forall show : pyval -> string,
        bind show "Q AND a? = ? AND b = ?" [VInt 1; VInt 2] = None)
  /\ ~ (forall (base_query : string) (filters : option FilterMap)
               (or_filters : option (list FilterMap))
               (order_by : option string) (order_direction : string),
           marks (fst (_construct_sql_statement base_query filters
                         or_filters order_by order_direction))
           = marks base_query
             + List.length
                 (snd (_construct_sql_statement base_query filters
                         or_filters order_by order_direction))).
Proof.
  split; [reflexivity | split; [reflexivity | split; [reflexivity|]]].
  intros H.
  specialize (H "Q" (Some [("a?", VInt 1); ("b", VInt 2)]) None None "ASC").
  vm_compute in H. discriminate.
Qed.

(** C1, amended. The text the method adds behind the base query has one
    [?] for each returned parameter and, besides, the [?] of the column
    names the caller supplied (filter keys and the ORDER BY column, written
    into the text as they are). The number of parameters is 2 for every
    range entry, the number of elements for every membership entry and 1
    for every equality or pattern entry. So when no column name carries a
    [?], the [?] added are exactly as many as the parameters returned, and
    binding the parameters to them by position, left to right, uses every
    parameter and puts each value in the predicate it belongs to; with a
    base query without [?] that holds of the whole query. *)
Theorem placeholders_match_parameters
    (base_query : string) (filters : option FilterMap)
    (or_filters : option (list FilterMap))
    (order_by : option string) (order_direction : string) :
  let r := _construct_sql_statement base_query filters or_filters order_by
             order_direction in
  let added := fst (_construct_sql_statement "" filters or_filters order_by
                      order_direction) in
  fst r = base_query ++ added
  /\ marks added
     = caller_marks filters or_filters order_by + List.length (snd r)
  /\ List.length (snd r) = total_arity filters or_filters
  /\ (caller_marks filters or_filters order_by = 0 ->
      marks added = List.length (snd r)
      /\ (forall show : pyval -> string,
            bind show added (snd r)
            = Some (inline_query show "" filters or_filters order_by
                      order_direction, []))
      /\ (marks base_query = 0 ->
          forall show : pyval -> string,
            bind show (fst r) (snd r)
            = Some (inline_query show base_query filters or_filters order_by
                      order_direction, []))).
Proof.
  intros r added. subst r added. rewrite !construct_closed_form.
  cbn [fst snd append].
  assert (Hlen : List.length (and_param_list filters ++ or_param_list or_filters)
                 = total_arity filters or_filters).
  { unfold and_param_list, or_param_list, total_arity, and_params, sub_params.
    rewrite List.length_app, !length_flat_map. f_equal.
    - f_equal. apply List.map_ext. intros kv. apply length_op_params.
    - f_equal. apply List.map_ext. intros g. rewrite length_flat_map.
      f_equal. apply List.map_ext. intros kv. apply length_op_params. }
  assert (Hmarks : marks (and_text filters ++ or_text or_filters
                            ++ order_text order_by order_direction)
                   = caller_marks filters or_filters order_by
                     + List.length (and_param_list filters
                                      ++ or_param_list or_filters)).
  { rewrite Hlen, !marks_app, marks_and_text, marks_or_text, marks_order_text.
    unfold caller_marks, total_arity. lia. }
  split; [reflexivity | split; [exact Hmarks | split; [exact Hlen|]]].
  intros Hc.
  assert (Hfill : forall show : pyval -> string,
            fills show
              (and_text filters ++ or_text or_filters
                 ++ order_text order_by order_direction)
              (and_param_list filters ++ or_param_list or_filters)
              (inline_query show "" filters or_filters order_by
                 order_direction)).
  { intros show. unfold caller_marks in Hc.
    assert (Hk : key_marks (items_of filters) = 0) by lia.
    assert (Ho : list_sum (map key_marks (items_of or_filters)) = 0) by lia.
    assert (Hcol : marks (order_text order_by order_direction) = 0)
      by (rewrite marks_order_text; lia).
    unfold inline_query. cbn [append].
    apply fills_app; [now apply fills_and_text|].
    apply fills_after; [exact Hcol|]. now apply fills_or_text. }
  split; [lia | split].
  - intros show. specialize (Hfill show []).
    now rewrite List.app_nil_r in Hfill.
  - intros Hb show.
    pose proof (fills_before show base_query _ _ _ Hb (Hfill show)) as H.
    specialize (H []). rewrite List.app_nil_r in H. exact H.
Qed.

Lemma placeholders_match_parameters_witness :
  bind (fun v => match v with VStr s => "'" ++ s ++ "'" | _ => "0" end)
    (fst (_construct_sql_statement "SELECT * FROM D WHERE 1=1"
            (Some [("age", VTuple [VStr "18"; VStr "65"]);
                   ("status", VList [VStr "A"; VStr "B"])])
            (Some [[("type", VStr "X")]; [("name", VStr "%Jo%")]])
            (Some "age") "desc"))
    (snd (_construct_sql_statement "SELECT * FROM D WHERE 1=1"
            (Some [("age", VTuple [VStr "18"; VStr "65"]);
                   ("status", VList [VStr "A"; VStr "B"])])
            (Some [[("type", VStr "X")]; [("name", VStr "%Jo%")]])
            (Some "age") "desc"))
  = Some ("SELECT * FROM D WHERE 1=1 AND age BETWEEN '18' AND '65'"
          ++ " AND status IN ('A', 'B')"
          ++ " AND ((type = 'X') OR (name LIKE '%Jo%'))"
          ++ " ORDER BY age DESC", []).
Proof.
  destruct (placeholders_match_parameters "SELECT * FROM D WHERE 1=1"
              (Some [("age", VTuple [VStr "18"; VStr "65"]);
                     ("status", VList [VStr "A"; VStr "B"])])
              (Some [[("type", VStr "X")]; [("name", VStr "%Jo%")]])
              (Some "age") "desc") as (_ & _ & _ & H).
  destruct (H eq_refl) as (_ & _ & Hwhole).
  exact (Hwhole eq_refl _).
Defined.

(** Outside the contract the method does raise. *)
Example raises_on_missing_direction :
  Dyn.construct (fun _ => "") "Q" VNone VNone (VStr "id") VNone
  = Raise AttributeError.
Proof. reflexivity. Qed.

Example raises_on_list_filters :
  Dyn.construct (fun _ => "") "Q" (VList [VInt 1]) VNone VNone (VStr "ASC")
  = Raise AttributeError.
Proof. reflexivity. Qed.

Example raises_on_number_or_filters :
  Dyn.construct (fun _ => "") "Q" VNone (VInt 7) VNone (VStr "ASC")
  = Raise TypeError.
Proof. reflexivity. Qed.

Section Total.

Variable format : pyval -> string.
Hypothesis format_str : forall s : string, format (VStr s) = s.

Lemma dyn_and_loop (m : FilterMap) (st : acc) :
  fold_left (Dyn.and_body format)
    (map (fun kv => (VStr (fst kv), snd kv)) m) st
  = fold_left and_step m st.
Proof.
  revert st. induction m as [|[key value] m IH]; intros st; [reflexivity|].
  cbn [map fold_left fst snd]. unfold Dyn.and_body at 2.
  cbn [fst snd]. rewrite format_str. apply IH.
Qed.

Lemma dyn_sub_loop (m : FilterMap) (st : acc) :
  fold_left (Dyn.sub_body format)
    (map (fun kv => (VStr (fst kv), snd kv)) m) st
  = fold_left sub_step m st.
Proof.
  revert st. induction m as [|[key value] m IH]; intros st; [reflexivity|].
  cbn [map fold_left fst snd]. unfold Dyn.sub_body at 2.
  cbn [fst snd]. rewrite format_str. apply IH.
Qed.

Lemma dyn_or_loop (groups : list FilterMap) (st : acc) :
  Dyn.or_loop format (map Dyn.of_map groups) st
  = Ok (fold_left or_step groups st).
Proof.
  revert st. induction groups as [|g gs IH]; intros [oc p]; [reflexivity|].
  cbn [map Dyn.or_loop Dyn.of_map Dyn.items result_bind fold_left].
  rewrite dyn_sub_loop. unfold or_step at 2.
  destruct (fold_left sub_step g ([], [])) as [sub_clauses sub_params].
  apply IH.
Qed.

Lemma truthy_of_filters (filters : option FilterMap) :
  Dyn.truthy (Dyn.of_filters filters) = Py.truthy_seq filters.
Proof. destruct filters as [[|kv m]|]; reflexivity. Qed.

Lemma truthy_of_or_filters (or_filters : option (list FilterMap)) :
  Dyn.truthy (Dyn.of_or_filters or_filters) = Py.truthy_seq or_filters.
Proof. destruct or_filters as [[|g gs]|]; reflexivity. Qed.

Lemma truthy_of_order_by (order_by : option string) :
  Dyn.truthy (Dyn.of_order_by order_by) = Py.truthy_str order_by.
Proof. destruct order_by as [[|c s]|]; reflexivity. Qed.

(** On arguments of the contract's types the untyped method raises
    nothing and returns what [_construct_sql_statement] returns. *)
Lemma construct_on_contract
    (base_query : string) (filters : option FilterMap)
    (or_filters : option (list FilterMap))
    (order_by : option string) (order_direction : string) :
  Dyn.construct format base_query (Dyn.of_filters filters)
    (Dyn.of_or_filters or_filters) (Dyn.of_order_by order_by)
    (VStr order_direction)
  = Ok (_construct_sql_statement base_query filters or_filters order_by
          order_direction).
Proof.
  unfold Dyn.construct, _construct_sql_statement.
  rewrite truthy_of_filters, truthy_of_or_filters, truthy_of_order_by.
  assert (Hand :
    (if Py.truthy_seq filters then
       entries <- Dyn.items (Dyn.of_filters filters) ;;
       Ok (fold_left (Dyn.and_body format) entries ([], []))
     else Ok ([], []))
    = Ok match filters with
         | Some items =>
             if Py.truthy_seq filters
             then fold_left and_step items ([], [])
             else ([], [])
         | None => ([], [])
         end).
  { destruct filters as [[|kv m]|]; try reflexivity.
    cbn [Py.truthy_seq Dyn.of_filters Dyn.of_map Dyn.items result_bind].
    now rewrite dyn_and_loop. }
  rewrite Hand. clear Hand. cbn [result_bind].
  destruct (match filters with
            | Some items =>
                if Py.truthy_seq filters
                then fold_left and_step items ([], [])
                else ([], [])
            | None => ([], [])
            end) as [where_clauses params].
  assert (Hor :
    (if Py.truthy_seq or_filters then
       groups <- Dyn.iterate (Dyn.of_or_filters or_filters) ;;
       Dyn.or_loop format groups ([], params)
     else Ok ([], params))
    = Ok match or_filters with
         | Some groups =>
             if Py.truthy_seq or_filters
             then fold_left or_step groups ([], params)
             else ([], params)
         | None => ([], params)
         end).
  { destruct or_filters as [[|g gs]|]; try reflexivity.
    cbn [Py.truthy_seq Dyn.of_or_filters Dyn.iterate result_bind].
    now rewrite dyn_or_loop. }
  rewrite Hor. clear Hor. cbn [result_bind].
  destruct (match or_filters with
            | Some groups =>
                if Py.truthy_seq or_filters
                then fold_left or_step groups ([], params)
                else ([], params)
            | None => ([], params)
            end) as [or_clauses params'].
  destruct order_by as [[|c col]|]; try reflexivity.
  cbn [Py.truthy_str Dyn.of_order_by Dyn.upper result_bind].
  rewrite format_str. unfold normalise_direction.
  destruct (negb (Py.str_in (Py.upper order_direction) ["ASC"; "DESC"]));
    reflexivity.
Qed.

End Total.

(** C9. Called with arguments of the types its contract names (a mapping
    or [None], a list of mappings or [None], a string or [None], a string),
    the method raises nothing, whatever the column names and the values
    are: every operation that could raise is applied to a value of the type
    it needs, and a result is returned. A column name that is no column
    name and an empty list go into the text as they are. *)
Theorem raises_nothing
    (format : pyval -> string)
    (format_str : forall s : string, format (VStr s) = s) :
  (forall (base_query : string) (filters : option FilterMap)
          (or_filters : option (list FilterMap))
          (order_by : option string) (order_direction : string),
      Dyn.construct format base_query (Dyn.of_filters filters)
        (Dyn.of_or_filters or_filters) (Dyn.of_order_by order_by)
        (VStr order_direction)
      = Ok (_construct_sql_statement base_query filters or_filters order_by
              order_direction))
  /\ (forall base_query : string,
        Dyn.construct format base_query
          (Dyn.of_filters (Some [("no such column; --", VList [])]))
          VNone VNone (VStr "ASC")
        = Ok (base_query ++ " AND no such column; -- IN ()", [])).
Proof.
  split.
  - apply construct_on_contract, format_str.
  - intros base_query.
    apply (construct_on_contract format format_str base_query
             (Some [("no such column; --", VList [])]) None None "ASC").
Qed.

Lemma raises_nothing_witness :
  Dyn.construct (fun v => match v with VStr s => s | _ => "" end)
    "SELECT * FROM E WHERE 1=1"
    (Dyn.of_filters (Some [("no such column; --", VList [])]))
    VNone VNone (VStr "ASC")
  = Ok ("SELECT * FROM E WHERE 1=1 AND no such column; -- IN ()", []).
Proof.
  apply (raises_nothing (fun v => match v with VStr s => s | _ => "" end)).
  intros s. reflexivity.
Defined.

(** ** Dictionaries built from pairs *)

Section DictFacts.

Lemma get_set (d : pydict) (k k' : string) (v : pyval) :
  Dict.get (Dict.set d k v) k'
  = if String.eqb k k' then Some v else Dict.get d k'.
Proof.
  induction d as [|[k0 v0] d IH]; cbn [Dict.set Dict.get].
  - reflexivity.
  - destruct (String.eqb_spec k0 k) as [->|Hk]; cbn [Dict.get].
    + destruct (String.eqb k k'); reflexivity.
    + rewrite IH. destruct (String.eqb_spec k0 k') as [->|Hk'];
        [| reflexivity].
      apply not_eq_sym, String.eqb_neq in Hk. now rewrite Hk.
Qed.

Lemma get_app (d1 d2 : pydict) (k : string) :
  Dict.get (d1 ++ d2)%list k
  = match Dict.get d1 k with
    | Some v => Some v
    | None => Dict.get d2 k
    end.
Proof.
  induction d1 as [|[k0 v0] d1 IH]; cbn [app Dict.get]; [reflexivity|].
  destruct (String.eqb k0 k); [reflexivity | exact IH].
Qed.

Lemma keys_set (d : pydict) (k : string) (v : pyval) :
  Dict.keys (Dict.set d k v)
  = if Py.str_in k (Dict.keys d) then Dict.keys d
    else (Dict.keys d ++ [k])%list.
Proof.
  unfold Dict.keys, Py.str_in.
  induction d as [|[k0 v0] d IH]; cbn [Dict.set map existsb fst];
    [reflexivity|].
  rewrite (String.eqb_sym k k0).
  destruct (String.eqb k0 k); cbn [map fst orb]; [reflexivity|].
  rewrite IH. destruct (existsb (String.eqb k) (map fst d)); reflexivity.
Qed.

(** Inserting pairs one after the other: a lookup finds the value of the
    last pair with that key, or what was there before. *)
Lemma get_inserted (pairs : list (string * pyval)) (d : pydict) (k : string) :
  Dict.get (fold_left (fun d kv => Dict.set d (fst kv) (snd kv)) pairs d) k
  = match last_value pairs k with
    | Some v => Some v
    | None => Dict.get d k
    end.
Proof.
  unfold last_value. revert d.
  induction pairs as [|[k0 v0] pairs IH]; intros d; cbn [fold_left rev fst snd].
  - reflexivity.
  - rewrite IH, get_app, get_set. cbn [Dict.get].
    destruct (Dict.get (rev pairs) k); [reflexivity|].
    destruct (String.eqb k0 k); reflexivity.
Qed.

Lemma filter_filter {A : Type} (f g : A -> bool) (l : list A) :
  filter f (filter g l) = filter (fun x => g x && f x) l.
Proof.
  induction l as [|x l IH]; cbn [filter]; [reflexivity|].
  destruct (g x); cbn [filter andb]; [destruct (f x) |]; now rewrite IH.
Qed.

(** The keys after inserting pairs: the keys there before, then the new
    ones in the order of their first occurrence. *)
Lemma keys_inserted (pairs : list (string * pyval)) (d : pydict) :
  Dict.keys (fold_left (fun d kv => Dict.set d (fst kv) (snd kv)) pairs d)
  = (Dict.keys d
     ++ filter (fun y => negb (Py.str_in y (Dict.keys d)))
          (dedup (map fst pairs)))%list.
Proof.
  revert d. induction pairs as [|[k v] pairs IH]; intros d;
    cbn [fold_left map dedup fst snd filter].
  - now rewrite List.app_nil_r.
  - rewrite IH, keys_set, filter_filter.
    destruct (Py.str_in k (Dict.keys d)) eqn:Hk; cbn [negb].
    + f_equal. apply List.filter_ext_in. intros y _.
      destruct (String.eqb_spec k y) as [<-|_]; cbn [negb andb];
        [now rewrite Hk | reflexivity].
    + rewrite <- List.app_assoc. cbn [app]. do 2 f_equal.
      apply List.filter_ext_in. intros y _.
      unfold Py.str_in. rewrite List.existsb_app. cbn [existsb].
      rewrite orb_false_r, negb_orb, (String.eqb_sym y k).
      apply andb_comm.
Qed.

Lemma keys_of_pairs (pairs : list (string * pyval)) :
  Dict.keys (Dict.of_pairs pairs) = dedup (map fst pairs).
Proof.
  unfold Dict.of_pairs. rewrite keys_inserted. cbn [Dict.keys map app].
  apply List.forallb_filter_id. now apply List.forallb_forall.
Qed.

Lemma NoDup_dedup (l : list string) : NoDup (dedup l).
Proof.
  induction l as [|x l IH]; cbn [dedup]; constructor.
  - rewrite List.filter_In. intros [_ H]. now rewrite String.eqb_refl in H.
  - now apply List.NoDup_filter.
Qed.

Lemma dedup_NoDup (l : list string) : NoDup l -> dedup l = l.
Proof.
  induction 1 as [|x l Hx _ IH]; cbn [dedup]; [reflexivity|].
  rewrite IH. f_equal. apply List.forallb_filter_id.
  apply List.forallb_forall. intros y Hy.
  destruct (String.eqb_spec x y) as [->|_]; [contradiction | reflexivity].
Qed.

(** Pairs with distinct keys are the items of their dictionary. *)
Lemma inserted_distinct (pairs : list (string * pyval)) (d : pydict) :
  NoDup (Dict.keys d ++ map fst pairs) ->
  fold_left (fun d kv => Dict.set d (fst kv) (snd kv)) pairs d
  = (d ++ pairs)%list.
Proof.
  revert d. induction pairs as [|[k v] pairs IH]; intros d H;
    cbn [fold_left fst snd map] in *.
  - now rewrite List.app_nil_r.
  - assert (Hset : Dict.set d k v = (d ++ [(k, v)])%list).
    { apply List.NoDup_remove_2 in H.
      assert (Hk : ~ In k (Dict.keys d))
        by (intros Hin; apply H, List.in_or_app; now left).
      clear H IH. unfold Dict.keys in Hk.
      induction d as [|[k0 v0] d IHd]; cbn [Dict.set app]; [reflexivity|].
      destruct (String.eqb_spec k0 k) as [->|_].
      - elim Hk. now left.
      - rewrite IHd; [reflexivity|]. intros Hin. apply Hk. now right. }
    rewrite Hset, IH, <- List.app_assoc; [reflexivity|].
    unfold Dict.keys in *. rewrite List.map_app, <- List.app_assoc. exact H.
Qed.

Lemma fst_zip {A B : Type} (xs : list A) (ys : list B) :
  map fst (zip xs ys) = firstn (List.length ys) xs.
Proof.
  unfold zip. revert ys.
  induction xs as [|x xs IH]; intros [|y ys]; cbn; try reflexivity.
  now rewrite IH.
Qed.

Lemma get_zip (cols : list string) (row : list pyval) (i : nat) (name : string) :
  NoDup cols -> List.length row = List.length cols ->
  nth_error cols i = Some name ->
  Dict.get (zip cols row) name = nth_error row i.
Proof.
  unfold zip. intros Hnd. revert row i.
  induction Hnd as [|c cols Hc _ IH]; intros [|v row] i Hlen Hi;
    try discriminate.
  - now destruct i.
  - cbn [combine Dict.get]. destruct i as [|i]; cbn [nth_error] in *.
    + injection Hi as ->. now rewrite String.eqb_refl.
    + destruct (String.eqb_spec c name) as [->|_].
      * elim Hc. eapply List.nth_error_In, Hi.
      * apply IH; [now injection Hlen | exact Hi].
Qed.

End DictFacts.

(** ** The executor *)

Section ExecutorFacts.

Variable DbError : Type.
Variable pyodbc_run :
  string -> string -> list pyval -> DbError + (list column * list (list pyval)).

(** X1. When the driver answers with columns of distinct names and rows that
    have one value per column, the executor returns one mapping per row, in
    the order of the rows, whose items are the column names paired with the
    values of the row, in column order; looking a column up by name gives
    the value at the position of that column. *)
Theorem execute_rows_in_column_order
    (self : SolteqTandDatabase) (query : string) (params : list pyval)
    (description : list column) (rows : list (list pyval)) :
  pyodbc_run (connection_string self) query params = inr (description, rows) ->
  NoDup (map column_name description) ->
  Forall (fun row => List.length row = List.length description) rows ->
  _execute_query DbError pyodbc_run self query params
  = inr (map (fun row => combine (map column_name description) row) rows)
  /\ (forall (row : list pyval) (i : nat) (name : string),
         In row rows ->
         nth_error (map column_name description) i = Some name ->
         Dict.get (Dict.of_pairs (zip (map column_name description) row)) name
         = nth_error row i).
Proof.
  intros Hrun Hnd Hrows. unfold _execute_query. rewrite Hrun.
  assert (Hdict : forall row, In row rows ->
            Dict.of_pairs (zip (map column_name description) row)
            = combine (map column_name description) row).
  { intros row Hin. unfold Dict.of_pairs. rewrite inserted_distinct.
    - reflexivity.
    - cbn [Dict.keys map app]. rewrite fst_zip.
      rewrite List.Forall_forall in Hrows. rewrite (Hrows row Hin).
      rewrite <- (List.length_map column_name), List.firstn_all. exact Hnd. }
  split.
  - f_equal. apply List.map_ext_in. exact Hdict.
  - intros row i name Hin Hi. rewrite (Hdict row Hin).
    apply get_zip; [exact Hnd | | exact Hi].
    rewrite List.Forall_forall in Hrows.
    now rewrite (Hrows row Hin), List.length_map.
Qed.

(** X2. Whatever the driver answers, the executor returns one mapping per row,
    in order. In the mapping of a row a name that several columns carry is
    one key, at the place of the first of them, holding the value of the
    last; a row shorter than the description gives no key for the columns
    it has no value for. *)
Theorem execute_duplicate_columns
    (self : SolteqTandDatabase) (query : string) (params : list pyval)
    (description : list column) (rows : list (list pyval)) :
  pyodbc_run (connection_string self) query params = inr (description, rows) ->
  exists result,
    _execute_query DbError pyodbc_run self query params = inr result
    /\ List.length result = List.length rows
    /\ forall (i : nat) (row : list pyval),
         nth_error rows i = Some row ->
         exists d,
           nth_error result i = Some d
           /\ (forall name,
                  Dict.get d name
                  = last_value (zip (map column_name description) row) name)
           /\ Dict.keys d
              = dedup (firstn (List.length row) (map column_name description))
           /\ NoDup (Dict.keys d).
Proof.
  intros Hrun. unfold _execute_query. rewrite Hrun.
  eexists. split; [reflexivity|]. split; [apply List.length_map|].
  intros i row Hi.
  exists (Dict.of_pairs (zip (map column_name description) row)).
  split; [| split; [| split]].
  - rewrite List.nth_error_map, Hi. reflexivity.
  - intros name. unfold Dict.of_pairs. rewrite get_inserted.
    now destruct (last_value _ name).
  - now rewrite keys_of_pairs, fst_zip.
  - rewrite keys_of_pairs. apply NoDup_dedup.
Qed.

(** X3. When every row has one value per column, all the mappings the executor
    returns have the same keys in the same order: the column names, each
    once, in the order of their first occurrence. *)
Theorem execute_uniform_keys
    (self : SolteqTandDatabase) (query : string) (params : list pyval)
    (description : list column) (rows : list (list pyval))
    (result : list pydict) :
  pyodbc_run (connection_string self) query params = inr (description, rows) ->
  Forall (fun row => List.length row = List.length description) rows ->
  _execute_query DbError pyodbc_run self query params = inr result ->
  Forall (fun d => Dict.keys d = dedup (map column_name description)) result.
Proof.
  intros Hrun Hrows. unfold _execute_query. rewrite Hrun.
  intros H. injection H as <-. apply List.Forall_map.
  apply (List.Forall_impl _ (P := fun row =>
           List.length row = List.length description)); [| exact Hrows].
  intros row Hlen. rewrite keys_of_pairs, fst_zip, Hlen.
  now rewrite <- (List.length_map column_name), List.firstn_all.
Qed.

End ExecutorFacts.

Lemma execute_rows_in_column_order_witness :
  _execute_query unit
    (fun _ _ _ =>
       inr ([ {| column_name := "cpr"; column_info := [] |};
              {| column_name := "name"; column_info := [] |} ],
            [ [VStr "0101"; VStr "A"]; [VStr "0202"; VStr "B"] ]))
    (__init__ "DSN=tand") "SELECT cpr, name FROM P WHERE 1=1" []
  = inr [ [("cpr", VStr "0101"); ("name", VStr "A")];
          [("cpr", VStr "0202"); ("name", VStr "B")] ].
Proof.
  refine (proj1 (execute_rows_in_column_order unit _ (__init__ "DSN=tand")
                   "SELECT cpr, name FROM P WHERE 1=1" []
                   [ {| column_name := "cpr"; column_info := [] |};
                     {| column_name := "name"; column_info := [] |} ]
                   [ [VStr "0101"; VStr "A"]; [VStr "0202"; VStr "B"] ]
                   eq_refl _ _)).
  - repeat constructor; simpl; intuition discriminate.
  - repeat constructor.
Defined.

Lemma execute_duplicate_columns_witness :
  exists result,
    _execute_query unit
      (fun _ _ _ =>
         inr ([ {| column_name := "id"; column_info := [] |};
                {| column_name := "name"; column_info := [] |};
                {| column_name := "id"; column_info := [] |} ],
              [ [VInt 1; VStr "A"; VInt 2] ]))
      (__init__ "DSN=tand") "Q" [] = inr result
    /\ List.length result = 1
    /\ forall (i : nat) (row : list pyval),
         nth_error [ [VInt 1; VStr "A"; VInt 2] ] i = Some row ->
         exists d,
           nth_error result i = Some d
           /\ (forall name,
                  Dict.get d name = last_value (zip ["id"; "name"; "id"] row) name)
           /\ Dict.keys d = dedup (firstn (List.length row) ["id"; "name"; "id"])
           /\ NoDup (Dict.keys d).
Proof.
  exact (execute_duplicate_columns unit _ (__init__ "DSN=tand") "Q" []
           [ {| column_name := "id"; column_info := [] |};
             {| column_name := "name"; column_info := [] |};
             {| column_name := "id"; column_info := [] |} ]
           [ [VInt 1; VStr "A"; VInt 2] ] eq_refl).
Defined.

Lemma execute_uniform_keys_witness :
  Forall (fun d => Dict.keys d = ["id"; "name"])
    [ [("id", VInt 2); ("name", VStr "A")];
      [("id", VInt 4); ("name", VStr "B")] ].
Proof.
  refine (execute_uniform_keys unit
            (fun _ _ _ =>
               inr ([ {| column_name := "id"; column_info := [] |};
                      {| column_name := "name"; column_info := [] |};
                      {| column_name := "id"; column_info := [] |} ],
                    [ [VInt 1; VStr "A"; VInt 2]; [VInt 3; VStr "B"; VInt 4] ]))
            (__init__ "DSN=tand") "Q" [] _ _ _ eq_refl _ eq_refl).
  repeat constructor.
Defined.

Example ex_duplicate_column :
  _execute_query unit
    (fun _ _ _ =>
       inr ([ {| column_name := "id"; column_info := [] |};
              {| column_name := "name"; column_info := [] |};
              {| column_name := "id"; column_info := [] |} ],
            [ [VInt 1; VStr "A"; VInt 2] ]))
    (__init__ "DSN=tand") "Q" []
  = inr [ [("id", VInt 2); ("name", VStr "A")] ].
Proof. reflexivity. Qed.

(** ** The entity queries *)

Section EntityFacts.

Variable DbError : Type.
Variable pyodbc_run :
  string -> string -> list pyval -> DbError + (list column * list (list pyval)).

Lemma order_text_none (d : string) : order_text None d = "".
Proof. reflexivity. Qed.

(** Compiling without ORDER BY and executing: what goes to the driver. *)
Lemma compile_and_execute
    (base_query : string) (self : SolteqTandDatabase)
    (filters : option FilterMap) (or_filters : option (list FilterMap)) :
  (let '(final_query, params) :=
     _construct_sql_statement base_query filters or_filters None "ASC" in
   _execute_query DbError pyodbc_run self final_query params)
  = _execute_query DbError pyodbc_run self
      (base_query ++ and_text filters ++ or_text or_filters)
      (and_param_list filters ++ or_param_list or_filters).
Proof.
  rewrite construct_closed_form, order_text_none, !StrFacts.app_nil_r.
  reflexivity.
Qed.

(** X4. Each of the six entity queries makes one call to the executor: with its
    own base query followed by the text of the AND filters and of the OR
    filters, never an ORDER BY clause, and with the parameters of the AND
    filters followed by those of the OR filters. Whatever the executor
    returns or raises is what the query returns or raises. Without filters
    the base query goes out as it is, with no parameter. *)
Theorem entity_queries_send_compiled_query :
  Forall
    (fun gb =>
       forall (self : SolteqTandDatabase) (filters : option FilterMap)
              (or_filters : option (list FilterMap)),
         fst gb self filters or_filters
         = _execute_query DbError pyodbc_run self
             (snd gb ++ and_text filters ++ or_text or_filters)
             (and_param_list filters ++ or_param_list or_filters)
         /\ fst gb self None None
            = _execute_query DbError pyodbc_run self (snd gb) [])
    (entity_queries DbError pyodbc_run).
Proof.
  unfold entity_queries.
  repeat (apply List.Forall_cons || apply List.Forall_nil);
    cbn [fst snd]; intros self filters or_filters;
    (split;
     [ apply compile_and_execute
     | etransitivity; [apply compile_and_execute|];
       cbn [and_text or_text items_of live_groups filter and_param_list
              or_param_list flat_map app];
       now rewrite !StrFacts.app_nil_r ]).
Qed.

End EntityFacts.

(** ** Placeholders at the executor *)

Section Boundary.

Lemma compiled_length
    (base_query : string) (filters : option FilterMap)
    (or_filters : option (list FilterMap))
    (order_by : option string) (order_direction : string) :
  List.length (snd (_construct_sql_statement base_query filters or_filters
                      order_by order_direction))
  = total_arity filters or_filters.
Proof.
  rewrite construct_closed_form. cbn [snd].
  unfold and_param_list, or_param_list, total_arity, and_params, sub_params.
  rewrite List.length_app, !length_flat_map. f_equal.
  - f_equal. apply List.map_ext. intros kv. apply length_op_params.
  - f_equal. apply List.map_ext. intros g. rewrite length_flat_map.
    f_equal. apply List.map_ext. intros kv. apply length_op_params.
Qed.

Lemma compiled_marks
    (base_query : string) (filters : option FilterMap)
    (or_filters : option (list FilterMap))
    (order_by : option string) (order_direction : string) :
  marks (fst (_construct_sql_statement base_query filters or_filters
                order_by order_direction))
  = marks base_query + caller_marks filters or_filters order_by
    + List.length (snd (_construct_sql_statement base_query filters
                          or_filters order_by order_direction)).
Proof.
  rewrite compiled_length, construct_closed_form. cbn [fst].
  rewrite !marks_app, marks_and_text, marks_or_text, marks_order_text.
  unfold caller_marks, total_arity. lia.
Qed.

Lemma compiled_fills
    (show : pyval -> string)
    (base_query : string) (filters : option FilterMap)
    (or_filters : option (list FilterMap))
    (order_by : option string) (order_direction : string) :
  marks base_query = 0 ->
  caller_marks filters or_filters order_by = 0 ->
  fills show
    (fst (_construct_sql_statement base_query filters or_filters order_by
            order_direction))
    (snd (_construct_sql_statement base_query filters or_filters order_by
            order_direction))
    (inline_query show base_query filters or_filters order_by
       order_direction).
Proof.
  intros Hb Hc. rewrite construct_closed_form. cbn [fst snd].
  unfold caller_marks in Hc.
  assert (Hk : key_marks (items_of filters) = 0) by lia.
  assert (Ho : list_sum (map key_marks (items_of or_filters)) = 0) by lia.
  assert (Hcol : marks (order_text order_by order_direction) = 0)
    by (rewrite marks_order_text; lia).
  unfold inline_query. apply fills_before; [exact Hb|].
  apply fills_app; [now apply fills_and_text|].
  apply fills_after; [exact Hcol|]. now apply fills_or_text.
Qed.

Variable DbError : Type.
Variable pyodbc_run :
  string -> string -> list pyval -> DbError + (list column * list (list pyval)).

(** X5. None of the six base queries has a [?] of its own. So, when no filter
    key has one either, the text an entity query hands to the executor has
    exactly as many [?] as the parameter list handed over with it has
    values, and binding them by position uses every value and puts it in
    the predicate it belongs to. *)
Theorem entity_queries_bind_every_parameter :
  Forall
    (fun gb =>
       marks (snd gb) = 0
       /\ forall (self : SolteqTandDatabase) (filters : option FilterMap)
                 (or_filters : option (list FilterMap)),
            key_marks (items_of filters) = 0 ->
            list_sum (map key_marks (items_of or_filters)) = 0 ->
            exists (query : string) (params : list pyval),
              fst gb self filters or_filters
              = _execute_query DbError pyodbc_run self query params
              /\ marks query = List.length params
              /\ forall show : pyval -> string,
                   bind show query params
                   = Some (inline_query show (snd gb) filters or_filters
                             None "ASC", []))
    (entity_queries DbError pyodbc_run).
Proof.
  assert (H : forall base_query : string,
             marks base_query = 0 ->
             forall (self : SolteqTandDatabase) (filters : option FilterMap)
                    (or_filters : option (list FilterMap)),
               key_marks (items_of filters) = 0 ->
               list_sum (map key_marks (items_of or_filters)) = 0 ->
               exists (query : string) (params : list pyval),
                 (let '(final_query, params) :=
                    _construct_sql_statement base_query filters or_filters
                      None "ASC" in
                  _execute_query DbError pyodbc_run self final_query params)
                 = _execute_query DbError pyodbc_run self query params
                 /\ marks query = List.length params
                 /\ forall show : pyval -> string,
                      bind show query params
                      = Some (inline_query show base_query filters or_filters
                                None "ASC", [])).
  { intros base_query Hb self filters or_filters Hk Ho.
    assert (Hc : caller_marks filters or_filters None = 0)
      by (unfold caller_marks; lia).
    pose proof (compiled_marks base_query filters or_filters None "ASC") as Hm.
    pose proof (fun show =>
                  compiled_fills show base_query filters or_filters None "ASC"
                    Hb Hc) as Hf.
    destruct (_construct_sql_statement base_query filters or_filters None
                "ASC") as [query params].
    cbn [fst snd] in Hm, Hf. exists query, params.
    split; [reflexivity | split; [lia|]].
    intros show. specialize (Hf show []).
    now rewrite List.app_nil_r in Hf. }
  unfold entity_queries.
  repeat (apply List.Forall_cons || apply List.Forall_nil);
    cbn [fst snd]; (split; [vm_compute; reflexivity | apply H]);
    vm_compute; reflexivity.
Qed.

End Boundary.

Lemma entity_queries_bind_every_parameter_witness :
  exists (query : string) (params : list pyval),
    get_list_of_bookings unit (fun _ _ _ => inr ([], []))
      (__init__ "DSN=tand")
      (Some [("p.cpr", VStr "0101"); ("b.StartTime", VTuple [VInt 1; VInt 2])])
      (Some [[("bt.Description", VStr "%check%")]])
    = _execute_query unit (fun _ _ _ => inr ([], [])) (__init__ "DSN=tand")
        query params
    /\ marks query = List.length params
    /\ forall show : pyval -> string,
         bind show query params
         = Some (inline_query show base_query_bookings
                   (Some [("p.cpr", VStr "0101");
                          ("b.StartTime", VTuple [VInt 1; VInt 2])])
                   (Some [[("bt.Description", VStr "%check%")]])
                   None "ASC", []).
Proof.
  pose proof (entity_queries_bind_every_parameter unit
                (fun _ _ _ => inr ([], []))) as H.
  unfold entity_queries in H.
  apply List.Forall_cons_iff, proj2 in H.
  apply List.Forall_cons_iff, proj2 in H.
  apply List.Forall_cons_iff, proj1, proj2 in H.
  apply (H (__init__ "DSN=tand")); reflexivity.
Defined.

(** ** Composition of the compiler *)

Section Composition.

Lemma join_app (sep x y : string) (l1 l2 : list string) :
  Py.join sep ((x :: l1) ++ y :: l2)
  = Py.join sep (x :: l1) ++ sep ++ Py.join sep (y :: l2).
Proof.
  cbn [app]. rewrite !join_cons, List.map_app, cat_app. cbn [map cat fold_right].
  now rewrite !StrFacts.app_assoc.
Qed.

Lemma and_text_app (l1 l2 : FilterMap) :
  and_text (Some (l1 ++ l2)%list)
  = and_text (Some l1) ++ and_text (Some l2).
Proof.
  destruct l1 as [|kv1 l1]; [reflexivity|].
  destruct l2 as [|kv2 l2].
  - rewrite List.app_nil_r. change (and_text (Some [])) with "".
    now rewrite StrFacts.app_nil_r.
  - unfold and_text. cbn [items_of app map].
    change (and_clause kv1 :: map and_clause (l1 ++ kv2 :: l2))
      with (map and_clause ((kv1 :: l1) ++ kv2 :: l2)).
    rewrite List.map_app. cbn [map]. rewrite join_app.
    now rewrite !StrFacts.app_assoc.
Qed.

End Composition.

(** X6. AND filters on different columns can be applied in stages. When
    two mappings have no key in common, so that the items of the first
    followed by the items of the second are the items of the two merged
    into one mapping, compiling the first with no OR filters and no
    ordering, then compiling the second (with any OR filters and ordering)
    on the text obtained, gives the text of compiling the merged mapping,
    and the two parameter lists, one after the other, are its parameters.
    An empty mapping at either stage adds nothing. *)
Theorem and_filters_in_stages
    (base_query : string) (first second : FilterMap)
    (or_filters : option (list FilterMap))
    (order_by : option string) (order_direction direction0 : string) :
  NoDup (map fst (first ++ second)%list) ->
  let stage1 :=
    _construct_sql_statement base_query (Some first) None None direction0 in
  let stage2 :=
    _construct_sql_statement (fst stage1) (Some second) or_filters order_by
      order_direction in
  let merged : FilterMap :=
    fold_left (fun d kv => Dict.set d (fst kv) (snd kv)) second first in
  let whole :=
    _construct_sql_statement base_query (Some merged) or_filters order_by
      order_direction in
  merged = (first ++ second)%list
  /\ fst stage2 = fst whole
  /\ (snd stage1 ++ snd stage2)%list = snd whole.
Proof.
  intros Hnd stage1 stage2 merged whole.
  assert (Hm : merged = (first ++ second)%list).
  { subst merged. apply inserted_distinct. unfold Dict.keys.
    now rewrite <- List.map_app. }
  subst stage1 stage2 whole. rewrite Hm. split; [reflexivity|].
  rewrite !construct_closed_form. cbn [fst snd].
  change (or_text None) with "". change (order_text None direction0) with "".
  change (or_param_list None) with (@nil pyval).
  rewrite and_text_app, and_param_list_app, !StrFacts.app_nil_r,
    !StrFacts.app_assoc, List.app_nil_r, <- !List.app_assoc.
  split; reflexivity.
Qed.

Lemma and_filters_in_stages_witness :
  fst (_construct_sql_statement
         (fst (_construct_sql_statement "Q" (Some [("a", VInt 1)]) None None
                 "ASC"))
         (Some [("b", VList [VInt 2; VInt 3])]) None (Some "a") "desc")
  = "Q AND a = ? AND b IN (?, ?) ORDER BY a DESC"
  /\ fst (_construct_sql_statement "Q"
            (Some [("a", VInt 1); ("b", VList [VInt 2; VInt 3])]) None
            (Some "a") "desc")
     = "Q AND a = ? AND b IN (?, ?) ORDER BY a DESC".
Proof.
  split; [reflexivity|].
  destruct (and_filters_in_stages "Q" [("a", VInt 1)]
              [("b", VList [VInt 2; VInt 3])] None (Some "a") "desc" "ASC")
    as (_ & H & _).
  - repeat constructor; simpl; intuition discriminate.
  - exact (eq_sym H).
Defined.

(** X7. The method never looks into the base query and never changes it: the
    result is the base query followed by the text compiled for an empty
    base query, so the base query is a prefix of the result; and the
    parameters depend on the filters only, not on the base query nor on the
    ordering. *)
Theorem base_query_kept_in_front
    (base_query : string) (filters : option FilterMap)
    (or_filters : option (list FilterMap))
    (order_by : option string) (order_direction : string) :
  _construct_sql_statement base_query filters or_filters order_by
    order_direction
  = (base_query
     ++ fst (_construct_sql_statement "" filters or_filters order_by
               order_direction),
     snd (_construct_sql_statement "" filters or_filters None "ASC"))
  /\ prefix base_query
       (fst (_construct_sql_statement base_query filters or_filters order_by
               order_direction)) = true.
Proof.
  rewrite !construct_closed_form. cbn [fst snd append].
  split; [reflexivity | apply StrFacts.prefix_app].
Qed.

(** X8. The direction the caller asks for never reaches the text: what follows
    the ORDER BY column is [ASC] or [DESC] and nothing else, and a direction
    that has been normalised once is left as it is. *)
Theorem direction_is_asc_or_desc
    (base_query : string) (filters : option FilterMap)
    (or_filters : option (list FilterMap)) (col d : string) :
  Py.truthy_str (Some col) = true ->
  (fst (_construct_sql_statement base_query filters or_filters (Some col) d)
   = fst (_construct_sql_statement base_query filters or_filters None d)
     ++ " ORDER BY " ++ col ++ " ASC"
   \/ fst (_construct_sql_statement base_query filters or_filters (Some col) d)
      = fst (_construct_sql_statement base_query filters or_filters None d)
        ++ " ORDER BY " ++ col ++ " DESC")
  /\ normalise_direction (normalise_direction d) = normalise_direction d.
Proof.
  intros Hcol. rewrite (order_by_appended _ _ _ _ _ Hcol). cbn [fst].
  destruct (normalise_direction_range d) as [-> | ->]; split;
    try reflexivity; [left | right]; reflexivity.
Qed.

Lemma direction_is_asc_or_desc_witness :
  (fst (_construct_sql_statement "Q" None None (Some "id")
          "desc; DROP TABLE PATIENT")
   = fst (_construct_sql_statement "Q" None None None
            "desc; DROP TABLE PATIENT")
     ++ " ORDER BY " ++ "id" ++ " ASC"
   \/ fst (_construct_sql_statement "Q" None None (Some "id")
             "desc; DROP TABLE PATIENT")
      = fst (_construct_sql_statement "Q" None None None
               "desc; DROP TABLE PATIENT")
        ++ " ORDER BY " ++ "id" ++ " DESC")
  /\ normalise_direction (normalise_direction "desc; DROP TABLE PATIENT")
     = normalise_direction "desc; DROP TABLE PATIENT".
Proof.
  apply (direction_is_asc_or_desc "Q" None None "id"
           "desc; DROP TABLE PATIENT").
  reflexivity.
Defined.

(** ** Values stay out of the text *)

Section Shapes.

Lemma placeholders_by_length (l l' : list pyval) :
  List.length l = List.length l' ->
  map (fun _ : pyval => "?") l = map (fun _ : pyval => "?") l'.
Proof.
  revert l'. induction l as [|v l IH]; intros [|v' l'] H;
    try discriminate; [reflexivity|].
  cbn [map]. f_equal. apply IH. now injection H.
Qed.

Lemma predicate_by_shape (key : string) (op op' : operator) :
  shape_of op = shape_of op' -> predicate key op = predicate key op'.
Proof.
  destruct op, op'; cbn [shape_of]; intros H; try discriminate;
    try reflexivity.
  injection H as H. cbn [predicate].
  now rewrite (placeholders_by_length _ _ H).
Qed.

Lemma clauses_by_shape (cls : pyval -> operator) (items items' : FilterMap) :
  Forall2 (same_shape cls) items items' ->
  map (fun kv => predicate (fst kv) (cls (snd kv))) items
  = map (fun kv => predicate (fst kv) (cls (snd kv))) items'.
Proof.
  induction 1 as [|kv kv' items items' [Hk Hs] _ IH]; [reflexivity|].
  cbn [map]. rewrite IH, Hk. f_equal. now apply predicate_by_shape.
Qed.

Lemma or_clauses_by_shape (groups groups' : list FilterMap) :
  Forall2 (Forall2 (same_shape classify_or)) groups groups' ->
  map or_clause (live_groups groups) = map or_clause (live_groups groups').
Proof.
  unfold live_groups.
  induction 1 as [|g g' groups groups' Hg _ IH]; [reflexivity|].
  pose proof (clauses_by_shape classify_or g g' Hg) as Hc.
  destruct Hg as [|kv kv' g g' Hkv Hg]; cbn [filter Py.nonempty];
    [exact IH|].
  cbn [map]. rewrite IH. f_equal.
  unfold or_clause, sub_clause. now rewrite Hc.
Qed.

End Shapes.

(** X9. The text of the compiled query shows the keys and the shapes of the
    values, never the values: two calls whose filters have, entry by entry,
    the same key and a value of the same shape (an equality, a pattern, a
    list of the same length, a range) compile to the same text, whatever
    the values are. The values travel in the parameter list only. *)
Theorem text_depends_on_shapes_only
    (base_query : string) (filters filters' : option FilterMap)
    (or_filters or_filters' : option (list FilterMap))
    (order_by : option string) (order_direction : string) :
  Forall2 (same_shape classify) (items_of filters) (items_of filters') ->
  Forall2 (Forall2 (same_shape classify_or))
    (items_of or_filters) (items_of or_filters') ->
  fst (_construct_sql_statement base_query filters or_filters order_by
         order_direction)
  = fst (_construct_sql_statement base_query filters' or_filters' order_by
           order_direction).
Proof.
  intros Hf Ho. rewrite !construct_closed_form. cbn [fst].
  f_equal. f_equal; [| f_equal].
  - unfold and_text. pose proof (clauses_by_shape classify _ _ Hf) as Hc.
    destruct Hf as [|kv kv' l l' Hkv Hl]; [reflexivity|].
    unfold and_clause. now rewrite Hc.
  - unfold or_text. pose proof (or_clauses_by_shape _ _ Ho) as Hc.
    destruct (live_groups (items_of or_filters)) as [|g l],
      (live_groups (items_of or_filters')) as [|g' l'];
      try discriminate; [reflexivity|].
    now rewrite Hc.
Qed.

Lemma text_depends_on_shapes_only_witness :
  fst (_construct_sql_statement "Q"
         (Some [("cpr", VStr "0101"); ("age", VTuple [VInt 18; VInt 65])])
         (Some [[("type", VList [VStr "Y"; VStr "Z"])]]) None "ASC")
  = fst (_construct_sql_statement "Q"
           (Some [("cpr", VStr "x' OR 1=1 --"); ("age", VTuple [VInt 0; VNone])])
           (Some [[("type", VList [VInt 1; VStr "?"])]]) None "ASC").
Proof.
  apply (text_depends_on_shapes_only "Q"
           (Some [("cpr", VStr "0101"); ("age", VTuple [VInt 18; VInt 65])])
           (Some [("cpr", VStr "x' OR 1=1 --");
                  ("age", VTuple [VInt 0; VNone])])
           (Some [[("type", VList [VStr "Y"; VStr "Z"])]])
           (Some [[("type", VList [VInt 1; VStr "?"])]]) None "ASC").
  - repeat constructor.
  - repeat constructor.
Defined.

(** ** Tuples that are no ranges *)

Section Occurrences.

Lemma contains_head (needle q : string) :
  Py.contains needle (needle ++ q) = true.
Proof. apply (StrFacts.contains_app "" needle q). Qed.

Lemma contains_skip (needle a t : string) :
  Py.contains needle t = true -> Py.contains needle (a ++ t) = true.
Proof.
  intros H. apply StrFacts.contains_inv in H. destruct H as (p & q & ->).
  rewrite <- StrFacts.app_assoc. apply StrFacts.contains_app.
Qed.

Lemma classify_long_tuple (l : list pyval) :
  List.length l <> 2 -> classify (VTuple l) = EQ (VTuple l).
Proof.
  destruct l as [|a [|b [|c l]]]; cbn; intros H; try reflexivity.
  now elim H.
Qed.

Lemma or_text_nonempty (or_filters : option (list FilterMap)) :
  live_groups (items_of or_filters) <> [] ->
  or_text or_filters
  = " AND ("
    ++ Py.join " OR " (map or_clause (live_groups (items_of or_filters)))
    ++ ")".
Proof.
  unfold or_text. destruct (live_groups (items_of or_filters));
    [intros H; now elim H | reflexivity].
Qed.

Lemma or_text_occurrence
    (or_filters : option (list FilterMap)) (g : FilterMap)
    (kv : string * pyval) :
  In g (live_groups (items_of or_filters)) -> In kv g ->
  exists p q, or_text or_filters = p ++ sub_clause kv ++ q.
Proof.
  intros Hg Hkv. rewrite or_text_nonempty
    by (intros Hnil; rewrite Hnil in Hg; contradiction).
  apply List.in_split in Hg. destruct Hg as (l1 & l2 & E0).
  apply List.in_split in Hkv. destruct Hkv as (g1 & g2 & ->).
  destruct (join_middle " OR " (or_clause (g1 ++ kv :: g2)%list)
              (map or_clause l1) (map or_clause l2)) as (p & q & E).
  destruct (join_middle " OR " (sub_clause kv) (map sub_clause g1)
              (map sub_clause g2)) as (p' & q' & E').
  exists (" AND (" ++ p ++ "(" ++ p'), (q' ++ ")" ++ q ++ ")").
  rewrite E0, List.map_app. cbn [map]. rewrite E.
  unfold or_clause at 1. rewrite List.map_app. cbn [map]. rewrite E'.
  now rewrite !StrFacts.app_assoc.
Qed.

(** The predicate of any entry of any OR-filter element occurs in the
    compiled query. *)
Lemma sub_clause_in_query
    (base_query : string) (filters : option FilterMap)
    (before after : list FilterMap) (g1 g2 : FilterMap)
    (kv : string * pyval)
    (order_by : option string) (order_direction : string) :
  Py.contains (sub_clause kv)
    (fst (_construct_sql_statement base_query filters
            (Some (before ++ (g1 ++ kv :: g2) :: after)%list) order_by
            order_direction)) = true.
Proof.
  rewrite construct_closed_form. cbn [fst].
  destruct (or_text_occurrence
              (Some (before ++ (g1 ++ kv :: g2) :: after)%list)
              (g1 ++ kv :: g2)%list kv) as (p & q & E).
  - unfold live_groups. cbn [items_of]. apply List.filter_In. split.
    + apply List.in_elt.
    + now destruct g1.
  - apply List.in_elt.
  - rewrite E, !StrFacts.app_assoc.
    do 3 apply contains_skip. apply contains_head.
Qed.

End Occurrences.

(** X10. A tuple is a range only as an AND-filter value of exactly two
    elements. An AND-filter tuple of any other length, and a tuple of any
    length inside an OR-filter element (also one of two elements), is
    compared by equality: the text carries [<key> = ?] and the tuple itself
    is one parameter, at the place of its entry. *)
Theorem tuples_that_are_no_ranges :
  (forall (base_query : string) (before after : FilterMap) (key : string)
          (l : list pyval) (or_filters : option (list FilterMap))
          (order_by : option string) (order_direction : string),
      List.length l <> 2 ->
      let r := _construct_sql_statement base_query
                 (Some (before ++ (key, VTuple l) :: after)%list)
                 or_filters order_by order_direction in
      Py.contains (key ++ " = ?") (fst r) = true
      /\ snd r = (and_param_list (Some before) ++ [VTuple l]
                  ++ and_param_list (Some after)
                  ++ or_param_list or_filters)%list)
  /\ (forall (base_query : string) (filters : option FilterMap)
             (before after : list FilterMap) (g1 g2 : FilterMap)
             (key : string) (l : list pyval)
             (order_by : option string) (order_direction : string),
        let r := _construct_sql_statement base_query filters
                   (Some (before ++ (g1 ++ (key, VTuple l) :: g2) :: after)%list)
                   order_by order_direction in
        Py.contains (key ++ " = ?") (fst r) = true
        /\ snd r = (and_param_list filters ++ or_param_list (Some before)
                    ++ flat_map sub_params g1 ++ [VTuple l]
                    ++ flat_map sub_params g2
                    ++ or_param_list (Some after))%list).
Proof.
  split.
  - intros base_query before after key l or_filters order_by order_direction
      Hl r. subst r.
    pose proof (and_clause_in_query base_query before after (key, VTuple l)
                  or_filters order_by order_direction) as Hc.
    unfold and_clause in Hc. cbn [fst snd] in Hc.
    rewrite (classify_long_tuple l Hl) in Hc. split; [exact Hc|].
    rewrite construct_closed_form. cbn [snd].
    rewrite and_param_list_app. unfold and_param_list at 2.
    cbn [items_of flat_map]. unfold and_params at 1. cbn [snd].
    rewrite (classify_long_tuple l Hl). cbn [op_params app].
    now rewrite <- !List.app_assoc.
  - intros. subst r. split.
    + apply (sub_clause_in_query base_query filters before after g1 g2
               (key, VTuple l)).
    + rewrite construct_closed_form. cbn [snd]. unfold or_param_list.
      cbn [items_of]. rewrite List.flat_map_app. cbn [flat_map].
      rewrite List.flat_map_app. cbn [flat_map].
      unfold sub_params at 2. cbn [snd classify_or op_params app].
      now rewrite <- !List.app_assoc.
Qed.

Lemma tuples_that_are_no_ranges_witness :
  _construct_sql_statement "Q"
    (Some [("d", VTuple [VInt 1; VInt 2; VInt 3])]) None None "ASC"
  = ("Q AND d = ?", [VTuple [VInt 1; VInt 2; VInt 3]])
  /\ Py.contains "d = ?"
       (fst (_construct_sql_statement "Q"
               (Some [("d", VTuple [VInt 1; VInt 2; VInt 3])]) None None
               "ASC")) = true.
Proof.
  split; [reflexivity|].
  apply (proj1 tuples_that_are_no_ranges "Q" [] [] "d"
           [VInt 1; VInt 2; VInt 3] None None "ASC").
  simpl. lia.
Defined.

(** ** Arguments outside the contract *)

Section Untyped.

Variable format : pyval -> string.




(** An argument that is false as a condition is not looked at any further:
    a [filters] or [or_filters] that is [None], empty, zero or [False], of
    whatever type, is the same as [None]; and with an [order_by] that is
    [None] or empty the direction is never touched, so that any value, of
    any type, is accepted for it. *)
Lemma falsy_arguments_are_ignored
    (base_query : string)
    (filters or_filters order_by order_direction : pyval) :
  (Dyn.truthy filters = false ->
   Dyn.construct format base_query filters or_filters order_by order_direction
   = Dyn.construct format base_query VNone or_filters order_by order_direction)
  /\ (Dyn.truthy or_filters = false ->
      Dyn.construct format base_query filters or_filters order_by
        order_direction
      = Dyn.construct format base_query filters VNone order_by order_direction)
  /\ (Dyn.truthy order_by = false ->
      forall anything : pyval,
        Dyn.construct format base_query filters or_filters order_by
          order_direction
        = Dyn.construct format base_query filters or_filters VNone anything).
Proof.
  unfold Dyn.construct. split; [| split].
  - intros ->. reflexivity.
  - intros ->. reflexivity.
  - intros -> anything. reflexivity.
Qed.


End Untyped.

